(** * Singlish chatbot ML service: normalizer, language classifier,
      intent engine and response composer

    A shallow embedding of the Python sources under
    [backend/ml-service] and the properties of its text pipeline.

    Modelling conventions.
    - A Python [str] is a [string]: one [ascii] per character.  The
      character classes ([str.isspace], the [\w] and [\s] of [re],
      [str.lower]) are those of Python on the ASCII range, which makes
      a [string] stand for ASCII text; characters above 127 are kept as
      opaque symbols (no case, neither space nor word character), which
      is what Python does with the emoji of the response templates.
      Where a property is about text beyond ASCII, the normalizer is
      taken over code points, with the Unicode character database of
      the interpreter as a parameter (module [Unicode]).
    - A Python [float] confidence or score is a rational ([Q]): sums,
      products and comparisons are exact.  The comparisons the code
      makes come out the same in binary floating point: a similarity
      is [k / 100.0] for an integer [k], which exceeds the literal
      [0.6] exactly when [k > 60], and a language score is reached by
      adding 0.3, 0.4 and 0.2 to 0.0, where only [0.0 + 0.3] meets the
      threshold 0.3, and does so exactly.
    - [try ... except] is explicit: a callee that can raise returns a
      [result], and the handler is the [Raise] branch of a [match].
    - Third-party code (fuzzywuzzy, scikit-learn, the interpreter's set
      iteration order, the random generator, the clock) is a parameter
      of the definitions that call it. *)

From Stdlib Require Import String Ascii List Bool Arith ZArith QArith Qminmax Lia.
From Stdlib Require Import Permutation Sorted.
From ExtLib Require Import Structures.Monad Structures.MonadState Data.Monads.StateMonad.
Import ListNotations.
Import MonadNotation.
Close Scope Q_scope.
Open Scope string_scope.
Open Scope nat_scope.

(** ** Python primitives on text *)

Module Py.

(** [str.isspace] on ASCII: TAB, LF, VT, FF, CR, FS, GS, RS, US, SPACE.
    The class [\s] of [re] (on [str] patterns) is the same set. *)
Definition isspace (c : ascii) : bool :=
  let n := nat_of_ascii c in
  ((9 <=? n) && (n <=? 13)) || ((28 <=? n) && (n <=? 32)).

Definition isupper (c : ascii) : bool :=
  let n := nat_of_ascii c in (65 <=? n) && (n <=? 90).

Definition islower (c : ascii) : bool :=
  let n := nat_of_ascii c in (97 <=? n) && (n <=? 122).

Definition isdigit (c : ascii) : bool :=
  let n := nat_of_ascii c in (48 <=? n) && (n <=? 57).

(** The class [\w] of [re]: letters, digits and the underscore. *)
Definition isword (c : ascii) : bool :=
  isupper c || islower c || isdigit c || (nat_of_ascii c =? 95).

Definition lower_char (c : ascii) : ascii :=
  if isupper c then ascii_of_nat (nat_of_ascii c + 32) else c.

Definition upper_char (c : ascii) : ascii :=
  if islower c then ascii_of_nat (nat_of_ascii c - 32) else c.

(** [s.lower()] *)
Fixpoint lower (s : string) : string :=
  match s with
  | EmptyString => EmptyString
  | String c s' => String (lower_char c) (lower s')
  end.

(** [s.capitalize()]: first character upper-cased, the rest lower-cased. *)
Definition capitalize (s : string) : string :=
  match s with
  | EmptyString => EmptyString
  | String c s' => String (upper_char c) (lower s')
  end.

(** [s.lstrip(chars)], [s.rstrip(chars)] and [s.strip(chars)] for a
    character class [p]. *)
Fixpoint lstrip_by (p : ascii -> bool) (s : string) : string :=
  match s with
  | EmptyString => EmptyString
  | String c s' => if p c then lstrip_by p s' else s
  end.

Fixpoint rstrip_by (p : ascii -> bool) (s : string) : string :=
  match s with
  | EmptyString => EmptyString
  | String c s' =>
      match rstrip_by p s' with
      | EmptyString => if p c then EmptyString else String c EmptyString
      | r => String c r
      end
  end.

Definition strip_by (p : ascii -> bool) (s : string) : string :=
  rstrip_by p (lstrip_by p s).

(** [s.strip()] *)
Definition strip (s : string) : string := strip_by isspace s.

(** Membership of a character in a string, for [s.strip('.,!?')]. *)
Fixpoint mem_char (c : ascii) (cs : string) : bool :=
  match cs with
  | EmptyString => false
  | String d cs' => Ascii.eqb c d || mem_char c cs'
  end.

Definition strip_chars (cs : string) (s : string) : string :=
  strip_by (fun c => mem_char c cs) s.

(** [s.split()]: the maximal runs of non-space characters.  [cur] is
    the token being read. *)
Fixpoint split_from (cur : string) (s : string) : list string :=
  match s with
  | EmptyString => match cur with EmptyString => [] | _ => [cur] end
  | String c s' =>
      if isspace c then
        match cur with
        | EmptyString => split_from EmptyString s'
        | _ => cur :: split_from EmptyString s'
        end
      else split_from (cur ++ String c EmptyString) s'
  end.

Definition split (s : string) : list string := split_from EmptyString s.

(** [sep.join(parts)] *)
Fixpoint join (sep : string) (parts : list string) : string :=
  match parts with
  | [] => EmptyString
  | [p] => p
  | p :: rest => p ++ sep ++ join sep rest
  end.

(** [s.startswith(sub)] *)
Fixpoint startswith (sub s : string) : bool :=
  match sub, s with
  | EmptyString, _ => true
  | String _ _, EmptyString => false
  | String c sub', String d s' => Ascii.eqb c d && startswith sub' s'
  end.

(** [sub in s] *)
Fixpoint contains (sub s : string) : bool :=
  startswith sub s ||
  match s with
  | EmptyString => false
  | String _ s' => contains sub s'
  end.

(** [s.find(sub)]: [None] stands for Python's [-1]. *)
Fixpoint find (sub s : string) : option nat :=
  if startswith sub s then Some 0
  else match s with
       | EmptyString => None
       | String _ s' => option_map S (find sub s')
       end.

(** [s[:n]] *)
Fixpoint take (n : nat) (s : string) : string :=
  match n, s with
  | S n', String c s' => String c (take n' s')
  | _, _ => EmptyString
  end.

(** [s[n:]] *)
Fixpoint drop (n : nat) (s : string) : string :=
  match n, s with
  | O, _ => s
  | S n', String _ s' => drop n' s'
  | S _, EmptyString => EmptyString
  end.

(** [s.replace(old, new)] for a non-empty [old]: occurrences are
    replaced left to right without overlap.  [skip] counts the
    characters of an occurrence still to be passed over. *)
Fixpoint replace_from (skip : nat) (old new : string) (s : string) : string :=
  match s with
  | EmptyString => EmptyString
  | String c s' =>
      match skip with
      | S k => replace_from k old new s'
      | O =>
          if startswith old s
          then new ++ replace_from (String.length old - 1) old new s'
          else String c (replace_from O old new s')
      end
  end.

Definition replace (old new : string) (s : string) : string :=
  match old with
  | EmptyString => s
  | _ => replace_from O old new s
  end.

(** [re.sub(r'\s+', ' ', s)]: [in_run] tells that the preceding
    character was a space of the run being replaced. *)
Fixpoint sub_spaces_from (in_run : bool) (s : string) : string :=
  match s with
  | EmptyString => EmptyString
  | String c s' =>
      if isspace c then
        if in_run then sub_spaces_from true s'
        else String " " (sub_spaces_from true s')
      else String c (sub_spaces_from false s')
  end.

Definition sub_spaces (s : string) : string := sub_spaces_from false s.

(** [re.sub(r'[^...]', '', s)] for a character class given by [keep]. *)
Fixpoint keep_chars (keep : ascii -> bool) (s : string) : string :=
  match s with
  | EmptyString => EmptyString
  | String c s' =>
      if keep c then String c (keep_chars keep s') else keep_chars keep s'
  end.

(** [any(x in s for x in xs)] *)
Definition any_in (xs : list string) (s : string) : bool :=
  existsb (fun x => contains x s) xs.

(** A [dict] with string keys, in insertion order.  (A key written
    twice in a literal keeps its last value; the tables below repeat a
    key only with the same value.) *)
Definition dict (V : Type) : Type := list (string * V).

Fixpoint dict_get {V : Type} (d : dict V) (k : string) : option V :=
  match d with
  | [] => None
  | (k', v) :: d' => if String.eqb k k' then Some v else dict_get d' k
  end.

Definition dict_mem {V : Type} (d : dict V) (k : string) : bool :=
  match dict_get d k with Some _ => true | None => false end.

Definition keys {V : Type} (d : dict V) : list string := map fst d.

(** [x in xs] for a list of strings *)
Definition mem (x : string) (xs : list string) : bool :=
  existsb (String.eqb x) xs.

(** [d[k] = v]: the value of a key already present is replaced where
    the key stands, a new key goes to the end. *)
Fixpoint dict_set {V : Type} (d : dict V) (k : string) (v : V) : dict V :=
  match d with
  | [] => [(k, v)]
  | (k', v') :: d' =>
      if String.eqb k k' then (k, v) :: d' else (k', v') :: dict_set d' k v
  end.

End Py.

(** ** Exceptions and the interpreter *)

(** The outcome of a call that can raise. *)
Inductive result (A : Type) : Type :=
  | Ok (a : A)
  | Raise (e : string).
Arguments Ok {A} a.
Arguments Raise {A} e.

(** [xs[i]] for a list and an index that is not negative *)
Definition index {A : Type} (xs : list A) (i : nat) : result A :=
  match nth_error xs i with
  | Some x => Ok x
  | None => Raise "IndexError"
  end.

(** [d[key]] for a dictionary *)
Definition getitem {V : Type} (d : Py.dict V) (key : string) : result V :=
  match Py.dict_get d key with
  | Some v => Ok v
  | None => Raise "KeyError"
  end.

(** A Python [set] of strings: its elements, without repetition, in the
    order they were added. *)
Definition pyset : Type := list string.

Definition set_add (x : string) (s : pyset) : pyset :=
  if Py.mem x s then s else (s ++ [x])%list.

Definition set_of_list (xs : list string) : pyset :=
  fold_left (fun s x => set_add x s) xs [].

(** What a run of the interpreter fixes besides the program: the order
    in which a set of strings is iterated ([list(s)]).  CPython derives
    it from the string hashes, which are salted per process. *)
Record interpreter : Type := {
  set_iter : pyset -> list string
}.

(** Iterating a set yields each of its elements once. *)
Definition interpreter_ok (py : interpreter) : Prop :=
  forall s : pyset, Permutation (set_iter py s) s.

(** Two iteration orders, for concrete runs. *)
Definition insertion_order : interpreter := {| set_iter := fun s => s |}.
Definition reverse_order : interpreter := {| set_iter := fun s => rev s |}.

(** ** utils/preprocessing.py *)

Module SinglishPreprocessor.

Definition singlish_mappings : Py.dict string :=
  [ ("lah", ""); ("lor", ""); ("meh", ""); ("sia", "");
    ("what", "what"); ("liddat", "like that"); ("lidat", "like that");
    ("lidis", "like this"); ("lidis", "like this"); ("macam", "like");
    ("machai", "friend"); ("machan", "friend"); ("nangi", "sister");
    ("akka", "sister"); ("aiya", "oh no"); ("aiyo", "oh no");
    ("wah", "wow"); ("shiok", "nice"); ("steady", "good");
    ("chio", "beautiful"); ("blur", "confused"); ("sian", "bored");
    ("jialat", "terrible"); ("buay", "cannot"); ("tahan", "endure");
    ("paiseh", "embarrassed"); ("kiasu", "afraid to lose");
    ("kiasi", "afraid to die"); ("bojio", "didnt invite");
    ("chope", "reserve"); ("lepak", "relax"); ("makan", "eat");
    ("tapao", "takeaway"); ("tabao", "takeaway"); ("chit chat", "chat");
    ("ang moh", "westerner"); ("mata", "police"); ("kena", "got");
    ("cannot", "cannot"); ("can", "can"); ("got", "have");
    ("never", "didnt"); ("already", "already"); ("then", "then");
    ("also", "also"); ("still", "still"); ("very", "very"); ("so", "so");
    ("like", "like"); ("want", "want"); ("dont want", "dont want");
    ("no need", "no need"); ("need", "need"); ("must", "must");
    ("confirm", "confirm"); ("sure", "sure"); ("really", "really");
    ("actually", "actually"); ("maybe", "maybe");
    ("definitely", "definitely"); ("probably", "probably") ].

Definition sinhala_romanized : Py.dict string :=
  [ ("kohomada", "how are you"); ("kohomadha", "how are you");
    ("kohomda", "how are you"); ("kohoma", "how"); ("oyage", "your");
    ("mage", "my"); ("nama", "name"); ("mama", "i"); ("oya", "you");
    ("api", "we"); ("mokakda", "what"); ("mokak", "what");
    ("kawda", "who"); ("koheda", "where"); ("kiyada", "how much");
    ("kiyanne", "saying"); ("karanne", "doing"); ("yanne", "going");
    ("enawa", "coming"); ("hari", "good"); ("honda", "good");
    ("naha", "no"); ("ow", "yes"); ("mata", "me"); ("giya", "went");
    ("awa", "came"); ("kanna", "eat"); ("bonawa", "drink");
    ("balanna", "see"); ("ahanna", "listen"); ("katha", "talk");
    ("help", "help"); ("karanna", "do"); ("denne", "give");
    ("ganna", "take"); ("therenne", "know"); ("dannawa", "know");
    ("adare", "love"); ("stuti", "thanks"); ("stutiyi", "thanks");
    ("bohoma", "very"); ("godak", "very"); ("tikak", "little");
    ("loku", "big"); ("podi", "small"); ("rassai", "delicious");
    ("watinawa", "important"); ("lassana", "beautiful");
    ("hodai", "good"); ("naraka", "bad"); ("baya", "scared");
    ("ussai", "tall"); ("pathal", "low"); ("mal", "flowers");
    ("gas", "tree"); ("pala", "fruit"); ("bath", "rice");
    ("curry", "curry"); ("kiri", "milk"); ("thee", "tea");
    ("kopi", "coffee"); ("watura", "water"); ("ira", "sun");
    ("handa", "moon"); ("tharu", "star"); ("gaha", "tree");
    ("mala", "flower"); ("wassa", "rain"); ("wata", "wind") ].

Definition contraction_mapping : Py.dict string :=
  [ ("ain't", "is not"); ("aren't", "are not"); ("can't", "cannot");
    ("couldn't", "could not"); ("didn't", "did not");
    ("doesn't", "does not"); ("don't", "do not"); ("hadn't", "had not");
    ("hasn't", "has not"); ("haven't", "have not"); ("he'd", "he would");
    ("he'll", "he will"); ("he's", "he is"); ("i'd", "i would");
    ("i'll", "i will"); ("i'm", "i am"); ("i've", "i have");
    ("isn't", "is not"); ("it'd", "it would"); ("it'll", "it will");
    ("it's", "it is"); ("let's", "let us"); ("shouldn't", "should not");
    ("that's", "that is"); ("there's", "there is");
    ("they'd", "they would"); ("they'll", "they will");
    ("they're", "they are"); ("they've", "they have");
    ("we'd", "we would"); ("we're", "we are"); ("we've", "we have");
    ("weren't", "were not"); ("what's", "what is");
    ("where's", "where is"); ("who's", "who is"); ("won't", "will not");
    ("wouldn't", "would not"); ("you'd", "you would");
    ("you'll", "you will"); ("you're", "you are");
    ("you've", "you have") ].

(** The particle list of [_process_singlish_terms]. *)
Definition particles : list string :=
  ["lah"; "lor"; "meh"; "sia"; "leh"; "hor"; "ah"].

(** [for contraction, expansion in ...items(): text = text.replace(...)] *)
Definition _expand_contractions (text : string) : string :=
  fold_left (fun text ce => Py.replace (fst ce) (snd ce) text)
            contraction_mapping text.

(** The loop body of [_process_singlish_terms]: the words appended to
    [processed_words] for one [word]. *)
Definition singlish_word (word : string) : list string :=
  if Py.mem word particles then []
  else match Py.dict_get singlish_mappings word with
       | Some mapped =>
           match mapped with EmptyString => [] | _ => [mapped] end
       | None => [word]
       end.

Definition _process_singlish_terms (text : string) : string :=
  Py.join " " (flat_map singlish_word (Py.split text)).

Definition sinhala_word (word : string) : string :=
  match Py.dict_get sinhala_romanized word with
  | Some gloss => gloss
  | None => word
  end.

Definition _process_sinhala_terms (text : string) : string :=
  Py.join " " (map sinhala_word (Py.split text)).

Definition is_mark (c : ascii) : bool :=
  Ascii.eqb c "?"%char || Ascii.eqb c "!"%char.

(** [re.sub(r'[\?\!]{2,}', '?', text)]: a maximal run of two or more
    marks becomes one question mark.  [in_run] tells that the preceding
    character belongs to a run already replaced. *)
Fixpoint sub_marks_from (in_run : bool) (s : string) : string :=
  match s with
  | EmptyString => EmptyString
  | String c s' =>
      if is_mark c then
        if in_run then sub_marks_from true s'
        else match s' with
             | String c' _ =>
                 if is_mark c' then String "?" (sub_marks_from true s')
                 else String c (sub_marks_from false s')
             | EmptyString => String c EmptyString
             end
      else String c (sub_marks_from false s')
  end.

Definition _clean_punctuation (text : string) : string :=
  let text :=
    Py.keep_chars (fun c => Py.isword c || Py.isspace c || is_mark c) text in
  sub_marks_from false text.

(** The four helper methods [process] calls, each of which may raise. *)
Record helpers : Type := {
  expand_contractions : string -> result string;
  process_singlish_terms : string -> result string;
  process_sinhala_terms : string -> result string;
  clean_punctuation : string -> result string
}.

(** [process] over given helpers.  Each assignment rebinds [text]; the
    handler [return text.lower().strip()] reads the binding current
    when the exception was raised. *)
Definition process_with (self : helpers) (text : string) : result string :=
  let text := Py.strip (Py.lower text) in
  let text := Py.sub_spaces text in
  match expand_contractions self text with
  | Raise _ => Ok (Py.strip (Py.lower text))
  | Ok text =>
  match process_singlish_terms self text with
  | Raise _ => Ok (Py.strip (Py.lower text))
  | Ok text =>
  match process_sinhala_terms self text with
  | Raise _ => Ok (Py.strip (Py.lower text))
  | Ok text =>
  match clean_punctuation self text with
  | Raise _ => Ok (Py.strip (Py.lower text))
  | Ok text =>
      let text := Py.strip text in
      Ok text
  end end end end.

(** The helpers of the class itself: none of them raises on a [str]. *)
Definition own_helpers : helpers := {|
  expand_contractions := fun t => Ok (_expand_contractions t);
  process_singlish_terms := fun t => Ok (_process_singlish_terms t);
  process_sinhala_terms := fun t => Ok (_process_sinhala_terms t);
  clean_punctuation := fun t => Ok (_clean_punctuation t)
|}.

(** [SinglishPreprocessor.process] *)
Definition process (text : string) : result string :=
  process_with own_helpers text.

(** The pipeline when no helper raises. *)
Definition pipeline (text : string) : string :=
  Py.strip
    (_clean_punctuation
       (_process_sinhala_terms
          (_process_singlish_terms
             (_expand_contractions
                (Py.sub_spaces (Py.strip (Py.lower text))))))).

(** [_calculate_singlish_intensity] *)
Definition _calculate_singlish_intensity (text : string) : Q :=
  let words := Py.split (Py.lower text) in
  match words with
  | [] => 0%Q
  | _ =>
      let singlish_count :=
        List.length
          (filter (fun word => Py.dict_mem singlish_mappings word
                               || Py.dict_mem sinhala_romanized word) words) in
      (inject_Z (Z.of_nat singlish_count) / inject_Z (Z.of_nat (List.length words)))%Q
  end.

(** The set [_detect_language_mix] builds before [list(languages)]. *)
Definition language_set (text : string) : pyset :=
  fold_left
    (fun languages word =>
       let languages :=
         if Py.dict_mem sinhala_romanized word
         then set_add "sinhala" languages else languages in
       if Py.dict_mem singlish_mappings word
       then set_add "singlish" languages else languages)
    (Py.split (Py.lower text)) (set_of_list ["english"]).

Definition _detect_language_mix (py : interpreter) (text : string) : list string :=
  set_iter py (language_set text).

Record features : Type := {
  length : nat;
  word_count : nat;
  has_question : bool;
  has_exclamation : bool;
  has_singlish_particles : bool;
  has_sinhala_terms : bool;
  has_english_contractions : bool;
  singlish_intensity : Q;
  language_mix : list string
}.

Definition extract_features (py : interpreter) (text : string) : features := {|
  length := String.length text;
  word_count := List.length (Py.split text);
  has_question := Py.contains "?" text;
  has_exclamation := Py.contains "!" text;
  has_singlish_particles :=
    Py.any_in ["lah"; "lor"; "meh"; "sia"] (Py.lower text);
  has_sinhala_terms := Py.any_in (Py.keys sinhala_romanized) (Py.lower text);
  has_english_contractions :=
    Py.any_in (Py.keys contraction_mapping) (Py.lower text);
  singlish_intensity := _calculate_singlish_intensity text;
  language_mix := _detect_language_mix py text
|}.

(** The normalizer's contract [normalize(text) -> (canonical, features)]:
    [process] and [extract_features] on the same text. *)
Definition normalize (py : interpreter) (text : string) : result string * features :=
  (process text, extract_features py text).

End SinglishPreprocessor.

(** ** Text beyond ASCII

    Outside the ASCII range the case, space and word classes of Python
    are those of the Unicode character database of the interpreter.
    Here are the operations of [str] and [re] that [process] calls, and
    [process] itself, over code points, with that database as a
    parameter. *)

Module Unicode.

Local Open Scope list_scope.

(** A [str]: its code points. *)
Definition str : Type := list N.

(** The code points of a string literal of the source.  The tables of
    the normalizer are written in ASCII. *)
Definition literal (s : string) : str :=
  map N_of_ascii (list_ascii_of_string s).

(** [a == b] *)
Fixpoint eqb (a b : str) : bool :=
  match a, b with
  | [], [] => true
  | c :: a', d :: b' => N.eqb c d && eqb a' b'
  | _, _ => false
  end.

(** What the character database decides.
    - [tolower] is the full lowercase mapping of a code point
      ([_PyUnicode_ToLowerFull]): one code point or several.
    - [final_sigma before after] tells whether a capital sigma that
      stands between the texts [before] and [after] is in final
      position.
    - [isspace] is [Py_UNICODE_ISSPACE]: [str.isspace], the separators
      of [str.split] and [str.strip], and the class [\s] of [re].
    - [isalnum] is [Py_UNICODE_ISALNUM]: with the underscore, the class
      [\w] of [re]. *)
Record database : Type := {
  tolower : N -> list N;
  final_sigma : str -> str -> bool;
  isspace : N -> bool;
  isalnum : N -> bool
}.

Definition capital_sigma : N := 931.
Definition final_small_sigma : N := 962.
Definition small_sigma : N := 963.

(** A code point that lowercasing leaves as it is. *)
Definition stable (u : database) (c : N) : Prop :=
  c <> capital_sigma /\ tolower u c = [c].

(** What is assumed of the database: on ASCII the lowercase mapping is
    that of the letters A to Z; the code points of a lowercase mapping
    are themselves left by lowercasing, and so are the two small
    sigmas. *)
Definition database_ok (u : database) : Prop :=
  (forall c, (c < 128)%N ->
     tolower u c = [if (65 <=? c)%N && (c <=? 90)%N then (c + 32)%N else c]) /\
  (forall c d, In d (tolower u c) -> stable u d) /\
  stable u final_small_sigma /\
  stable u small_sigma.

(** [s.lstrip(chars)], [s.rstrip(chars)] for a character class [p]. *)
Fixpoint lstrip_by (p : N -> bool) (s : str) : str :=
  match s with
  | [] => []
  | c :: s' => if p c then lstrip_by p s' else s
  end.

Fixpoint rstrip_by (p : N -> bool) (s : str) : str :=
  match s with
  | [] => []
  | c :: s' =>
      match rstrip_by p s' with
      | [] => if p c then [] else [c]
      | r => c :: r
      end
  end.

(** [sep.join(parts)] *)
Fixpoint join (sep : str) (parts : list str) : str :=
  match parts with
  | [] => []
  | [p] => p
  | p :: rest => p ++ sep ++ join sep rest
  end.

(** [s.startswith(sub)] *)
Fixpoint startswith (sub s : str) : bool :=
  match sub, s with
  | [], _ => true
  | _ :: _, [] => false
  | c :: sub', d :: s' => N.eqb c d && startswith sub' s'
  end.

(** [s.replace(old, new)] for a non-empty [old]; [skip] counts the
    code points of an occurrence still to be passed over. *)
Fixpoint replace_from (skip : nat) (old new : str) (s : str) : str :=
  match s with
  | [] => []
  | c :: s' =>
      match skip with
      | S k => replace_from k old new s'
      | O =>
          if startswith old s
          then new ++ replace_from (List.length old - 1) old new s'
          else c :: replace_from O old new s'
      end
  end.

Definition replace (old new : str) (s : str) : str :=
  match old with
  | [] => s
  | _ => replace_from O old new s
  end.

(** [re.sub(r'[^...]', '', s)] for a character class given by [keep]. *)
Fixpoint keep_chars (keep : N -> bool) (s : str) : str :=
  match s with
  | [] => []
  | c :: s' => if keep c then c :: keep_chars keep s' else keep_chars keep s'
  end.

(** [?] and [!] *)
Definition is_mark (c : N) : bool := N.eqb c 63 || N.eqb c 33.

(** [re.sub(r'[\?\!]{2,}', '?', text)] *)
Fixpoint sub_marks_from (in_run : bool) (s : str) : str :=
  match s with
  | [] => []
  | c :: s' =>
      if is_mark c then
        if in_run then sub_marks_from true s'
        else match s' with
             | c' :: _ =>
                 if is_mark c' then 63%N :: sub_marks_from true s'
                 else c :: sub_marks_from false s'
             | [] => [c]
             end
      else c :: sub_marks_from false s'
  end.

(** [word in d] and [d[word]] for a table of the source *)
Fixpoint lookup (d : Py.dict string) (word : str) : option str :=
  match d with
  | [] => None
  | (k, v) :: d' => if eqb word (literal k) then Some (literal v) else lookup d' word
  end.

(** [word in xs] for a list of the source *)
Definition mem (word : str) (xs : list string) : bool :=
  existsb (fun x => eqb word (literal x)) xs.

Section Database.

Variable u : database.

(** [s.lower()]: every code point is replaced by its lowercase
    mapping, a capital sigma by the final or the plain small sigma.
    [before] is the text already passed. *)
Fixpoint lower_from (before : str) (s : str) : str :=
  match s with
  | [] => []
  | c :: s' =>
      (if N.eqb c capital_sigma
       then [if final_sigma u before s' then final_small_sigma else small_sigma]
       else tolower u c)
      ++ lower_from (before ++ [c]) s'
  end.

Definition lower (s : str) : str := lower_from [] s.

(** [s.strip()] *)
Definition strip (s : str) : str :=
  rstrip_by (isspace u) (lstrip_by (isspace u) s).

(** [s.split()] *)
Fixpoint split_from (cur : str) (s : str) : list str :=
  match s with
  | [] => match cur with [] => [] | _ => [cur] end
  | c :: s' =>
      if isspace u c then
        match cur with
        | [] => split_from [] s'
        | _ => cur :: split_from [] s'
        end
      else split_from (cur ++ [c]) s'
  end.

Definition split (s : str) : list str := split_from [] s.

(** [re.sub(r'\s+', ' ', s)] *)
Fixpoint sub_spaces_from (in_run : bool) (s : str) : str :=
  match s with
  | [] => []
  | c :: s' =>
      if isspace u c then
        if in_run then sub_spaces_from true s'
        else 32%N :: sub_spaces_from true s'
      else c :: sub_spaces_from false s'
  end.

Definition sub_spaces (s : str) : str := sub_spaces_from false s.

(** The methods of [SinglishPreprocessor], as above. *)

Definition _expand_contractions (text : str) : str :=
  fold_left (fun text ce => replace (literal (fst ce)) (literal (snd ce)) text)
            SinglishPreprocessor.contraction_mapping text.

Definition singlish_word (word : str) : list str :=
  if mem word SinglishPreprocessor.particles then []
  else match lookup SinglishPreprocessor.singlish_mappings word with
       | Some mapped => match mapped with [] => [] | _ => [mapped] end
       | None => [word]
       end.

Definition _process_singlish_terms (text : str) : str :=
  join (literal " ") (flat_map singlish_word (split text)).

Definition sinhala_word (word : str) : str :=
  match lookup SinglishPreprocessor.sinhala_romanized word with
  | Some gloss => gloss
  | None => word
  end.

Definition _process_sinhala_terms (text : str) : str :=
  join (literal " ") (map sinhala_word (split text)).

Definition _clean_punctuation (text : str) : str :=
  let text :=
    keep_chars (fun c => isalnum u c || N.eqb c 95 || isspace u c || is_mark c) text in
  sub_marks_from false text.

(** [process].  No stage raises on a [str], so the handler is not
    reached. *)
Definition process (text : str) : result str :=
  let text := strip (lower text) in
  let text := sub_spaces text in
  let text := _expand_contractions text in
  let text := _process_singlish_terms text in
  let text := _process_sinhala_terms text in
  let text := _clean_punctuation text in
  let text := strip text in
  Ok text.

End Database.

(** A fragment of the database, for concrete runs: ASCII, the letters
    E-acute, dotted capital I and sigma, and the no-break space. *)
Definition fragment : database := {|
  tolower := fun c =>
    if ((65 <=? c) && (c <=? 90))%N then [(c + 32)%N]
    else if (c =? 201)%N then [233%N]
    else if (c =? 304)%N then [105%N; 775%N]
    else if (c =? 931)%N then [963%N]
    else [c];
  final_sigma := fun before after =>
    match before, after with
    | _ :: _, [] => true
    | _, _ => false
    end;
  isspace := fun c =>
    (((9 <=? c) && (c <=? 13)) || ((28 <=? c) && (c <=? 32))
     || (c =? 133) || (c =? 160))%N;
  isalnum := fun c =>
    (((48 <=? c) && (c <=? 57)) || ((65 <=? c) && (c <=? 90))
     || ((97 <=? c) && (c <=? 122))
     || (c =? 201) || (c =? 233) || (c =? 304)
     || (c =? 931) || (c =? 962) || (c =? 963))%N
|}.

End Unicode.

(** ** models/singlish_classifier.py *)

(** [min(a, b)]: the first argument unless the second is smaller. *)
Definition py_min (a b : Q) : Q :=
  match (b ?= a)%Q with Lt => b | _ => a end.

(** [a > b] on floats *)
Definition gt (a b : Q) : bool :=
  match (a ?= b)%Q with Gt => true | _ => false end.

(** [a < b] on floats *)
Definition lt (a b : Q) : bool :=
  match (a ?= b)%Q with Lt => true | _ => false end.

Module SinglishClassifier.

Record markers : Type := {
  particles : list string;
  sinhala_words : list string;
  grammar_patterns : list string;
  expressions : list string
}.

Definition singlish_markers : markers := {|
  particles := ["lah"; "lor"; "meh"; "sia"; "leh"; "hor"; "ah"];
  sinhala_words := ["kohomada"; "mama"; "oya"; "nama"; "mokakda"];
  grammar_patterns := ["got"; "never"; "already"; "still"; "also"];
  expressions := ["aiyo"; "wah"; "shiok"; "steady"; "chio"]
|}.

(** One of the four loops of [_calculate_singlish_score]:
    [for m in ms: if m in text: score += w]. *)
Definition add_markers (w : Q) (ms : list string) (text : string) (score : Q) : Q :=
  fold_left
    (fun score m => if Py.contains m text then (score + w)%Q else score)
    ms score.

Definition _calculate_singlish_score (text : string) : Q :=
  match Py.split text with
  | [] => 0%Q
  | _ =>
      let score := 0%Q in
      let score := add_markers (3 # 10) (particles singlish_markers) text score in
      let score := add_markers (4 # 10) (sinhala_words singlish_markers) text score in
      let score := add_markers (2 # 10) (grammar_patterns singlish_markers) text score in
      let score := add_markers (3 # 10) (expressions singlish_markers) text score in
      py_min score 1
  end.

Definition sinhala_indicators : list string :=
  ["kohomada"; "oyage"; "mage"; "mama"; "oya"].

Definition _contains_sinhala (text : string) : bool :=
  Py.any_in sinhala_indicators text.

Record features : Type := {
  has_particles : bool;
  has_sinhala : bool;
  word_count : nat;
  char_count : nat
}.

Definition _extract_features (text : string) : features := {|
  has_particles := Py.any_in (particles singlish_markers) text;
  has_sinhala := _contains_sinhala text;
  word_count := List.length (Py.split text);
  char_count := String.length text
|}.

Record classification_result : Type := {
  classification : string;
  confidence : Q;
  singlish_score : Q;
  result_features : features
}.

(** [classify].  Nothing in the [try] block raises on a [str], so the
    handler that answers [unknown] is not reached. *)
Definition classify (text : string) : classification_result :=
  let text_lower := Py.lower text in
  let singlish_score := _calculate_singlish_score text_lower in
  let decision :=
    if gt singlish_score (3 # 10) then ("singlish", py_min singlish_score 1)
    else if _contains_sinhala text_lower then ("sinhala_romanized", (8 # 10)%Q)
    else ("english", (1 - singlish_score)%Q) in
  {| classification := fst decision;
     confidence := snd decision;
     singlish_score := singlish_score;
     result_features := _extract_features text_lower |}.

End SinglishClassifier.

(** ** fuzzywuzzy *)

Module Fuzz.

(** One row of the longest-common-subsequence table: [prev] is the row
    of the preceding character of the first string, [diag] and [left]
    the entries up-left and left of the one being computed. *)
Fixpoint lcs_row (x : ascii) (b : string) (prev : list nat) (diag left : nat) : list nat :=
  match b, prev with
  | String y b', up :: prev' =>
      let v := if Ascii.eqb x y then S diag else Nat.max up left in
      v :: lcs_row x b' prev' up v
  | _, _ => []
  end.

Fixpoint lcs_rows (a b : string) (row : list nat) : list nat :=
  match a with
  | EmptyString => row
  | String x a' => lcs_rows a' b (lcs_row x b row 0 0)
  end.

(** Length of a longest common subsequence. *)
Definition lcs (a b : string) : nat :=
  last (lcs_rows a b (repeat 0 (String.length b))) 0.

(** The matcher of difflib ([SequenceMatcher(None, a, b)] on strings
    shorter than 200 characters, where no character counts as junk).

    [find_longest_match]: the longest block [a[i:i+k] == b[j:j+k]];
    among the longest ones the block that starts earliest in [a], and
    among those the one that starts earliest in [b]. *)
Fixpoint common_prefix (a b : string) : nat :=
  match a, b with
  | String x a', String y b' =>
      if Ascii.eqb x y then S (common_prefix a' b') else 0
  | _, _ => 0
  end.

Record block : Type := {
  in_a : nat;
  in_b : nat;
  size : nat
}.

(** The search with [a] read from position [i] on and [b] from [j] on. *)
Fixpoint longest_from (a b : string) (i j : nat) (best : block) : block :=
  match b with
  | EmptyString => best
  | String _ b' =>
      let k := common_prefix a b in
      let best :=
        if size best <? k then {| in_a := i; in_b := j; size := k |} else best in
      longest_from a b' i (S j) best
  end.

Fixpoint longest_match_from (a b : string) (i : nat) (best : block) : block :=
  match a with
  | EmptyString => best
  | String _ a' => longest_match_from a' b (S i) (longest_from a b i 0 best)
  end.

Definition find_longest_match (a b : string) : block :=
  longest_match_from a b 0 {| in_a := 0; in_b := 0; size := 0 |}.

(** The characters matched by [get_matching_blocks]: the longest
    block, and the blocks found the same way to its left and to its
    right.  [fuel] bounds the depth of the search; the length of [a]
    is enough. *)
Fixpoint matched (fuel : nat) (a b : string) : nat :=
  match fuel with
  | O => 0
  | S fuel' =>
      let m := find_longest_match a b in
      if size m =? 0 then 0
      else matched fuel' (Py.take (in_a m) a) (Py.take (in_b m) b)
           + size m
           + matched fuel' (Py.drop (in_a m + size m) a) (Py.drop (in_b m + size m) b)
  end.

Definition difflib_matches (a b : string) : nat :=
  matched (String.length a) a b.

(** [int(round(n / d))] for [d > 0]: Python rounds halves to even. *)
Definition intr (n d : Z) : Z :=
  let q := (n / d)%Z in
  let r := (n mod d)%Z in
  if (2 * r <? d)%Z then q
  else if (d <? 2 * r)%Z then (q + 1)%Z
  else if Z.even q then q else (q + 1)%Z.

(** [fuzz.ratio(s1, s2)]: equal strings score 100 and an empty string
    scores 0 against any other, before the matcher is asked; otherwise
    the score is [int(round(100 * 2 * M / T))] for [T] the two lengths
    together and [M] the number of characters the matcher matches. *)
Definition ratio_with (matches : string -> string -> nat) (s1 s2 : string) : Z :=
  if String.eqb s1 s2 then 100%Z
  else if (String.length s1 =? 0) || (String.length s2 =? 0) then 0%Z
  else intr (100 * (2 * Z.of_nat (matches s1 s2)))
            (Z.of_nat (String.length s1 + String.length s2)).

(** fuzzywuzzy takes the matcher of python-Levenshtein when that is
    installed, which matches a longest common subsequence, and the one
    of difflib otherwise.  The properties of the engine below are
    proved for every ratio that returns a percentage; the concrete runs
    are made with both. *)
Definition ratio : string -> string -> Z := ratio_with lcs.

Definition ratio_difflib : string -> string -> Z := ratio_with difflib_matches.

End Fuzz.

(** ** scikit-learn *)

(** The part of scikit-learn the intent engine calls.  A fitted
    estimator is a Python object updated in place: [fit_transform] and
    [fit] return the object as the call leaves it, next to the value
    returned or the exception raised. *)
Record sklearn : Type := {
  Vectorizer : Type;
  Matrix : Type;
  Model : Type;
  (** [TfidfVectorizer(max_features=5000, ngram_range=(1, 2), stop_words='english')] *)
  TfidfVectorizer : Vectorizer;
  fit_transform : Vectorizer -> list string -> Vectorizer * result Matrix;
  transform : Vectorizer -> list string -> result Matrix;
  (** the shuffle of [train_test_split(X, y, test_size=0.2, random_state=42, stratify=y)] *)
  shuffle_split : Matrix -> list nat -> result (Matrix * Matrix * list nat * list nat);
  (** [RandomForestClassifier(n_estimators=100, random_state=42, class_weight='balanced')] *)
  RandomForestClassifier : Model;
  fit : Model -> Matrix -> list nat -> Model * result unit;
  model_predict : Model -> Matrix -> result (list nat);
  predict_proba : Model -> Matrix -> result (list (list Q));
  accuracy_score : list nat -> list nat -> result Q;
  (** [bool(model)]: an ensemble has a [__len__], which raises before [fit] *)
  model_bool : Model -> result bool
}.

(** A stratified split refuses a [y] in which some class has a single
    member ("The least populated class in y has only 1 member"). *)
Definition stratifiable (y : list nat) : bool :=
  forallb (fun c => 2 <=? count_occ Nat.eq_dec y c) y.

Definition train_test_split (sk : sklearn) (X : Matrix sk) (y : list nat)
  : result (Matrix sk * Matrix sk * list nat * list nat) :=
  if stratifiable y then shuffle_split sk X y else Raise "ValueError".

(** [predict_proba] returns one row of class probabilities per sample. *)
Definition sklearn_ok (sk : sklearn) : Prop :=
  forall m X rows, predict_proba sk m X = Ok rows ->
  Forall (Forall (fun p => 0 <= p <= 1)%Q) rows.

(** [fuzz.ratio] is a percentage. *)
Definition ratio_ok (ratio : string -> string -> Z) : Prop :=
  forall s1 s2, (0 <= ratio s1 s2 <= 100)%Z.

(** ** models/intent_detector.py *)

Module IntentDetector.

Record intent_record : Type := {
  ir_intent : string;
  phrases : list string
}.

(** [_load_default_intents] *)
Definition _load_default_intents : list intent_record :=
  [ {| ir_intent := "greeting";
       phrases := ["kohomada"; "kohomadha"; "kohomda"; "hello"; "hi";
                   "machan kohomada"; "ayubowan"; "kohoma hari"] |};
    {| ir_intent := "self_intro";
       phrases := ["mage nama"; "my name is"; "im"; "i am";
                   "mama"; "mamai"; "mamayi"] |};
    {| ir_intent := "ask_name";
       phrases := ["oyage nama mokakda"; "whats your name"; "who are you";
                   "oya kawda"; "oyage nama"] |};
    {| ir_intent := "how_are_you";
       phrases := ["oya kohomada"; "how are you"; "oyage hal";
                   "oya hari honda neda"; "oya hondaida"] |};
    {| ir_intent := "goodbye";
       phrases := ["bye"; "goodbye"; "giya"; "mata yanna ona";
                   "see you"; "catch you later"] |};
    {| ir_intent := "thanks";
       phrases := ["thanks"; "thank you"; "stuti"; "stutiyi";
                   "bohoma stuti"; "thanks machan"] |};
    {| ir_intent := "help";
       phrases := ["help"; "help karanna"; "mata help karanna";
                   "help me"; "mokak karanne"] |} ].

(** An entry of [alternatives]: [{"intent": ..., "confidence": ...}]. *)
Record alternative : Type := {
  alt_intent : string;
  alt_confidence : Q
}.

Record prediction : Type := {
  intent : string;
  confidence : Q;
  alternatives : list alternative
}.

Definition unknown : prediction :=
  {| intent := "unknown"; confidence := 0%Q; alternatives := [] |}.

(** A value of the caller's context dictionary ([Dict[str, Any]]). *)
Inductive value : Type :=
  | VNone
  | VBool (b : bool)
  | VNum (q : Q)
  | VStr (s : string).

Definition truthy (v : option value) : bool :=
  match v with
  | None | Some VNone => false
  | Some (VBool b) => b
  | Some (VNum q) => negb (Qeq_bool q 0)
  | Some (VStr s) => negb (String.eqb s "")
  end.

Definition context : Type := Py.dict value.

(** [context.get(key) == s] *)
Definition get_is (c : context) (key s : string) : bool :=
  match Py.dict_get c key with
  | Some (VStr s') => String.eqb s' s
  | _ => false
  end.

(** [_apply_context] *)
Definition _apply_context (intent : string) (confidence : Q) (context : context)
  : string * Q :=
  let confidence :=
    if get_is context "previous_intent" "greeting" && String.eqb intent "self_intro"
    then (confidence * (12 # 10))%Q else confidence in
  let confidence :=
    if truthy (Py.dict_get context "user_id") && String.eqb intent "ask_name"
    then (confidence * (8 # 10))%Q else confidence in
  let confidence := py_min confidence 1 in
  (intent, confidence).

(** [alternatives.sort(key=lambda x: x["confidence"], reverse=True)]:
    the sort is stable, so an entry goes behind the entries of the same
    confidence that precede it in the list. *)
Fixpoint insert_desc (a : alternative) (sorted : list alternative) : list alternative :=
  match sorted with
  | [] => [a]
  | b :: rest =>
      if lt (alt_confidence a) (alt_confidence b)
      then b :: insert_desc a rest
      else a :: b :: rest
  end.

Fixpoint sort_desc (l : list alternative) : list alternative :=
  match l with
  | [] => []
  | a :: rest => insert_desc a (sort_desc rest)
  end.

(** The state of the scan of [_rule_based_predict]. *)
Record scan : Type := {
  best_match : option intent_record;
  best_score : Q;
  scan_alternatives : list alternative
}.

Section Fuzzy.

(** [fuzz.ratio] *)
Variable ratio : string -> string -> Z.

(** The body of the inner loop, for one [phrase] of [intent]. *)
Definition scan_phrase (text : string) (intent : intent_record) (st : scan)
  (phrase : string) : scan :=
  let score := (inject_Z (ratio (Py.lower text) (Py.lower phrase)) / 100)%Q in
  if gt score (best_score st) then
    {| best_match := Some intent;
       best_score := score;
       scan_alternatives :=
         match best_match st with
         | Some previous =>
             (scan_alternatives st ++
              [ {| alt_intent := ir_intent previous;
                   alt_confidence := best_score st |} ])%list
         | None => scan_alternatives st
         end |}
  else if gt score (5 # 10) then
    {| best_match := best_match st;
       best_score := best_score st;
       scan_alternatives :=
         (scan_alternatives st ++
          [ {| alt_intent := ir_intent intent; alt_confidence := score |} ])%list |}
  else st.

Definition scan_intent (text : string) (st : scan) (intent : intent_record) : scan :=
  fold_left (scan_phrase text intent) (phrases intent) st.

Definition scan_all (text : string) : scan :=
  fold_left (scan_intent text) _load_default_intents
    {| best_match := None; best_score := 0%Q; scan_alternatives := [] |}.

(** [_rule_based_predict].  [context] is a parameter of the method. *)
Definition _rule_based_predict (text : string) (context : option context)
  : prediction :=
  let st := scan_all text in
  match best_match st with
  | Some best =>
      if gt (best_score st) (6 # 10) then
        let alternatives := sort_desc (scan_alternatives st) in
        let alternatives := firstn 3 alternatives in
        {| intent := ir_intent best;
           confidence := best_score st;
           alternatives := alternatives |}
      else unknown
  | None => unknown
  end.

End Fuzzy.

(** [np.argmax]: the first index of a greatest entry; it raises on an
    empty array. *)
Fixpoint argmax_from (i : nat) (best_i : nat) (best : Q) (l : list Q) : nat :=
  match l with
  | [] => best_i
  | p :: l' =>
      if gt p best then argmax_from (S i) i p l' else argmax_from (S i) best_i best l'
  end.

Definition argmax (l : list Q) : result nat :=
  match l with
  | [] => Raise "ValueError"
  | p :: l' => Ok (argmax_from 1 0 p l')
  end.

(** The loop of [_ml_predict] that collects the alternatives, from
    index [i] on. *)
Fixpoint collect_alternatives (intent_labels : list string) (predicted_idx : nat)
  (i : nat) (probabilities : list Q) : result (list alternative) :=
  match probabilities with
  | [] => Ok []
  | prob :: rest =>
      if negb (i =? predicted_idx) && gt prob (1 # 10) then
        match index intent_labels i with
        | Raise e => Raise e
        | Ok label =>
            match collect_alternatives intent_labels predicted_idx (S i) rest with
            | Raise e => Raise e
            | Ok alts => Ok ({| alt_intent := label; alt_confidence := prob |} :: alts)
            end
        end
      else collect_alternatives intent_labels predicted_idx (S i) rest
  end.

Section Engine.

Variable py : interpreter.
Variable ratio : string -> string -> Z.
Variable sk : sklearn.

(** The fields of an [IntentDetector] that [predict] and [train] read
    or write. *)
Record engine : Type := {
  model : option (Model sk);
  vectorizer : option (Vectorizer sk);
  intent_labels : list string;
  last_accuracy : Q
}.

(** [__init__] *)
Definition init : engine :=
  {| model := None; vectorizer := None; intent_labels := []; last_accuracy := 0%Q |}.

(** [_initialize_fallback] *)
Definition _initialize_fallback (self : engine) : engine :=
  {| model := model self;
     vectorizer := vectorizer self;
     intent_labels := ["greeting"; "self_intro"; "ask_name"; "how_are_you";
                       "goodbye"; "thanks"; "help"; "unknown"];
     last_accuracy := last_accuracy self |}.

(** The [try] block of [_ml_predict]. *)
Definition ml_predict_body (self : engine) (m : Model sk) (v : Vectorizer sk)
  (text : string) (context : option context) : result prediction :=
  match transform sk v [text] with
  | Raise e => Raise e
  | Ok text_vector =>
  match predict_proba sk m text_vector with
  | Raise e => Raise e
  | Ok rows =>
  match index rows 0 with
  | Raise e => Raise e
  | Ok probabilities =>
  match argmax probabilities with
  | Raise e => Raise e
  | Ok predicted_idx =>
  match index probabilities predicted_idx with
  | Raise e => Raise e
  | Ok confidence =>
  match index (intent_labels self) predicted_idx with
  | Raise e => Raise e
  | Ok predicted_intent =>
  match collect_alternatives (intent_labels self) predicted_idx 0 probabilities with
  | Raise e => Raise e
  | Ok alternatives =>
      let alternatives := sort_desc alternatives in
      let alternatives := firstn 3 alternatives in
      let '(predicted_intent, confidence) :=
        match context with
        | Some (entry :: entries) =>
            _apply_context predicted_intent confidence (entry :: entries)
        | _ => (predicted_intent, confidence)
        end in
      Ok {| intent := predicted_intent;
            confidence := confidence;
            alternatives := alternatives |}
  end end end end end end end.

(** [_ml_predict]: any exception hands the text to the rule-based
    prediction. *)
Definition _ml_predict (self : engine) (m : Model sk) (v : Vectorizer sk)
  (text : string) (context : option context) : prediction :=
  match ml_predict_body self m v text context with
  | Ok p => p
  | Raise _ => _rule_based_predict ratio text context
  end.

(** [predict] *)
Definition predict (self : engine) (text : string) (context : option context)
  : prediction :=
  match model self with
  | None => _rule_based_predict ratio text context
  | Some m =>
      match model_bool sk m with
      | Raise _ => unknown
      | Ok false => _rule_based_predict ratio text context
      | Ok true =>
          match vectorizer self with
          | None => _rule_based_predict ratio text context
          | Some v => _ml_predict self m v text context
          end
      end
  end.

(** What [train] returns. *)
Record report : Type := {
  accuracy : Q;
  num_intents : nat;
  training_samples : nat
}.

(** [label_to_idx[label]] *)
Fixpoint label_index (labels : list string) (label : string) : result nat :=
  match labels with
  | [] => Raise "KeyError"
  | l :: rest =>
      if String.eqb label l then Ok 0
      else match label_index rest label with
           | Ok i => Ok (S i)
           | Raise e => Raise e
           end
  end.

Fixpoint label_indices (labels : list string) (ls : list string) : result (list nat) :=
  match ls with
  | [] => Ok []
  | l :: rest =>
      match label_index labels l, label_indices labels rest with
      | Ok i, Ok rest => Ok (i :: rest)
      | Raise e, _ => Raise e
      | _, Raise e => Raise e
      end
  end.

Definition set_intent_labels (self : engine) (ls : list string) : engine :=
  {| model := model self; vectorizer := vectorizer self;
     intent_labels := ls; last_accuracy := last_accuracy self |}.

Definition set_vectorizer (self : engine) (v : Vectorizer sk) : engine :=
  {| model := model self; vectorizer := Some v;
     intent_labels := intent_labels self; last_accuracy := last_accuracy self |}.

Definition set_model (self : engine) (m : Model sk) : engine :=
  {| model := Some m; vectorizer := vectorizer self;
     intent_labels := intent_labels self; last_accuracy := last_accuracy self |}.

Definition set_last_accuracy (self : engine) (a : Q) : engine :=
  {| model := model self; vectorizer := vectorizer self;
     intent_labels := intent_labels self; last_accuracy := a |}.

(** [train]: the engine as the call leaves it, and the report returned
    or the exception raised to the caller ([except ...: raise e]).  A
    sample is a pair (text, intent). *)
Definition train (self : engine) (training_data : list (string * string))
  : engine * result report :=
  let texts := map fst training_data in
  let labels := map snd training_data in
  let self := set_intent_labels self (set_iter py (set_of_list labels)) in
  match label_indices (intent_labels self) labels with
  | Raise e => (self, Raise e)
  | Ok y =>
  let self := set_vectorizer self (TfidfVectorizer sk) in
  let '(v, X) := fit_transform sk (TfidfVectorizer sk) texts in
  let self := set_vectorizer self v in
  match X with
  | Raise e => (self, Raise e)
  | Ok X =>
  match train_test_split sk X y with
  | Raise e => (self, Raise e)
  | Ok (X_train, X_test, y_train, y_test) =>
  let self := set_model self (RandomForestClassifier sk) in
  let '(m, fitted) := fit sk (RandomForestClassifier sk) X_train y_train in
  let self := set_model self m in
  match fitted with
  | Raise e => (self, Raise e)
  | Ok _ =>
  match model_predict sk m X_test with
  | Raise e => (self, Raise e)
  | Ok y_pred =>
  match accuracy_score sk y_test y_pred with
  | Raise e => (self, Raise e)
  | Ok accuracy =>
      let self := set_last_accuracy self accuracy in
      (* _save_model writes files and catches its own exceptions *)
      (self,
       Ok {| accuracy := accuracy;
             num_intents := List.length (intent_labels self);
             training_samples := List.length training_data |})
  end end end end end end.

(** The samples [_train_default_model] builds from the phrase catalogue. *)
Definition default_training_data : list (string * string) :=
  flat_map (fun i => map (fun phrase => (phrase, ir_intent i)) (phrases i))
           _load_default_intents.

(** [_train_default_model] *)
Definition _train_default_model (self : engine) : engine :=
  match train self default_training_data with
  | (self, Ok _) => self
  | (self, Raise _) => _initialize_fallback self
  end.

End Engine.

Arguments model {sk} _.
Arguments vectorizer {sk} _.
Arguments intent_labels {sk} _.
Arguments last_accuracy {sk} _.

End IntentDetector.

(** ** models/response_generator.py *)

Module ResponseGenerator.

Local Open Scope monad_scope.

Definition default_responses : Py.dict (list string) :=
  [ ("greeting",
     [ "Hari honda machan! Oya kohomada? 😊";
       "Ayubowan! Mama hari honda. Oya kohomada? 👋";
       "Hello machan! Everything good or not? 😄";
       "Wah, kohomada bro! Long time no see! 🤗" ]);
    ("self_intro",
     [ "Oya {name} neda? Hari honda! Mama CoverageBot, oyata help karanna puluwan! 🤖";
       "Nice to meet you {name}! Mama ai-powered Singlish chatbot kenek. 😊";
       "Wah {name}, nice name machan! Mata oyata Singlish walata reply karanna puluwan! 💬" ]);
    ("ask_name",
     [ "Mama CoverageBot! Singlish walata reply karanna puluwan chatbot kenek. Oyata mata kohomada kiyanawa? 😄";
       "My name is CoverageBot machan! AI-powered Singlish assistant kenek. What about you? 🤖";
       "Hehe, mama CoverageBot kiyanawa. Sri Lankan chatbot kenek. Oya? 😊" ]);
    ("how_are_you",
     [ "Mama hari honda machan! Always ready to chat! Oya kohomada? 💪";
       "I'm doing great la! Everyday also learning new Singlish words. You leh? 😊";
       "Aiyo, mama super good! Thanks for asking machan! 🌟" ]);
    ("goodbye",
     [ "Bye bye machan! Mata aye pennako! See you soon! 👋";
       "Okay la, see you later! Take care ah! 🤗";
       "Sige, giya giya! Come back and chat again okay! 😊" ]);
    ("thanks",
     [ "Mokakwath naha machan! Mata help karanna lassana! 😊";
       "Welcome la! Anytime can ask me anything! 🤝";
       "No problem bro! That's what friends are for mah! 💪" ]);
    ("help",
     [ "Mama oyata Singlish walata reply karanna puluwan! Try karala balanna - kohomada, oyage nama mokakda, thanks wage! 🤝";
       "Sure sure! I can understand Singlish and reply back. Try saying things like 'kohomada' or 'oya kawda'! 😄";
       "Of course can help! I'm here to chat in Singlish with you. What you want to know? 🤖" ]);
    ("weather",
     [ "Mata weather check karanna baha machan, but Google eken balanna puluwan! 🌤️";
       "Aiyo, I cannot check weather la. But today looks nice right? ☀️";
       "Sorry machan, weather updates mata naha. Try weather app! 🌦️" ]);
    ("love",
     [ "Aww, sweet machan! Mata podi robot kenek witharai, but thanks! 💕";
       "Hehe, so sweet! But I'm just AI la. Find real human better! 😄❤️";
       "Ayyo, mata emotions naha but appreciate the love! 🤗" ]);
    ("food",
     [ "Aiyo mata kanna baha! But rice and curry sounds good machan! 🍛";
       "Wah, food talk ah? I cannot eat but love hearing about Sri Lankan food! 🍜";
       "Cannot taste but kottu, hoppers, string hoppers all sound delicious! 🥘" ]);
    ("unknown",
     [ "Mata eka therenne naha machan! Try 'kohomada' or 'help' kiyla! 🤔";
       "Hmm, mata eka understand karanna baha. Simple Singlish walata try karanna! 😅";
       "Aiyo, mata confused! Can you say that again in simpler words? 🤷‍♂️";
       "Sorry machan, that one I don't know. Ask me something else! 💭" ]) ].

Definition context_modifiers : Py.dict (list string) :=
  [ ("first_time", ["Nice to meet you!"; "Welcome!"; "First time here ah?"]);
    ("returning", ["Welcome back!"; "Good to see you again!"; "How have you been?"]);
    ("frequent", ["My regular customer!"; "Always here ah!"; "You really like chatting!"]);
    ("morning", ["Good morning!"; "Early bird today!"; "Rise and shine!"]);
    ("afternoon", ["Good afternoon!"; "Hope you had lunch!"; "Midday chat!"]);
    ("evening", ["Good evening!"; "End of day chat!"; "How was your day?"]);
    ("night", ["Good night!"; "Late night chat ah?"; "Cannot sleep ah?"]) ].

(** The state of the module [random]: the outputs its generator is
    still to produce. *)
Definition rng : Type := nat -> Z.

Definition next : state rng Z :=
  g <- get ;;
  put (fun i => g (S i)) ;;
  ret (g 0).

(** [random.random()]: a multiple of [2^-53] in [[0, 1)]. *)
Definition random : state rng Q :=
  z <- next ;;
  ret (Qmake (z mod 2 ^ 53) (2 ^ 53)).

(** [random.choice(seq)]: [seq[_randbelow(len(seq))]]; an empty
    sequence raises before the generator is asked. *)
Definition choice {A : Type} (seq : list A) : state rng (result A) :=
  match seq with
  | [] => ret (Raise "IndexError")
  | _ =>
      z <- next ;;
      ret (index seq (Z.to_nat (z mod Z.of_nat (List.length seq))))
  end.

Definition patterns : list string :=
  ["my name is "; "i am "; "im "; "mage nama "; "mama "; "mamai "; "mamayi "].

(** The loop of [_extract_name] over the patterns still to try. *)
Fixpoint extract_name_from (patterns : list string) (message message_lower : string)
  : option string :=
  match patterns with
  | [] => None
  | pattern :: rest =>
      match Py.find pattern message_lower with
      | Some at_ =>
          let start_idx := at_ + String.length pattern in
          let remaining := Py.strip (Py.drop start_idx message) in
          match Py.split remaining with
          | first :: _ =>
              let name := Py.strip_chars ".,!?" first in
              Some (Py.capitalize name)
          | [] => extract_name_from rest message message_lower
          end
      | None => extract_name_from rest message message_lower
      end
  end.

(** [_extract_name] *)
Definition _extract_name (message : string) : option string :=
  extract_name_from patterns message (Py.lower message).

(** [response.format(name=name)] for a template whose only
    replacement field is [{name}]. *)
Definition format_name (response name : string) : string :=
  Py.replace "{name}" name response.

(** [_get_base_response] *)
Definition _get_base_response (intent message : string) : state rng string :=
  let failed := "Mata eka therenne naha machan! 🤔" in
  match Py.dict_get default_responses intent with
  | Some responses =>
      let slotted :=
        if String.eqb intent "self_intro" then
          match _extract_name message with
          | Some (String c name) => Some (String c name)
          | _ => None
          end
        else None in
      match slotted with
      | Some name =>
          r <- choice responses ;;
          match r with
          | Ok response => ret (format_name response name)
          | Raise _ => ret failed
          end
      | None =>
          r <- choice responses ;;
          match r with
          | Ok response => ret response
          | Raise _ => ret failed
          end
      end
  | None =>
      match getitem default_responses "unknown" with
      | Ok responses =>
          r <- choice responses ;;
          match r with
          | Ok response => ret response
          | Raise _ => ret failed
          end
      | Raise _ => ret failed
      end
  end.

(** [_apply_personalization] *)
Definition _apply_personalization (response : string) : state rng string :=
  r <- choice [true; false] ;;
  match r with
  | Ok true =>
      u <- random ;;
      if lt u (3 # 10) then
        match getitem context_modifiers "returning" with
        | Ok modifiers =>
            m <- choice modifiers ;;
            match m with
            | Ok modifier => ret (response ++ " " ++ modifier)
            | Raise _ => ret response
            end
        | Raise _ => ret response
        end
      else ret response
  | Ok false => ret response
  | Raise _ => ret response
  end.

(** [_apply_context_modifiers]; [current_hour] is
    [datetime.datetime.now().hour]. *)
Definition _apply_context_modifiers (current_hour : nat) (response : string)
  : state rng string :=
  let time_context :=
    if (5 <=? current_hour) && (current_hour <? 12) then "morning"
    else if (12 <=? current_hour) && (current_hour <? 17) then "afternoon"
    else if (17 <=? current_hour) && (current_hour <? 21) then "evening"
    else "night" in
  u <- random ;;
  if lt u (2 # 10) then
    match getitem context_modifiers time_context with
    | Ok modifiers =>
        m <- choice modifiers ;;
        match m with
        | Ok time_modifier => ret (time_modifier ++ " " ++ response)
        | Raise _ => ret response
        end
    | Raise _ => ret response
    end
  else ret response.

Definition uncertainty_markers : list string :=
  ["I think"; "Maybe"; "Not sure but"; "Probably"].

(** [_add_personality] *)
Definition _add_personality (response : string) (confidence : Q) : state rng string :=
  if lt confidence (7 # 10) then
    u <- random ;;
    if lt u (3 # 10) then
      m <- choice uncertainty_markers ;;
      match m with
      | Ok marker => ret (marker ++ " " ++ Py.lower response)
      | Raise _ => ret response
      end
    else ret response
  else if gt confidence (9 # 10) then
    u <- random ;;
    if lt u (2 # 10) then ret (response ++ " 🎉") else ret response
  else ret response.

Record composed : Type := {
  response : string;
  strategy : string;
  confidence : Q;
  personalized : bool
}.

(** [if user_id:] for an optional string *)
Definition given (user_id : option string) : bool :=
  match user_id with
  | Some (String _ _) => true
  | _ => false
  end.

(** [generate].  The helpers catch what they raise, so the handler
    that answers the fixed apology is not reached. *)
Definition generate (current_hour : nat) (message intent : string) (confidence : Q)
  (user_id session_id : option string) : state rng composed :=
  base_response <- _get_base_response intent message ;;
  base_response <-
    (if given user_id then _apply_personalization base_response
     else ret base_response) ;;
  final_response <- _apply_context_modifiers current_hour base_response ;;
  final_response <- _add_personality final_response confidence ;;
  ret {| response := final_response;
         strategy := "template_based";
         confidence := confidence;
         personalized := match user_id with Some _ => true | None => false end |}.

(** The fields of a [ResponseGenerator] that [train] reads or writes:
    [templates] is the attribute [default_responses], which starts as
    the table above and grows with every training. *)
Record generator : Type := {
  templates : Py.dict (list string);
  quality_score : Q
}.

(** [__init__] *)
Definition init : generator :=
  {| templates := default_responses; quality_score := 85 # 100 |}.

(** A training sample: [item.get("intent")] and [item.get("response")],
    [None] for a key the sample lacks. *)
Record item : Type := {
  item_intent : option string;
  item_response : option string
}.

(** The body of the loop of [train] for one sample.  Both lookups
    [self.default_responses[intent]] read the same list. *)
Definition learn (responses : Py.dict (list string)) (sample : item)
  : Py.dict (list string) * result unit :=
  match item_intent sample, item_response sample with
  | Some (String _ _ as intent), Some (String _ _ as response) =>
      let responses :=
        if Py.dict_mem responses intent then responses
        else Py.dict_set responses intent [] in
      match getitem responses intent with
      | Ok known =>
          if Py.mem response known then (responses, Ok tt)
          else (Py.dict_set responses intent (known ++ [response])%list, Ok tt)
      | Raise e => (responses, Raise e)
      end
  | _, _ => (responses, Ok tt)
  end.

Fixpoint learn_all (responses : Py.dict (list string)) (training_data : list item)
  : Py.dict (list string) * result unit :=
  match training_data with
  | [] => (responses, Ok tt)
  | sample :: rest =>
      match learn responses sample with
      | (responses, Ok _) => learn_all responses rest
      | (responses, Raise e) => (responses, Raise e)
      end
  end.

(** What [train] returns. *)
Record training_report : Type := {
  updated_intents : nat;
  total_responses : nat;
  report_quality_score : Q
}.

(** [train]: the generator as the call leaves it, and the report
    returned or the exception raised to the caller.  [_save_templates]
    writes a file and catches its own exceptions. *)
Definition train (self : generator) (training_data : list item)
  : generator * result training_report :=
  match learn_all (templates self) training_data with
  | (responses, Ok _) =>
      let self := {| templates := responses; quality_score := 9 # 10 |} in
      (self,
       Ok {| updated_intents := List.length (templates self);
             total_responses :=
               list_sum (map (fun kv => List.length (snd kv)) (templates self));
             report_quality_score := quality_score self |})
  | (responses, Raise e) =>
      ({| templates := responses; quality_score := quality_score self |}, Raise e)
  end.

(** [_get_base_response] and [generate] for a generator [self]: the
    attribute [default_responses] they read is [templates self], the
    table above for a generator as constructed and what [train] has
    made of it afterwards.  [format_name] stands for [str.format] as it
    acts on the [self_intro] templates of the table above. *)
Module Self.

Definition _get_base_response (self : generator) (intent message : string)
  : state rng string :=
  let failed := "Mata eka therenne naha machan! 🤔" in
  match Py.dict_get (templates self) intent with
  | Some responses =>
      let slotted :=
        if String.eqb intent "self_intro" then
          match _extract_name message with
          | Some (String c name) => Some (String c name)
          | _ => None
          end
        else None in
      match slotted with
      | Some name =>
          r <- choice responses ;;
          match r with
          | Ok response => ret (format_name response name)
          | Raise _ => ret failed
          end
      | None =>
          r <- choice responses ;;
          match r with
          | Ok response => ret response
          | Raise _ => ret failed
          end
      end
  | None =>
      match getitem (templates self) "unknown" with
      | Ok responses =>
          r <- choice responses ;;
          match r with
          | Ok response => ret response
          | Raise _ => ret failed
          end
      | Raise _ => ret failed
      end
  end.

Definition generate (self : generator) (current_hour : nat) (message intent : string)
  (confidence : Q) (user_id session_id : option string) : state rng composed :=
  base_response <- _get_base_response self intent message ;;
  base_response <-
    (if given user_id then _apply_personalization base_response
     else ret base_response) ;;
  final_response <- _apply_context_modifiers current_hour base_response ;;
  final_response <- _add_personality final_response confidence ;;
  ret {| response := final_response;
         strategy := "template_based";
         confidence := confidence;
         personalized := match user_id with Some _ => true | None => false end |}.

End Self.

End ResponseGenerator.

(** ** main.py *)

Module Main.

Local Open Scope monad_scope.

(** [detect_intent] *)
Definition detect_intent (message : string) : string * Q :=
  let message := Py.lower message in
  if Py.any_in ["kohomada"; "hello"; "hi"; "ayubowan"] message
  then ("greeting", (9 # 10)%Q)
  else if Py.any_in ["nama mokakda"; "whats your name"; "who are you"; "oya kawda"] message
  then ("ask_name", (85 # 100)%Q)
  else if Py.any_in ["mage nama"; "my name is"; "i am"; "mama"] message
  then ("self_intro", (8 # 10)%Q)
  else if Py.any_in ["oya kohomada"; "how are you"; "kohoma hari"] message
  then ("how_are_you", (85 # 100)%Q)
  else if Py.any_in ["thanks"; "thank you"; "stuti"; "stutiyi"] message
  then ("thanks", (9 # 10)%Q)
  else if Py.any_in ["bye"; "goodbye"; "giya"; "see you"] message
  then ("goodbye", (8 # 10)%Q)
  else if Py.any_in ["help"; "mokak karanne"] message
  then ("help", (85 # 100)%Q)
  else ("unknown", (3 # 10)%Q).

(** The table [responses] of [generate_response]. *)
Definition responses : Py.dict (list string) :=
  [ ("greeting",
     [ "Hari honda machan! Oya kohomada? 😊";
       "Ayubowan! Mama hari honda. Oya kohomada? 👋";
       "Hello machan! Everything good or not? 😄" ]);
    ("ask_name",
     [ "Mama CoverageBot! Singlish walata reply karanna puluwan chatbot kenek. Oyata mata kohomada kiyanawa? 😄";
       "My name is CoverageBot machan! AI-powered Singlish assistant kenek. What about you? 🤖" ]);
    ("self_intro",
     [ "Nice to meet you! Mama CoverageBot, oyata help karanna puluwan! 🤖";
       "Wah, nice name machan! Mata oyata Singlish walata reply karanna puluwan! 💬" ]);
    ("how_are_you",
     [ "Mama hari honda machan! Always ready to chat! Oya kohomada? 💪";
       "I'm doing great la! Everyday also learning new Singlish words. You leh? 😊" ]);
    ("thanks",
     [ "Mokakwath naha machan! Mata help karanna lassana! 😊";
       "Welcome la! Anytime can ask me anything! 🤝" ]);
    ("goodbye",
     [ "Bye bye machan! Mata aye pennako! See you soon! 👋";
       "Okay la, see you later! Take care ah! 🤗" ]);
    ("help",
     [ "Mama oyata Singlish walata reply karanna puluwan! Try karala balanna - kohomada, oyage nama mokakda, thanks wage! 🤝";
       "Sure sure! I can understand Singlish and reply back. Try saying things like 'kohomada' or 'oya kawda'! 😄" ]);
    ("unknown",
     [ "Mata eka therenne naha machan! Try 'kohomada' or 'help' kiyla! 🤔";
       "Hmm, mata eka understand karanna baha. Simple Singlish walata try karanna! 😅" ]) ].

(** [generate_response]; [random.choice] raises on an empty list. *)
Definition generate_response (intent message : string)
  : state ResponseGenerator.rng (result string) :=
  match Py.dict_get responses intent with
  | Some listed => ResponseGenerator.choice listed
  | None =>
      match getitem responses "unknown" with
      | Ok listed => ResponseGenerator.choice listed
      | Raise e => ret (Raise e)
      end
  end.

(** The body of a [POST /predict] request. *)
Record ChatRequest : Type := {
  message : string;
  user_id : option string;
  session_id : option string;
  context : option IntentDetector.context
}.

Record metadata : Type := {
  strategy : string;
  message_length : nat
}.

Record ChatResponse : Type := {
  response : string;
  intent : string;
  confidence : Q;
  processing_time : Q;
  response_metadata : metadata
}.

(** What an endpoint answers: its return value, or the status code of
    the [HTTPException] it raises. *)
Inductive answer (A : Type) : Type :=
  | Return (a : A)
  | HTTPException (status_code : nat).
Arguments Return {A} a.
Arguments HTTPException {A} status_code.

(** [predict_response], once [verify_token] has accepted the token;
    [elapsed] is the time in seconds between the two readings of the
    clock. *)
Definition predict_response (elapsed : Q) (request : ChatRequest)
  : state ResponseGenerator.rng (answer ChatResponse) :=
  let message := Py.strip (Py.lower (message request)) in
  let '(intent, confidence) := detect_intent message in
  r <- generate_response intent message ;;
  match r with
  | Ok response =>
      ret (Return {| response := response;
                     intent := intent;
                     confidence := confidence;
                     processing_time := elapsed;
                     response_metadata :=
                       {| strategy := "rule_based";
                          message_length := String.length message |} |})
  | Raise _ => ret (HTTPException 500)
  end.

End Main.

(** ** A stand-in for scikit-learn

    To run the engine on concrete inputs: a vectorizer remembers the
    corpus it was fitted on, a matrix is the list of its documents, and
    a model remembers its training labels and answers every sample
    with their class frequencies. *)

Module StandIn.

(** The frequency of each class [0 .. n-1] in [y]. *)
Definition frequencies (n : nat) (y : list nat) : list Q :=
  map (fun c => Qmake (Z.of_nat (count_occ Nat.eq_dec y c))
                      (Pos.of_nat (List.length y)))
      (seq 0 n).

Definition classes (y : list nat) : nat := S (fold_right Nat.max 0 y).

Definition hits (y_true y_pred : list nat) : nat :=
  List.length (filter (fun p => fst p =? snd p) (combine y_true y_pred)).

Definition sk : sklearn := {|
  Vectorizer := option (list string);
  Matrix := list string;
  Model := option (list nat);
  TfidfVectorizer := None;
  fit_transform := fun _ texts => (Some texts, Ok texts);
  transform := fun v texts =>
    match v with
    | Some _ => Ok texts
    | None => Raise "NotFittedError"
    end;
  shuffle_split := fun X y =>
    let n_test := (List.length y + 4) / 5 in
    let n_train := List.length y - n_test in
    Ok (firstn n_train X, skipn n_train X, firstn n_train y, skipn n_train y);
  RandomForestClassifier := None;
  fit := fun _ _ y => (Some y, Ok tt);
  model_predict := fun m X =>
    match m with
    | Some y =>
        match IntentDetector.argmax (frequencies (classes y) y) with
        | Ok i => Ok (map (fun _ => i) X)
        | Raise e => Raise e
        end
    | None => Raise "NotFittedError"
    end;
  predict_proba := fun m X =>
    match m with
    | Some y => Ok (map (fun _ => frequencies (classes y) y) X)
    | None => Raise "NotFittedError"
    end;
  accuracy_score := fun y_true y_pred =>
    Ok (Qmake (Z.of_nat (hits y_true y_pred)) (Pos.of_nat (List.length y_true)));
  model_bool := fun m =>
    match m with
    | Some _ => Ok true
    | None => Raise "AttributeError"
    end
|}.

(** An engine that found no stored model and trained on the phrase
    catalogue ([load_model]). *)
Definition trained : IntentDetector.engine sk :=
  IntentDetector._train_default_model insertion_order sk (IntentDetector.init sk).

(** An engine in the rule-based mode: no model, the fallback labels. *)
Definition fallback : IntentDetector.engine sk :=
  IntentDetector._initialize_fallback sk (IntentDetector.init sk).

End StandIn.

(** ** Notions the properties are stated with *)

(** Every character of [s] satisfies [p]. *)
Fixpoint all_chars (p : ascii -> bool) (s : string) : bool :=
  match s with
  | EmptyString => true
  | String c s' => p c && all_chars p s'
  end.

Definition not_upper (c : ascii) : bool := negb (Py.isupper c).

(** Every value of the dictionary [d] is made of characters in [p]. *)
Definition values_ok (p : ascii -> bool) (d : Py.dict string) : bool :=
  forallb (fun kv => all_chars p (snd kv)) d.

(** A marker begins with a character that is no space. *)
Definition starts_with_letter (m : string) : bool :=
  match m with
  | String c _ => negb (Py.isspace c)
  | EmptyString => false
  end.

(** The number of markers of [ms] that occur in [text]. *)
Definition present (ms : list string) (text : string) : nat :=
  List.length (filter (fun m => Py.contains m text) ms).

(** The weights of the markers that occur in [text], added up. *)
Definition marker_sum (text : string) : Q :=
  let count ms := inject_Z (Z.of_nat (present ms text)) in
  ((3 # 10) * count (SinglishClassifier.particles SinglishClassifier.singlish_markers)
   + (4 # 10) * count (SinglishClassifier.sinhala_words SinglishClassifier.singlish_markers)
   + (2 # 10) * count (SinglishClassifier.grammar_patterns SinglishClassifier.singlish_markers)
   + (3 # 10) * count (SinglishClassifier.expressions SinglishClassifier.singlish_markers))%Q.

(** The score as the specification words it: the weight of a category
    added once when any of its markers occurs, the sum clamped to 1. *)
Definition score_once_per_category (text : string) : Q :=
  let add (w : Q) (ms : list string) (score : Q) : Q :=
    if Py.any_in ms text then (score + w)%Q else score in
  let score := 0%Q in
  let score := add (3 # 10)%Q (SinglishClassifier.particles SinglishClassifier.singlish_markers) score in
  let score := add (4 # 10)%Q (SinglishClassifier.sinhala_words SinglishClassifier.singlish_markers) score in
  let score := add (2 # 10)%Q (SinglishClassifier.grammar_patterns SinglishClassifier.singlish_markers) score in
  let score := add (3 # 10)%Q (SinglishClassifier.expressions SinglishClassifier.singlish_markers) score in
  py_min score 1.


(** The languages [text] shows: English always, Sinhala when a word of
    the lowercased text is a key of the romanized-Sinhala table,
    Singlish when one is a key of the Singlish table. *)
Definition shown (text l : string) : Prop :=
  l = "english"
  \/ (l = "sinhala"
      /\ existsb (Py.dict_mem SinglishPreprocessor.sinhala_romanized)
                 (Py.split (Py.lower text)) = true)
  \/ (l = "singlish"
      /\ existsb (Py.dict_mem SinglishPreprocessor.singlish_mappings)
                 (Py.split (Py.lower text)) = true).

(** [mix] lists the languages [text] shows, each once. *)
Definition lists_languages (text : string) (mix : list string) : Prop :=
  NoDup mix /\ forall l, In l mix <-> shown text l.

(** An ASCII character that is no capital letter. *)
Definition small (c : ascii) : bool :=
  (nat_of_ascii c <? 128) && negb (Py.isupper c).

(** Two feature sets that agree on every feature, the languages of
    [language_mix] being the same up to their order. *)
Definition same_features (f1 f2 : SinglishPreprocessor.features) : Prop :=
  SinglishPreprocessor.length f1 = SinglishPreprocessor.length f2 /\
  SinglishPreprocessor.word_count f1 = SinglishPreprocessor.word_count f2 /\
  SinglishPreprocessor.has_question f1 = SinglishPreprocessor.has_question f2 /\
  SinglishPreprocessor.has_exclamation f1 = SinglishPreprocessor.has_exclamation f2 /\
  SinglishPreprocessor.has_singlish_particles f1
    = SinglishPreprocessor.has_singlish_particles f2 /\
  SinglishPreprocessor.has_sinhala_terms f1 = SinglishPreprocessor.has_sinhala_terms f2 /\
  SinglishPreprocessor.has_english_contractions f1
    = SinglishPreprocessor.has_english_contractions f2 /\
  SinglishPreprocessor.singlish_intensity f1 = SinglishPreprocessor.singlish_intensity f2 /\
  Permutation (SinglishPreprocessor.language_mix f1) (SinglishPreprocessor.language_mix f2).

(** A confidence between 0 and 1. *)
Definition unit_interval (q : Q) : Prop := (0 <= q <= 1)%Q.

(** A list of alternatives in which every entry has at least the
    confidence of every later one. *)
Definition descending (l : list IntentDetector.alternative) : Prop :=
  StronglySorted
    (fun a b => (IntentDetector.alt_confidence b <= IntentDetector.alt_confidence a)%Q) l.

(** A label that tags exactly one of the samples. *)
Definition single_sample_label (training_data : list (string * string)) (label : string)
  : Prop :=
  count_occ string_dec (map snd training_data) label = 1.

(** Every entry of a row of the subsequence table is at most [k], and
    the entry at offset [i] at most [j + i]. *)
Fixpoint bounded (k j : nat) (row : list nat) : Prop :=
  match row with
  | [] => True
  | v :: rest => v <= k /\ v <= j /\ bounded k (S j) rest
  end.

(** A block that lies within strings of lengths [la] and [lb]. *)
Definition fits (la lb : nat) (m : Fuzz.block) : Prop :=
  Fuzz.in_a m + Fuzz.size m <= la /\ Fuzz.in_b m + Fuzz.size m <= lb.

(** Samples in which [goodbye] tags a single one. *)
Definition lonely_goodbye : list (string * string) :=
  [("hi", "greeting"); ("hello", "greeting"); ("bye", "goodbye")].

(** Samples on which the stand-in learns to answer [self_intro]. *)
Definition introductions : list (string * string) :=
  [("im kasun", "self_intro"); ("i am nimal", "self_intro");
   ("mama sunil", "self_intro"); ("my name is amal", "self_intro");
   ("hello", "greeting"); ("hi", "greeting")].

(** The context of a message that follows a greeting. *)
Definition after_greeting : IntentDetector.context :=
  [("previous_intent", IntentDetector.VStr "greeting")].

(** The context of a message from a known user. *)
Definition known_user : IntentDetector.context :=
  [("user_id", IntentDetector.VStr "u1")].

(** The response [generate] returns from the generator state [g]. *)
Definition generated (current_hour : nat) (message intent : string) (confidence : Q)
  (user_id session_id : option string) (g : ResponseGenerator.rng) : string :=
  ResponseGenerator.response
    (fst (runState (ResponseGenerator.generate current_hour message intent confidence
                      user_id session_id) g)).

(** A response that shows the placeholder of the name. *)
Definition slotted (s : string) : Prop := Py.contains "{name}" s = true.

(** ** Notions of the further properties *)

(** A character the punctuation cleanup keeps: a word character, a
    space, a question or an exclamation mark. *)
Definition kept (c : ascii) : bool :=
  Py.isword c || Py.isspace c || SinglishPreprocessor.is_mark c.

(** No question or exclamation mark is followed by another one. *)
Fixpoint marks_apart (s : string) : bool :=
  match s with
  | String c (String d _ as s') =>
      negb (SinglishPreprocessor.is_mark c && SinglishPreprocessor.is_mark d)
      && marks_apart s'
  | _ => true
  end.

(** A character of ASCII text without punctuation: a letter, a digit,
    the underscore or a space. *)
Definition plain (c : ascii) : bool := Py.isword c || Py.isspace c.

(** ASCII text. *)
Definition ascii_only (s : string) : bool :=
  all_chars (fun c => nat_of_ascii c <? 128) s.

(** No token of [s] is a discourse particle. *)
Definition particle_free (s : string) : bool :=
  forallb (fun w => negb (Py.mem w SinglishPreprocessor.particles)) (Py.split s).

Definition no_space (c : ascii) : bool := negb (Py.isspace c).

Definition not_apostrophe (c : ascii) : bool := negb (Ascii.eqb c "'"%char).

(** The weights of the markers that occur in [text], in tenths. *)
Definition tenths (text : string) : nat :=
  3 * present (SinglishClassifier.particles SinglishClassifier.singlish_markers) text
  + 4 * present (SinglishClassifier.sinhala_words SinglishClassifier.singlish_markers) text
  + 2 * present (SinglishClassifier.grammar_patterns SinglishClassifier.singlish_markers) text
  + 3 * present (SinglishClassifier.expressions SinglishClassifier.singlish_markers) text.

(** The names of the intents of the phrase catalogue. *)
Definition catalogue_intents : list string :=
  map IntentDetector.ir_intent IntentDetector._load_default_intents.

(** The phrases of the catalogue, of all intents together. *)
Definition catalogue_phrases : list string :=
  flat_map IntentDetector.phrases IntentDetector._load_default_intents.

(** A similarity for which equal strings score 100. *)
Definition ratio_reflexive (ratio : string -> string -> Z) : Prop :=
  forall s, ratio s s = 100%Z.

(** A state of the rule-based scan: the best match, when there is one,
    is an intent of [known]; while there is none the best score is
    still 0. *)
Definition scanned (known : list IntentDetector.intent_record) (st : IntentDetector.scan)
  : Prop :=
  match IntentDetector.best_match st with
  | Some i => In i known
  | None => IntentDetector.best_score st = 0%Q
  end.

(** An engine whose stand-in model saw three greetings and two
    goodbyes. *)
Definition greeter : IntentDetector.engine StandIn.sk :=
  IntentDetector.Build_engine StandIn.sk
    (Some (Some [0; 0; 0; 1; 1]))
    (Some (Some ["hi"; "hello"; "ayubowan"; "bye"; "goodbye"]))
    ["greeting"; "goodbye"]
    1%Q.

(** What the stand-in model of [greeter] answers to every text. *)
Definition greeting_first : IntentDetector.prediction :=
  {| IntentDetector.intent := "greeting";
     IntentDetector.confidence := (3 # 5)%Q;
     IntentDetector.alternatives :=
       [ {| IntentDetector.alt_intent := "goodbye";
            IntentDetector.alt_confidence := (2 # 5)%Q |} ] |}.

(** The templates [train] leaves after learning [training_data]. *)
Definition trained_templates (self : ResponseGenerator.generator)
  (training_data : list ResponseGenerator.item) : Py.dict (list string) :=
  ResponseGenerator.templates (fst (ResponseGenerator.train self training_data)).

(** A sample with an intent and a response, neither of them empty. *)
Definition teaches (sample : ResponseGenerator.item) (intent response : string) : Prop :=
  ResponseGenerator.item_intent sample = Some intent /\
  ResponseGenerator.item_response sample = Some response /\
  intent <> "" /\ response <> "".

(** [response] is listed under [intent] in the templates [d]. *)
Definition listed (d : Py.dict (list string)) (intent response : string) : Prop :=
  exists known, Py.dict_get d intent = Some known /\ In response known.

(** No template list of [d] holds a response twice. *)
Definition without_repeats (d : Py.dict (list string)) : Prop :=
  Forall (fun kv => NoDup (snd kv)) d.

(** The dictionary once [intent] has its list
    ([if intent not in d: d[intent] = []]). *)
Definition with_list (d : Py.dict (list string)) (intent : string) : Py.dict (list string) :=
  if Py.dict_mem d intent then d else Py.dict_set d intent [].

(** The templates a response of the generator [self] to [intent] is
    drawn from: those it lists for the intent, and those of [unknown]
    for an intent that has none. *)
Definition templates_of (self : ResponseGenerator.generator) (intent : string)
  : list string :=
  match Py.dict_get (ResponseGenerator.templates self) intent with
  | Some responses => responses
  | None =>
      match Py.dict_get (ResponseGenerator.templates self) "unknown" with
      | Some responses => responses
      | None => []
      end
  end.

(** The response [generate] returns for the generator [self], from the
    state [g] of the random generator. *)
Definition generated_by (self : ResponseGenerator.generator) (current_hour : nat)
  (message intent : string) (confidence : Q) (user_id session_id : option string)
  (g : ResponseGenerator.rng) : string :=
  ResponseGenerator.response
    (fst (runState (ResponseGenerator.Self.generate self current_hour message intent
                      confidence user_id session_id) g)).

(** A sample whose response, when it has one, is ASCII text. *)
Definition plain_sample (sample : ResponseGenerator.item) : Prop :=
  match ResponseGenerator.item_response sample with
  | Some response => ascii_only response = true
  | None => True
  end.

(** A generator as constructed, or as trainings on such samples have
    left it. *)
Inductive trained : ResponseGenerator.generator -> Prop :=
  | as_constructed : trained ResponseGenerator.init
  | after_training self training_data :
      trained self -> Forall plain_sample training_data ->
      trained (fst (ResponseGenerator.train self training_data)).

(** Templates in which [unknown] has a list and no list is empty. *)
Definition stocked (d : Py.dict (list string)) : Prop :=
  (exists responses, Py.dict_get d "unknown" = Some responses) /\
  Forall (fun kv => snd kv <> []) d.

(** A sample that teaches a joke. *)
Definition jokes : list ResponseGenerator.item :=
  [ {| ResponseGenerator.item_intent := Some "joke";
       ResponseGenerator.item_response := Some "Why so serious machan?" |} ].

(** [s] holds [t], letter case apart. *)
Definition echoes (t s : string) : Prop :=
  Py.contains (Py.lower t) (Py.lower s) = true.

(** A generator that knows one greeting. *)
Definition novice : ResponseGenerator.generator :=
  {| ResponseGenerator.templates := [("greeting", ["Hello machan!"])];
     ResponseGenerator.quality_score := (85 # 100)%Q |}.

(** Two samples with the same greeting, and one without a response. *)
Definition lessons : list ResponseGenerator.item :=
  [ {| ResponseGenerator.item_intent := Some "greeting";
       ResponseGenerator.item_response := Some "Kohomada!" |};
    {| ResponseGenerator.item_intent := Some "greeting";
       ResponseGenerator.item_response := Some "Kohomada!" |};
    {| ResponseGenerator.item_intent := Some "weather";
       ResponseGenerator.item_response := None |} ].

(** The keywords of [detect_intent], in the order of its tests. *)
Definition keywords : list string :=
  (["kohomada"; "hello"; "hi"; "ayubowan"]
   ++ ["nama mokakda"; "whats your name"; "who are you"; "oya kawda"]
   ++ ["mage nama"; "my name is"; "i am"; "mama"]
   ++ ["oya kohomada"; "how are you"; "kohoma hari"]
   ++ ["thanks"; "thank you"; "stuti"; "stutiyi"]
   ++ ["bye"; "goodbye"; "giya"; "see you"]
   ++ ["help"; "mokak karanne"])%list.

(** A string that ends with a character that is no space. *)
Fixpoint ends_with_letter (s : string) : bool :=
  match s with
  | EmptyString => false
  | String c EmptyString => negb (Py.isspace c)
  | String _ s' => ends_with_letter s'
  end.

(** A request that greets, with spaces around the message. *)
Definition greeting_request : Main.ChatRequest :=
  {| Main.message := "  Kohomada machan  ";
     Main.user_id := None;
     Main.session_id := None;
     Main.context := None |}.

(** What the endpoint answers to [request] from the generator state [g]. *)
Definition answered (elapsed : Q) (request : Main.ChatRequest) (g : ResponseGenerator.rng)
  : Main.answer Main.ChatResponse :=
  fst (runState (Main.predict_response elapsed request) g).

(** * Properties *)

(** ** The two set orders of the examples are iteration orders *)

Lemma insertion_order_ok : interpreter_ok insertion_order.
Proof. intros s. apply Permutation_refl. Qed.

Lemma reverse_order_ok : interpreter_ok reverse_order.
Proof. intros s. apply Permutation_sym, Permutation_rev. Qed.

(** ** Character classes through the string operations *)

Section CharClass.

Variable p : ascii -> bool.

Lemma all_chars_app a b :
  all_chars p (a ++ b) = all_chars p a && all_chars p b.
Proof.
  induction a as [|c a IH]; simpl; [reflexivity|].
  now rewrite IH, andb_assoc.
Qed.

Lemma all_chars_lstrip q s :
  all_chars p s = true -> all_chars p (Py.lstrip_by q s) = true.
Proof.
  induction s as [|c s IH]; simpl; intros H; [reflexivity|].
  apply andb_true_iff in H as [Hc Hs].
  destruct (q c); [now apply IH|]. simpl. now rewrite Hc, Hs.
Qed.

Lemma all_chars_rstrip q s :
  all_chars p s = true -> all_chars p (Py.rstrip_by q s) = true.
Proof.
  induction s as [|c s IH]; simpl; intros H; [reflexivity|].
  apply andb_true_iff in H as [Hc Hs]. specialize (IH Hs).
  destruct (Py.rstrip_by q s) as [|d r].
  - destruct (q c); simpl; [reflexivity|now rewrite Hc].
  - simpl in *. now rewrite Hc, IH.
Qed.

Lemma all_chars_strip_by q s :
  all_chars p s = true -> all_chars p (Py.strip_by q s) = true.
Proof. intros H. now apply all_chars_rstrip, all_chars_lstrip. Qed.

Lemma all_chars_sub_spaces_from b s :
  p " "%char = true -> all_chars p s = true ->
  all_chars p (Py.sub_spaces_from b s) = true.
Proof.
  intros Hsp. revert b.
  induction s as [|c s IH]; simpl; intros b H; [reflexivity|].
  apply andb_true_iff in H as [Hc Hs].
  destruct (Py.isspace c).
  - destruct b; simpl; [now apply IH|]. rewrite Hsp. now apply IH.
  - simpl. rewrite Hc. now apply IH.
Qed.

Lemma all_chars_replace_from old new s :
  all_chars p new = true -> all_chars p s = true ->
  forall skip, all_chars p (Py.replace_from skip old new s) = true.
Proof.
  intros Hnew.
  induction s as [|c s IH]; intros H skip; [reflexivity|].
  cbn [all_chars] in H. apply andb_true_iff in H as [Hc Hs].
  cbn [Py.replace_from].
  destruct skip as [|k]; [|now apply IH].
  destruct (Py.startswith old (String c s)).
  - rewrite all_chars_app, Hnew. now apply IH.
  - cbn [all_chars]. rewrite Hc. now apply IH.
Qed.

Lemma all_chars_replace old new s :
  all_chars p new = true -> all_chars p s = true ->
  all_chars p (Py.replace old new s) = true.
Proof.
  intros Hnew Hs. unfold Py.replace.
  destruct old; [assumption|]. now apply all_chars_replace_from.
Qed.

Lemma all_chars_split_from s :
  all_chars p s = true -> forall cur, all_chars p cur = true ->
  Forall (fun w => all_chars p w = true) (Py.split_from cur s).
Proof.
  induction s as [|c s IH]; simpl; intros H cur Hcur.
  - destruct cur; [constructor|]. now repeat constructor.
  - apply andb_true_iff in H as [Hc Hs].
    destruct (Py.isspace c).
    + destruct cur; [now apply IH|]. constructor; [assumption|now apply IH].
    + apply IH; [assumption|]. rewrite all_chars_app, Hcur. simpl. now rewrite Hc.
Qed.

Lemma all_chars_split s :
  all_chars p s = true -> Forall (fun w => all_chars p w = true) (Py.split s).
Proof. intros H. now apply all_chars_split_from. Qed.

Lemma all_chars_join sep ws :
  all_chars p sep = true -> Forall (fun w => all_chars p w = true) ws ->
  all_chars p (Py.join sep ws) = true.
Proof.
  intros Hsep. induction 1 as [|w ws Hw Hws IH]; simpl; [reflexivity|].
  destruct ws as [|w' ws']; [assumption|].
  rewrite !all_chars_app, Hw, Hsep. exact IH.
Qed.

Lemma all_chars_keep_chars keep s :
  all_chars p s = true -> all_chars p (Py.keep_chars keep s) = true.
Proof.
  induction s as [|c s IH]; simpl; intros H; [reflexivity|].
  apply andb_true_iff in H as [Hc Hs].
  destruct (keep c); [simpl; rewrite Hc|]; now apply IH.
Qed.

End CharClass.

(** A dictionary lookup returns one of the values of the dictionary. *)
Lemma dict_get_In {V : Type} (d : Py.dict V) k v :
  Py.dict_get d k = Some v -> In v (map snd d).
Proof.
  induction d as [|[k' v'] d IH]; simpl; [discriminate|].
  destruct (String.eqb k k'); intros H.
  - injection H as ->. now left.
  - right. now apply IH.
Qed.

Lemma lower_char_not_upper c : not_upper (Py.lower_char c) = true.
Proof.
  destruct c as [b0 b1 b2 b3 b4 b5 b6 b7].
  destruct b0, b1, b2, b3, b4, b5, b6, b7; reflexivity.
Qed.

Lemma lower_not_upper s : all_chars not_upper (Py.lower s) = true.
Proof.
  induction s as [|c s IH]; simpl; [reflexivity|].
  now rewrite lower_char_not_upper, IH.
Qed.

Lemma lower_fixed s : all_chars not_upper s = true -> Py.lower s = s.
Proof.
  induction s as [|c s IH]; simpl; intros H; [reflexivity|].
  apply andb_true_iff in H as [Hc Hs]. rewrite (IH Hs). f_equal.
  unfold Py.lower_char. unfold not_upper in Hc.
  now destruct (Py.isupper c).
Qed.

(** *** The normalizer *)

Module PreprocessorFacts.
Import SinglishPreprocessor.

Lemma values_ok_get p d k v :
  values_ok p d = true -> Py.dict_get d k = Some v -> all_chars p v = true.
Proof.
  intros Hd Hget. apply dict_get_In in Hget.
  apply in_map_iff in Hget as [[k' v'] [<- Hin]].
  unfold values_ok in Hd. rewrite forallb_forall in Hd. exact (Hd _ Hin).
Qed.

(** With the helpers of the class, [process] runs the whole pipeline. *)
Lemma process_pipeline text : process text = Ok (pipeline text).
Proof. reflexivity. Qed.

(** A token that is a particle is dropped by the term pass. *)
Lemma singlish_word_drops_particles word :
  In word particles -> singlish_word word = [].
Proof.
  intros H. unfold singlish_word.
  replace (Py.mem word particles) with true; [reflexivity|].
  symmetry. unfold Py.mem. apply existsb_exists.
  exists word. split; [exact H|apply String.eqb_refl].
Qed.

(** C4 on the code: the term pass does not see the particle in the
    token ["lah."], the cleanup then strips the period, and the
    particle [lah] is a token of the canonical text. *)
Theorem particle_before_period_is_kept :
  process "ok lah." = Ok "ok lah" /\ In "lah" (Py.split "ok lah").
Proof. split; [reflexivity|]. right. now left. Qed.


(** C9 fails as stated: on ["mama can"] two interpreters that iterate
    a set in different orders return different [language_mix] lists. *)
Lemma language_mix_depends_on_set_order :
  interpreter_ok insertion_order /\ interpreter_ok reverse_order /\
  language_mix (snd (normalize insertion_order "mama can"))
    = ["english"; "sinhala"; "singlish"] /\
  language_mix (snd (normalize reverse_order "mama can"))
    = ["singlish"; "sinhala"; "english"] /\
  snd (normalize insertion_order "mama can") <> snd (normalize reverse_order "mama can").
Proof.
  split; [exact insertion_order_ok|]. split; [exact reverse_order_ok|].
  split; [reflexivity|]. split; [reflexivity|].
  intros E. apply (f_equal language_mix) in E. vm_compute in E. discriminate E.
Qed.

End PreprocessorFacts.

(** *** The normalizer on text beyond ASCII *)

Module UnicodeFacts.
Import Unicode.
Local Open Scope list_scope.

Section Classes.

Variable u : database.
Variable P : N -> Prop.

Lemma Forall_lstrip p s : Forall P s -> Forall P (lstrip_by p s).
Proof.
  induction 1 as [|c s Hc Hs IH]; cbn; [constructor|].
  destruct (p c); [exact IH|now constructor].
Qed.

Lemma Forall_rstrip p s : Forall P s -> Forall P (rstrip_by p s).
Proof.
  induction 1 as [|c s Hc Hs IH]; cbn; [constructor|].
  destruct (rstrip_by p s) as [|d r].
  - destruct (p c); now repeat constructor.
  - now constructor.
Qed.

Lemma Forall_strip s : Forall P s -> Forall P (strip u s).
Proof. intros H. now apply Forall_rstrip, Forall_lstrip. Qed.

Lemma Forall_sub_spaces_from s :
  P 32%N -> Forall P s -> forall b, Forall P (sub_spaces_from u b s).
Proof.
  intros Hsp. induction 1 as [|c s Hc Hs IH]; intros b; cbn; [constructor|].
  destruct (isspace u c).
  - destruct b; [apply IH|constructor; [exact Hsp|apply IH]].
  - constructor; [exact Hc|apply IH].
Qed.

Lemma Forall_replace_from old new s :
  Forall P new -> Forall P s -> forall skip, Forall P (replace_from skip old new s).
Proof.
  intros Hnew. induction 1 as [|c s Hc Hs IH]; intros skip; [constructor|].
  cbn [replace_from]. destruct skip as [|k]; [|apply IH].
  destruct (startswith old (c :: s)).
  - apply Forall_app. split; [exact Hnew|apply IH].
  - constructor; [exact Hc|apply IH].
Qed.

Lemma Forall_replace old new s :
  Forall P new -> Forall P s -> Forall P (replace old new s).
Proof.
  intros Hnew Hs. unfold replace. destruct old; [exact Hs|].
  now apply Forall_replace_from.
Qed.

Lemma Forall_split_from s :
  Forall P s -> forall cur, Forall P cur -> Forall (Forall P) (split_from u cur s).
Proof.
  induction 1 as [|c s Hc Hs IH]; intros cur Hcur; cbn.
  - destruct cur; [constructor|]. constructor; [exact Hcur|constructor].
  - destruct (isspace u c).
    + destruct cur; [now apply IH|]. constructor; [exact Hcur|now apply IH].
    + apply IH. apply Forall_app. split; [exact Hcur|now repeat constructor].
Qed.

Lemma Forall_split s : Forall P s -> Forall (Forall P) (split u s).
Proof. intros H. now apply Forall_split_from. Qed.

Lemma Forall_join sep ws :
  Forall P sep -> Forall (Forall P) ws -> Forall P (join sep ws).
Proof.
  intros Hsep. induction 1 as [|w ws Hw Hws IH]; cbn; [constructor|].
  destruct ws as [|w' ws']; [exact Hw|].
  apply Forall_app. split; [exact Hw|]. apply Forall_app. split; [exact Hsep|exact IH].
Qed.

Lemma Forall_keep_chars keep s : Forall P s -> Forall P (keep_chars keep s).
Proof.
  induction 1 as [|c s Hc Hs IH]; cbn; [constructor|].
  destruct (keep c); [now constructor|exact IH].
Qed.

Lemma Forall_sub_marks_from s :
  P 63%N -> Forall P s -> forall b, Forall P (sub_marks_from b s).
Proof.
  intros Hq. induction 1 as [|c s Hc Hs IH]; intros b; [constructor|].
  cbn [sub_marks_from].
  destruct (is_mark c).
  - destruct b; [apply IH|].
    destruct s as [|c' s']; [now repeat constructor|].
    destruct (is_mark c'); constructor; try assumption; apply IH.
  - constructor; [exact Hc|apply IH].
Qed.

End Classes.

(** **** Lowercase text *)

Section Lowercase.

Variable u : database.
Hypothesis u_ok : database_ok u.

Lemma lower_from_fixed s :
  Forall (stable u) s -> forall before, lower_from u before s = s.
Proof.
  induction 1 as [|c s [Hc Hl] Hs IH]; intros before; cbn [lower_from]; [reflexivity|].
  apply N.eqb_neq in Hc. rewrite Hc, Hl, IH. reflexivity.
Qed.

Lemma lower_from_stable s : forall before, Forall (stable u) (lower_from u before s).
Proof.
  destruct u_ok as (_ & Hmap & Hfinal & Hsmall).
  induction s as [|c s IH]; intros before; cbn [lower_from]; [constructor|].
  apply Forall_app. split; [|apply IH].
  destruct (N.eqb c capital_sigma).
  - constructor; [|constructor]. now destruct (final_sigma u before s).
  - apply Forall_forall. intros d Hd. exact (Hmap c d Hd).
Qed.

Lemma small_stable c : small c = true -> stable u (N_of_ascii c).
Proof.
  destruct u_ok as (Hascii & _).
  intros H. split.
  - destruct c as [b0 b1 b2 b3 b4 b5 b6 b7].
    destruct b0, b1, b2, b3, b4, b5, b6, b7; vm_compute; discriminate.
  - destruct c as [b0 b1 b2 b3 b4 b5 b6 b7].
    destruct b0, b1, b2, b3, b4, b5, b6, b7;
      try (vm_compute in H; discriminate H);
      match goal with
      | |- tolower u ?c = _ =>
          let n := eval vm_compute in c in
          change c with n; exact (Hascii n eq_refl)
      end.
Qed.

Lemma literal_stable s : all_chars small s = true -> Forall (stable u) (literal s).
Proof.
  unfold literal. induction s as [|c s IH]; cbn; intros H; [constructor|].
  apply andb_true_iff in H as [Hc Hs].
  constructor; [now apply small_stable|now apply IH].
Qed.

Lemma lookup_stable d word gloss :
  values_ok small d = true -> lookup d word = Some gloss -> Forall (stable u) gloss.
Proof.
  induction d as [|[k v] d IH]; cbn; intros Hd H; [discriminate H|].
  apply andb_true_iff in Hd as [Hv Hd].
  destruct (eqb word (literal k)).
  - injection H as <-. now apply literal_stable.
  - now apply IH.
Qed.

Lemma expand_contractions_stable text :
  Forall (stable u) text -> Forall (stable u) (_expand_contractions text).
Proof.
  unfold _expand_contractions.
  assert (Hd : values_ok small SinglishPreprocessor.contraction_mapping = true)
    by (vm_compute; reflexivity).
  revert text Hd. generalize SinglishPreprocessor.contraction_mapping.
  induction d as [|[k v] d IH]; cbn [fold_left fst snd]; intros text Hd H; [exact H|].
  cbn in Hd. apply andb_true_iff in Hd as [Hv Hd].
  apply IH; [exact Hd|]. apply Forall_replace; [now apply literal_stable|exact H].
Qed.

Lemma singlish_word_stable word :
  Forall (stable u) word -> Forall (Forall (stable u)) (singlish_word word).
Proof.
  intros H. unfold singlish_word.
  destruct (mem word SinglishPreprocessor.particles); [constructor|].
  destruct (lookup SinglishPreprocessor.singlish_mappings word) as [mapped|] eqn:E.
  - apply lookup_stable in E; [|vm_compute; reflexivity].
    destruct mapped; [constructor|]. constructor; [exact E|constructor].
  - constructor; [exact H|constructor].
Qed.

Lemma process_singlish_terms_stable text :
  Forall (stable u) text -> Forall (stable u) (_process_singlish_terms u text).
Proof.
  intros H. unfold _process_singlish_terms.
  apply Forall_join; [apply literal_stable; reflexivity|].
  apply (Forall_split u) in H.
  induction H as [|w ws Hw Hws IH]; cbn [flat_map]; [constructor|].
  apply Forall_app. split; [now apply singlish_word_stable|exact IH].
Qed.

Lemma process_sinhala_terms_stable text :
  Forall (stable u) text -> Forall (stable u) (_process_sinhala_terms u text).
Proof.
  intros H. unfold _process_sinhala_terms.
  apply Forall_join; [apply literal_stable; reflexivity|].
  apply (Forall_split u) in H.
  induction H as [|w ws Hw Hws IH]; cbn [map]; constructor; [|exact IH].
  unfold sinhala_word.
  destruct (lookup SinglishPreprocessor.sinhala_romanized w) as [gloss|] eqn:E; [|exact Hw].
  apply lookup_stable in E; [exact E|vm_compute; reflexivity].
Qed.

Lemma clean_punctuation_stable text :
  Forall (stable u) text -> Forall (stable u) (_clean_punctuation u text).
Proof.
  intros H. unfold _clean_punctuation.
  apply Forall_sub_marks_from; [apply (small_stable "?"); reflexivity|].
  now apply Forall_keep_chars.
Qed.

(** C10: the canonical text [process] returns is already lowercase,
    whatever the text: lowercasing it again changes nothing.  Every
    stage after the lowercasing only deletes code points or inserts
    table values, spaces and question marks, which lowercasing leaves
    as they are. *)
Theorem process_output_is_lowercase (text : str) :
  exists canonical, process u text = Ok canonical /\ lower u canonical = canonical.
Proof.
  eexists. split; [reflexivity|].
  apply lower_from_fixed.
  apply Forall_strip, clean_punctuation_stable, process_sinhala_terms_stable,
    process_singlish_terms_stable, expand_contractions_stable.
  apply Forall_sub_spaces_from; [apply (small_stable " "); reflexivity|].
  apply Forall_strip, lower_from_stable.
Qed.

End Lowercase.

Ltac decide_codes :=
  repeat match goal with
         | |- context [N.leb ?a ?b] => destruct (N.leb_spec a b)
         | |- context [N.eqb ?a ?b] => destruct (N.eqb_spec a b)
         end.

Lemma fragment_stable c :
  ~ ((65 <= c <= 90)%N \/ c = 201%N \/ c = 304%N \/ c = 931%N) -> stable fragment c.
Proof.
  intros H. split; [intros ->; apply H; auto|].
  cbn [tolower fragment]. decide_codes; cbn [andb]; try reflexivity; exfalso; apply H; lia.
Qed.

Lemma fragment_ok : database_ok fragment.
Proof.
  split; [|split; [|split]].
  - intros c Hc. cbn [tolower fragment].
    decide_codes; cbn [andb]; try reflexivity; lia.
  - intros c d. cbn [tolower fragment].
    decide_codes; cbn [andb In]; intros Hd;
      repeat match goal with H : _ \/ _ |- _ => destruct H as [H|H] end;
      try contradiction; subst d; apply fragment_stable; lia.
  - apply fragment_stable. unfold final_small_sigma. lia.
  - apply fragment_stable. unfold small_sigma. lia.
Qed.

(** Beyond ASCII a particle can come out of the cleanup: the dotted
    capital I of [ok sİa] is lowercased to [i] and a combining dot, the
    term pass finds no particle in that token, and the cleanup then
    removes the dot. *)
Lemma particle_behind_dotted_capital :
  process fragment [111; 107; 32; 115; 304; 97]%N = Ok (literal "ok sia").
Proof. vm_compute. reflexivity. Qed.

(** C10 at work: in [CAFÉ, İ LAH!!] the accented capital and the dotted
    capital I are lowercased, and the combining dot the latter leaves
    is removed by the cleanup. *)
Lemma process_output_is_lowercase_witness :
  database_ok fragment /\
  process fragment [32; 67; 65; 70; 201; 44; 32; 304; 32; 76; 65; 72; 33; 33]%N
  = Ok [99; 97; 102; 233; 32; 105; 32; 108; 97; 104; 63]%N /\
  exists canonical,
    process fragment [32; 67; 65; 70; 201; 44; 32; 304; 32; 76; 65; 72; 33; 33]%N
    = Ok canonical /\
    lower fragment canonical = canonical.
Proof.
  split; [exact fragment_ok|]. split; [vm_compute; reflexivity|].
  exact (process_output_is_lowercase fragment fragment_ok
           [32; 67; 65; 70; 201; 44; 32; 304; 32; 76; 65; 72; 33; 33]%N).
Defined.

End UnicodeFacts.

Module ClassifierFacts.
Import SinglishClassifier.

Lemma py_min_idem (x : Q) : py_min (py_min x 1) 1 = py_min x 1.
Proof.
  unfold py_min at 2 3.
  destruct (1 ?= x)%Q eqn:E; try reflexivity; unfold py_min; now rewrite E.
Qed.

Lemma py_min_compat (x y z : Q) : (x == y)%Q -> (py_min x z == py_min y z)%Q.
Proof.
  intros E. unfold py_min. rewrite <- E.
  destruct (z ?= x)%Q; try assumption; reflexivity.
Qed.

Lemma add_markers_sum w ms text (s s' : Q) :
  (s == s')%Q ->
  (add_markers w ms text s == s' + w * inject_Z (Z.of_nat (present ms text)))%Q.
Proof.
  unfold add_markers, present. revert s s'.
  induction ms as [|m ms IH]; intros s s' E; cbn [fold_left filter].
  - cbn. rewrite E. ring.
  - destruct (Py.contains m text).
    + rewrite (IH (s + w)%Q (s' + w)%Q) by now rewrite E.
      cbn [List.length]. rewrite Nat2Z.inj_succ, <- Z.add_1_r, inject_Z_plus. ring.
    + now apply IH.
Qed.

(** A text without a word holds spaces only. *)
Lemma split_from_nil s cur :
  Py.split_from cur s = [] -> cur = "" /\ all_chars Py.isspace s = true.
Proof.
  revert cur. induction s as [|c s IH]; intros cur; cbn.
  - destruct cur; [now split|discriminate].
  - destruct (Py.isspace c); cbn.
    + destruct cur; [apply IH|discriminate].
    + intros H. apply IH in H as [H _]. now destruct cur.
Qed.

Lemma contains_in_spaces c m s :
  all_chars Py.isspace s = true -> Py.contains (String c m) s = true ->
  Py.isspace c = true.
Proof.
  induction s as [|d s IH]; cbn; [discriminate|].
  intros Hs. apply andb_true_iff in Hs as [Hd Hs].
  destruct (Ascii.eqb_spec c d) as [->|_]; [now intros _|].
  cbn. now apply IH.
Qed.

Lemma present_in_spaces ms text :
  forallb starts_with_letter ms = true ->
  all_chars Py.isspace text = true -> present ms text = 0.
Proof.
  intros Hms Hs. unfold present.
  induction ms as [|m ms IH]; cbn; [reflexivity|].
  cbn in Hms. apply andb_true_iff in Hms as [Hm Hms].
  destruct (Py.contains m text) eqn:E; [|now apply IH].
  destruct m as [|c m]; [discriminate|].
  apply contains_in_spaces in E; [|assumption].
  cbn in Hm. now rewrite E in Hm.
Qed.

Lemma marker_sum_blank text :
  Py.split text = [] -> (marker_sum text == 0)%Q.
Proof.
  intros H. apply split_from_nil in H as [_ H]. unfold marker_sum.
  rewrite !present_in_spaces by (assumption || reflexivity).
  reflexivity.
Qed.

Lemma calculate_singlish_score_sum text :
  (_calculate_singlish_score text == py_min (marker_sum text) 1)%Q.
Proof.
  unfold _calculate_singlish_score.
  destruct (Py.split text) as [|w ws] eqn:E.
  - rewrite (py_min_compat _ 0 1 (marker_sum_blank text E)). reflexivity.
  - apply py_min_compat. unfold marker_sum.
    rewrite (add_markers_sum _ (expressions _) _ _ _ (add_markers_sum _ (grammar_patterns _) _ _ _
               (add_markers_sum _ (sinhala_words _) _ _ _
                  (add_markers_sum _ (particles _) _ _ 0%Q (Qeq_refl 0))))).
    ring.
Qed.

Lemma calculate_singlish_score_clamped text :
  py_min (_calculate_singlish_score text) 1 = _calculate_singlish_score text.
Proof.
  unfold _calculate_singlish_score.
  destruct (Py.split text); [reflexivity|apply py_min_idem].
Qed.

(** C1, as the code has it: every marker that occurs in the lowercased
    text adds the weight of its category, the sum is clamped to 1, and
    the label and confidence follow the score as stated. *)
Theorem classify_adds_weight_per_marker (text : string) :
  let r := classify text in
  let score := singlish_score r in
  (score == py_min (marker_sum (Py.lower text)) 1)%Q /\
  (classification r, confidence r) =
    if gt score (3 # 10) then ("singlish", score)
    else if Py.any_in sinhala_indicators (Py.lower text)
         then ("sinhala_romanized", (8 # 10)%Q)
         else ("english", (1 - score)%Q).
Proof.
  cbv zeta. split.
  - apply calculate_singlish_score_sum.
  - unfold classify. cbn [singlish_score classification confidence].
    rewrite <- surjective_pairing.
    rewrite calculate_singlish_score_clamped. reflexivity.
Qed.

(** C1 fails as stated: ["ok lah"] holds two particles, [lah] and
    [ah], so its score is 0.6 and its label [singlish]; adding the
    weight of the particles once gives 0.3, which is not above the
    threshold. *)
Lemma score_counts_each_marker :
  (singlish_score (classify "ok lah") == 6 # 10)%Q /\
  classification (classify "ok lah") = "singlish" /\
  (score_once_per_category (Py.lower "ok lah") == 3 # 10)%Q /\
  ~ (singlish_score (classify "ok lah")
     == score_once_per_category (Py.lower "ok lah"))%Q.
Proof.
  repeat split; try (vm_compute; reflexivity).
  intros E. vm_compute in E. discriminate E.
Qed.

End ClassifierFacts.

Module ContractFacts.

(** **** The similarity ratio is a percentage *)

Lemma bounded_repeat_0 n k j : bounded k j (repeat 0 n).
Proof.
  revert j. induction n as [|n IH]; cbn; intros j; [exact I|].
  repeat split; try lia. apply IH.
Qed.

Lemma lcs_row_bounded x b : forall prev diag left k j,
  diag <= k -> diag <= j -> left <= S k -> left <= j ->
  bounded k (S j) prev ->
  bounded (S k) (S j) (Fuzz.lcs_row x b prev diag left).
Proof.
  induction b as [|y b IH]; intros prev diag left k j Hd1 Hd2 Hl1 Hl2 Hprev;
    [exact I|].
  destruct prev as [|up prev]; [exact I|].
  cbn [Fuzz.lcs_row]. cbv zeta.
  destruct Hprev as (Hu1 & Hu2 & Hprev).
  set (v := if Ascii.eqb x y then S diag else Nat.max up left).
  assert (Hv : v <= S k /\ v <= S j) by (subst v; destruct (Ascii.eqb x y); lia).
  cbn [bounded]. repeat split; try apply Hv.
  apply IH; try lia. exact Hprev.
Qed.

Lemma lcs_row_length x b : forall prev diag left,
  List.length (Fuzz.lcs_row x b prev diag left) <= String.length b.
Proof.
  induction b as [|y b IH]; intros [|up prev] diag left; cbn; try lia.
  specialize (IH prev up (if Ascii.eqb x y then S diag else Nat.max up left)). lia.
Qed.

Lemma lcs_rows_bounded a b : forall row k,
  bounded k 1 row -> List.length row <= String.length b ->
  bounded (k + String.length a) 1 (Fuzz.lcs_rows a b row) /\
  List.length (Fuzz.lcs_rows a b row) <= String.length b.
Proof.
  induction a as [|x a IH]; intros row k Hrow Hlen; cbn [Fuzz.lcs_rows String.length].
  - now rewrite Nat.add_0_r.
  - rewrite <- Nat.add_succ_comm. apply IH.
    + apply lcs_row_bounded; try lia. exact Hrow.
    + apply lcs_row_length.
Qed.

Lemma bounded_last row : forall k j,
  bounded k j row -> last row 0 <= k /\ last row 0 <= pred (j + List.length row).
Proof.
  induction row as [|v row IH]; intros k j H; [cbn; lia|].
  destruct H as (H1 & H2 & H). destruct row as [|w row]; [cbn; lia|].
  specialize (IH k (S j) H). cbn [last List.length] in *. lia.
Qed.

Lemma lcs_le a b :
  Fuzz.lcs a b <= String.length a /\ Fuzz.lcs a b <= String.length b.
Proof.
  unfold Fuzz.lcs.
  destruct (lcs_rows_bounded a b (repeat 0 (String.length b)) 0) as [H Hlen].
  - apply bounded_repeat_0.
  - now rewrite repeat_length.
  - apply bounded_last in H. cbn in H.
    destruct (Fuzz.lcs_rows a b (repeat 0 (String.length b))) as [|v r] eqn:E;
      [cbn; lia|].
    cbn [List.length] in *. lia.
Qed.

Lemma intr_percent n d :
  (0 < d)%Z -> (0 <= n <= 100 * d)%Z -> (0 <= Fuzz.intr n d <= 100)%Z.
Proof.
  intros Hd Hn. unfold Fuzz.intr.
  pose proof (Z.div_mod n d ltac:(lia)) as Hdm.
  pose proof (Z.mod_pos_bound n d Hd) as Hr.
  assert (Hq : (0 <= n / d)%Z) by (apply Z.div_pos; lia).
  assert (Hq' : (n / d <= 100)%Z) by (apply Z.div_le_upper_bound; lia).
  destruct (2 * (n mod d) <? d)%Z eqn:E1; [lia|].
  assert (Hlt : (n / d < 100)%Z) by (apply Z.ltb_ge in E1; nia).
  destruct (d <? 2 * (n mod d))%Z; [lia|].
  destruct (Z.even (n / d)); lia.
Qed.

Lemma ratio_with_percentage (matches : string -> string -> nat) :
  (forall a b, matches a b <= String.length a /\ matches a b <= String.length b) ->
  ratio_ok (Fuzz.ratio_with matches).
Proof.
  intros Hm s1 s2. unfold Fuzz.ratio_with.
  destruct (s1 =? s2)%string; [lia|].
  destruct ((String.length s1 =? 0) || (String.length s2 =? 0)) eqn:E; [lia|].
  apply orb_false_iff in E as [E1 E2].
  apply Nat.eqb_neq in E1, E2.
  destruct (Hm s1 s2) as [H1 H2].
  apply intr_percent; lia.
Qed.

Lemma ratio_is_percentage : ratio_ok Fuzz.ratio.
Proof. apply ratio_with_percentage, lcs_le. Qed.

Lemma common_prefix_le a : forall b,
  Fuzz.common_prefix a b <= String.length a /\
  Fuzz.common_prefix a b <= String.length b.
Proof.
  induction a as [|x a IH]; intros [|y b]; cbn; try lia.
  destruct (Ascii.eqb x y); [|lia]. specialize (IH b). lia.
Qed.

Lemma longest_from_fits la lb a i : forall b j best,
  i + String.length a <= la -> j + String.length b <= lb ->
  fits la lb best -> fits la lb (Fuzz.longest_from a b i j best).
Proof.
  induction b as [|y b IH]; intros j best Ha Hb Hbest; [exact Hbest|].
  cbn [Fuzz.longest_from]. cbv zeta. cbn [String.length] in Hb.
  apply IH; [exact Ha|lia|].
  destruct (Fuzz.size best <? Fuzz.common_prefix a (String y b)); [|exact Hbest].
  pose proof (common_prefix_le a (String y b)) as [H1 H2].
  cbn [String.length] in H2. unfold fits. cbn. lia.
Qed.

Lemma longest_match_from_fits la lb b : forall a i best,
  i + String.length a <= la -> String.length b <= lb ->
  fits la lb best -> fits la lb (Fuzz.longest_match_from a b i best).
Proof.
  induction a as [|x a IH]; intros i best Ha Hb Hbest; [exact Hbest|].
  cbn [Fuzz.longest_match_from]. cbn [String.length] in Ha.
  apply IH; [lia|exact Hb|].
  apply longest_from_fits; cbn [String.length]; try lia. exact Hbest.
Qed.

Lemma find_longest_match_fits a b :
  fits (String.length a) (String.length b) (Fuzz.find_longest_match a b).
Proof.
  apply longest_match_from_fits; try lia. unfold fits. cbn. lia.
Qed.

Lemma length_take n : forall s, String.length (Py.take n s) <= n.
Proof.
  induction n as [|n IH]; intros [|c s]; cbn; try lia.
  specialize (IH s). lia.
Qed.

Lemma length_drop n : forall s, String.length (Py.drop n s) = String.length s - n.
Proof.
  induction n as [|n IH]; intros [|c s]; cbn; try lia. apply IH.
Qed.

Lemma matched_le fuel : forall a b,
  Fuzz.matched fuel a b <= String.length a /\
  Fuzz.matched fuel a b <= String.length b.
Proof.
  induction fuel as [|fuel IH]; intros a b; cbn [Fuzz.matched]; [lia|].
  cbv zeta.
  destruct (Fuzz.size (Fuzz.find_longest_match a b) =? 0); [lia|].
  destruct (find_longest_match_fits a b) as [Ha Hb].
  set (m := Fuzz.find_longest_match a b) in *.
  destruct (IH (Py.take (Fuzz.in_a m) a) (Py.take (Fuzz.in_b m) b)) as [L1 L2].
  destruct (IH (Py.drop (Fuzz.in_a m + Fuzz.size m) a)
               (Py.drop (Fuzz.in_b m + Fuzz.size m) b)) as [R1 R2].
  pose proof (length_take (Fuzz.in_a m) a).
  pose proof (length_take (Fuzz.in_b m) b).
  rewrite length_drop in R1, R2. lia.
Qed.

Lemma ratio_difflib_is_percentage : ratio_ok Fuzz.ratio_difflib.
Proof. apply ratio_with_percentage. intros a b. apply matched_le. Qed.

(** **** The stand-in answers with probabilities *)

Lemma frequencies_unit n y :
  Forall (fun p => 0 <= p <= 1)%Q (StandIn.frequencies n y).
Proof.
  unfold StandIn.frequencies. rewrite Forall_forall. intros p Hp.
  apply in_map_iff in Hp as (c & <- & _).
  pose proof (count_occ_bound Nat.eq_dec c y) as Hc.
  unfold Qle. cbn [Qnum Qden]. split; [lia|].
  destruct (List.length y) as [|len] eqn:E.
  - cbn. lia.
  - rewrite Z.mul_1_l, Z.mul_1_r.
    rewrite <- (Nat2Pos.id (S len)) in Hc by discriminate.
    rewrite <- positive_nat_Z. lia.
Qed.

Lemma standin_ok : sklearn_ok StandIn.sk.
Proof.
  intros m X rows. cbn [predict_proba StandIn.sk]. destruct m as [y|]; [|discriminate].
  intros H. injection H as <-.
  rewrite Forall_forall. intros row Hrow.
  apply in_map_iff in Hrow as (x & <- & _). apply frequencies_unit.
Qed.

End ContractFacts.

Module IntentFacts.
Import IntentDetector.

Lemma gt_true a b : gt a b = true -> (b < a)%Q.
Proof.
  unfold gt. destruct (a ?= b)%Q eqn:E; try discriminate.
  intros _. now apply Qgt_alt.
Qed.

Lemma lt_false a b : lt a b = false -> (b <= a)%Q.
Proof.
  unfold lt. destruct (a ?= b)%Q eqn:E; try discriminate; intros _.
  - apply Qeq_alt in E. rewrite E. apply Qle_refl.
  - apply Qlt_le_weak. now apply Qgt_alt.
Qed.

Lemma lt_true a b : lt a b = true -> (a < b)%Q.
Proof.
  unfold lt. destruct (a ?= b)%Q eqn:E; try discriminate.
  intros _. now apply Qlt_alt.
Qed.

Lemma py_min_le_r a b : (py_min a b <= b)%Q.
Proof.
  unfold py_min. destruct (b ?= a)%Q eqn:E.
  - apply Qeq_alt in E. rewrite E. apply Qle_refl.
  - apply Qle_refl.
  - apply Qlt_le_weak. now apply Qgt_alt.
Qed.

Lemma py_min_nonneg a b : (0 <= a)%Q -> (0 <= b)%Q -> (0 <= py_min a b)%Q.
Proof. intros Ha Hb. unfold py_min. now destruct (b ?= a)%Q. Qed.

(** **** Sorting the alternatives *)

Lemma insert_desc_In x a l : In x (insert_desc a l) -> x = a \/ In x l.
Proof.
  induction l as [|b l IH]; cbn.
  - intros [<-|[]]. now left.
  - destruct (lt (alt_confidence a) (alt_confidence b)); cbn.
    + intros [<-|H]; [right; now left|].
      destruct (IH H) as [->|H']; [now left|right; now right].
    + intros [<-|H]; [now left|now right].
Qed.

Lemma sort_desc_In x l : In x (sort_desc l) -> In x l.
Proof.
  induction l as [|a l IH]; cbn; [easy|].
  intros H. apply insert_desc_In in H as [->|H]; [now left|right; now apply IH].
Qed.

Lemma insert_desc_permutation a l : Permutation (insert_desc a l) (a :: l).
Proof.
  induction l as [|b l IH]; cbn; [reflexivity|].
  destruct (lt (alt_confidence a) (alt_confidence b)); [|reflexivity].
  rewrite IH. apply perm_swap.
Qed.

(** Sorting keeps the entries. *)
Lemma sort_desc_permutation l : Permutation (sort_desc l) l.
Proof.
  induction l as [|a l IH]; cbn; [reflexivity|].
  rewrite insert_desc_permutation. now constructor.
Qed.

Lemma insert_desc_descending a l : descending l -> descending (insert_desc a l).
Proof.
  unfold descending.
  induction 1 as [|b l Hl IH Hb]; cbn.
  - repeat constructor.
  - destruct (lt (alt_confidence a) (alt_confidence b)) eqn:E.
    + constructor; [exact IH|].
      rewrite Forall_forall. intros x Hx.
      apply insert_desc_In in Hx as [->|Hx].
      * apply Qlt_le_weak. now apply lt_true.
      * rewrite Forall_forall in Hb. now apply Hb.
    + apply lt_false in E.
      constructor; [now constructor|].
      constructor; [exact E|].
      rewrite Forall_forall in *. intros x Hx.
      apply Qle_trans with (alt_confidence b); [now apply Hb|exact E].
Qed.

Lemma sort_desc_descending l : descending (sort_desc l).
Proof.
  induction l as [|a l IH]; cbn; [constructor|].
  now apply insert_desc_descending.
Qed.

Lemma In_firstn {A : Type} (x : A) n l : In x (firstn n l) -> In x l.
Proof.
  revert n. induction l as [|a l IH]; intros [|n]; cbn; try easy.
  intros [->|H]; [now left|right; now apply (IH n)].
Qed.

Lemma firstn_descending n l : descending l -> descending (firstn n l).
Proof.
  unfold descending. intros H. revert n.
  induction H as [|a l Hl IH Ha]; intros [|n]; cbn; try constructor.
  - apply IH.
  - rewrite Forall_forall in *. intros x Hx. apply Ha.
    revert Hx. apply In_firstn.
Qed.

Lemma top3_capped_and_descending l :
  List.length (firstn 3 (sort_desc l)) <= 3 /\ descending (firstn 3 (sort_desc l)).
Proof.
  split; [apply firstn_le_length|].
  apply firstn_descending, sort_desc_descending.
Qed.

Lemma index_In {A : Type} (xs : list A) i x : index xs i = Ok x -> In x xs.
Proof.
  unfold index. destruct (nth_error xs i) eqn:E; [|discriminate].
  intros H. injection H as <-. now apply nth_error_In in E.
Qed.

(** **** The rule-based scan *)

Section Scan.

Variable ratio : string -> string -> Z.
Hypothesis ratio_range : ratio_ok ratio.

Lemma score_unit s1 s2 : unit_interval (inject_Z (ratio s1 s2) / 100)%Q.
Proof.
  destruct (ratio_range s1 s2) as [H0 H1]. unfold unit_interval.
  split.
  - apply Qle_shift_div_l; [reflexivity|].
    rewrite Qmult_0_l. unfold Qle. cbn. lia.
  - apply Qle_shift_div_r; [reflexivity|].
    rewrite Qmult_1_l. unfold Qle. cbn. lia.
Qed.

Lemma scan_phrase_unit text i st phrase :
  unit_interval (best_score st) -> unit_interval (best_score (scan_phrase ratio text i st phrase)).
Proof.
  intros H. unfold scan_phrase.
  destruct (gt _ (best_score st)); [apply score_unit|].
  now destruct (gt _ (5 # 10)).
Qed.

Lemma scan_intent_unit text i st :
  unit_interval (best_score st) -> unit_interval (best_score (scan_intent ratio text st i)).
Proof.
  unfold scan_intent. revert st.
  induction (phrases i) as [|p ps IH]; cbn; intros st H; [assumption|].
  now apply IH, scan_phrase_unit.
Qed.

Lemma scan_all_unit text : unit_interval (best_score (scan_all ratio text)).
Proof.
  unfold scan_all.
  assert (H : unit_interval (best_score
            {| best_match := None; best_score := 0%Q; scan_alternatives := [] |}))
    by (split; discriminate).
  revert H. generalize {| best_match := None; best_score := 0%Q; scan_alternatives := [] |}.
  induction _load_default_intents as [|i is_ IH]; cbn; intros st H; [assumption|].
  now apply IH, scan_intent_unit.
Qed.

Lemma rule_based_confidence_unit text context :
  unit_interval (confidence (_rule_based_predict ratio text context)).
Proof.
  unfold _rule_based_predict.
  destruct (best_match (scan_all ratio text)).
  - destruct (gt (best_score (scan_all ratio text)) (6 # 10)).
    + apply scan_all_unit.
    + split; discriminate.
  - split; discriminate.
Qed.

End Scan.

Lemma rule_based_alternatives ratio text context :
  List.length (alternatives (_rule_based_predict ratio text context)) <= 3 /\
  descending (alternatives (_rule_based_predict ratio text context)).
Proof.
  unfold _rule_based_predict.
  destruct (best_match (scan_all ratio text)).
  - destruct (gt (best_score (scan_all ratio text)) (6 # 10)); cbn [alternatives unknown].
    + apply top3_capped_and_descending.
    + split; [cbn; lia|constructor].
  - split; [cbn; lia|constructor].
Qed.

(** **** The statistical strategy *)

Lemma apply_context_intent i c ctx : fst (_apply_context i c ctx) = i.
Proof. reflexivity. Qed.

Lemma apply_context_unit i c ctx :
  (0 <= c)%Q -> (0 <= snd (_apply_context i c ctx) <= 1)%Q.
Proof.
  intros Hc. unfold _apply_context. cbn [snd].
  split; [|apply py_min_le_r].
  apply py_min_nonneg; [|discriminate].
  assert (H12 : (0 <= c * (12 # 10))%Q) by (apply Qmult_le_0_compat; [assumption|discriminate]).
  destruct (get_is ctx "previous_intent" "greeting" && (i =? "self_intro")%string);
    destruct (truthy (Py.dict_get ctx "user_id") && (i =? "ask_name")%string);
    try assumption; apply Qmult_le_0_compat; try assumption; discriminate.
Qed.

(** What a successful run of the [try] block of [_ml_predict] returns. *)
Lemma ml_predict_body_Ok sk (self : engine sk) m v text context p :
  ml_predict_body sk self m v text context = Ok p ->
  exists X rows probabilities predicted_idx c label alts,
    predict_proba sk m X = Ok rows /\
    index rows 0 = Ok probabilities /\
    index probabilities predicted_idx = Ok c /\
    index (intent_labels self) predicted_idx = Ok label /\
    collect_alternatives (intent_labels self) predicted_idx 0 probabilities = Ok alts /\
    intent p = label /\
    alternatives p = firstn 3 (sort_desc alts) /\
    confidence p = match context with
                   | Some (entry :: entries) =>
                       snd (_apply_context label c (entry :: entries))
                   | _ => c
                   end.
Proof.
  unfold ml_predict_body.
  destruct (transform sk v [text]) as [X|]; [|discriminate].
  destruct (predict_proba sk m X) as [rows|] eqn:Erows; [|discriminate].
  destruct (index rows 0) as [probabilities|] eqn:Eprobs; [|discriminate].
  destruct (argmax probabilities) as [predicted_idx|]; [|discriminate].
  destruct (index probabilities predicted_idx) as [c|] eqn:Ec; [|discriminate].
  destruct (index (intent_labels self) predicted_idx) as [label|] eqn:El; [|discriminate].
  destruct (collect_alternatives (intent_labels self) predicted_idx 0 probabilities)
    as [alts|] eqn:Ealts; [|discriminate].
  intros H. exists X, rows, probabilities, predicted_idx, c, label, alts.
  repeat (split; [eassumption || reflexivity|]).
  destruct context as [[|entry entries]|]; injection H as <-; now repeat split.
Qed.

Lemma ml_confidence_unit sk (self : engine sk) m v text context p :
  sklearn_ok sk ->
  ml_predict_body sk self m v text context = Ok p ->
  (0 <= confidence p <= 1)%Q.
Proof.
  intros Hsk H.
  apply ml_predict_body_Ok in H
    as (X & rows & probs & idx & c & label & alts & Hrows & Hprobs & Hc & _ & _ & _ & _ & Hconf).
  assert (Hunit : (0 <= c <= 1)%Q).
  { apply Hsk in Hrows. rewrite Forall_forall in Hrows.
    specialize (Hrows _ (index_In _ _ _ Hprobs)).
    rewrite Forall_forall in Hrows. exact (Hrows _ (index_In _ _ _ Hc)). }
  rewrite Hconf. destruct context as [[|entry entries]|]; try exact Hunit.
  apply apply_context_unit, Hunit.
Qed.

(** The alternatives of the statistical strategy carry the labels of
    indices other than the predicted one. *)
Lemma collect_alternatives_labels labels predicted_idx probabilities i alts a :
  collect_alternatives labels predicted_idx i probabilities = Ok alts ->
  In a alts ->
  exists j, j <> predicted_idx /\ nth_error labels j = Some (alt_intent a).
Proof.
  revert i alts.
  induction probabilities as [|prob rest IH]; intros i alts; cbn.
  - intros H. injection H as <-. intros [].
  - destruct (negb (i =? predicted_idx) && gt prob (1 # 10)) eqn:E.
    + unfold index at 1. destruct (nth_error labels i) as [label|] eqn:El; [|discriminate].
      destruct (collect_alternatives labels predicted_idx (S i) rest) as [alts'|] eqn:E';
        [|discriminate].
      intros H. injection H as <-. intros [<-|Hin].
      * exists i. split; [|exact El].
        apply andb_true_iff in E as [E _]. apply negb_true_iff in E.
        now apply Nat.eqb_neq.
      * now apply (IH (S i) alts').
    + apply IH.
Qed.

(** X29: with distinct labels the statistical strategy never lists
    its top pick among the alternatives. *)
Lemma ml_alternatives_exclude_top sk (self : engine sk) m v text context p :
  NoDup (intent_labels self) ->
  ml_predict_body sk self m v text context = Ok p ->
  ~ In (intent p) (map alt_intent (alternatives p)).
Proof.
  intros Hnodup H.
  apply ml_predict_body_Ok in H
    as (X & rows & probs & idx & c & label & alts & _ & _ & _ & Hl & Halts & -> & -> & _).
  intros Hin. apply in_map_iff in Hin as (a & Ha & Hin).
  apply In_firstn, sort_desc_In in Hin.
  destruct (collect_alternatives_labels _ _ _ _ _ _ Halts Hin) as (j & Hj & Hnth).
  unfold index in Hl. destruct (nth_error (intent_labels self) idx) eqn:E; [|discriminate].
  injection Hl as ->. rewrite Ha, <- E in Hnth.
  apply Hj. apply (proj1 (NoDup_nth_error (intent_labels self)) Hnodup); [|exact Hnth].
  apply nth_error_Some. rewrite Hnth, E. discriminate.
Qed.

Lemma ml_alternatives sk (self : engine sk) m v text context p :
  ml_predict_body sk self m v text context = Ok p ->
  List.length (alternatives p) <= 3 /\ descending (alternatives p).
Proof.
  intros H.
  apply ml_predict_body_Ok in H
    as (X & rows & probs & idx & c & label & alts & _ & _ & _ & _ & _ & _ & -> & _).
  apply top3_capped_and_descending.
Qed.

(** X28: the alternatives of every prediction are at most three, in
    descending order of confidence, whichever strategy answered. *)
Lemma predict_alternatives ratio sk (self : engine sk) text context :
  List.length (alternatives (predict ratio sk self text context)) <= 3 /\
  descending (alternatives (predict ratio sk self text context)).
Proof.
  unfold predict.
  destruct (model self) as [m|]; [|apply rule_based_alternatives].
  destruct (model_bool sk m) as [[|]|];
    [|apply rule_based_alternatives|split; [cbn; lia|constructor]].
  destruct (vectorizer self) as [v|]; [|apply rule_based_alternatives].
  unfold _ml_predict.
  destruct (ml_predict_body sk self m v text context) eqn:E;
    [now apply ml_alternatives in E|apply rule_based_alternatives].
Qed.

(** C5: the confidence [predict] returns lies in [0, 1], with or
    without a context, for every similarity that is a percentage and
    every model whose class probabilities lie in [0, 1]. *)
Theorem predict_confidence_in_unit_interval
  (ratio : string -> string -> Z) (sk : sklearn) (self : engine sk)
  (text : string) (context : option context) :
  ratio_ok ratio -> sklearn_ok sk ->
  (0 <= confidence (predict ratio sk self text context) <= 1)%Q.
Proof.
  intros Hratio Hsk. unfold predict.
  destruct (model self) as [m|]; [|now apply rule_based_confidence_unit].
  destruct (model_bool sk m) as [[|]|];
    [|now apply rule_based_confidence_unit|split; discriminate].
  destruct (vectorizer self) as [v|]; [|now apply rule_based_confidence_unit].
  unfold _ml_predict.
  destruct (ml_predict_body sk self m v text context) eqn:E;
    [now apply ml_confidence_unit in E|now apply rule_based_confidence_unit].
Qed.

(** C5 at work: an engine trained on [introductions] answers
    ["im kasun"] after a greeting with [self_intro]; the probability 1
    of the model, boosted to 1.2, is clamped to 1. *)
Lemma predict_confidence_in_unit_interval_witness :
  let self := fst (train insertion_order StandIn.sk (init StandIn.sk) introductions) in
  ratio_ok Fuzz.ratio /\ sklearn_ok StandIn.sk /\
  intent (predict Fuzz.ratio StandIn.sk self "im kasun" (Some after_greeting)) = "self_intro" /\
  (confidence (predict Fuzz.ratio StandIn.sk self "im kasun" (Some after_greeting)) == 1)%Q /\
  (0 <= confidence (predict Fuzz.ratio StandIn.sk self "im kasun" (Some after_greeting)) <= 1)%Q.
Proof.
  cbv zeta.
  split; [exact ContractFacts.ratio_is_percentage|].
  split; [exact ContractFacts.standin_ok|].
  split; [vm_compute; reflexivity|].
  split; [vm_compute; reflexivity|].
  exact (predict_confidence_in_unit_interval Fuzz.ratio StandIn.sk
           (fst (train insertion_order StandIn.sk (init StandIn.sk) introductions))
           "im kasun" (Some after_greeting)
           ContractFacts.ratio_is_percentage ContractFacts.standin_ok).
Defined.

(** C2 on the code: the rule-based prediction returns the same
    result for every context, so does [predict] on an engine without a
    model, and in that mode a known user who asks ["who are you"] gets
    [ask_name] with confidence 1.0, with either matcher, not the 0.8
    of the adjustment. *)
Theorem rule_based_prediction_ignores_context :
  (forall ratio text context,
     _rule_based_predict ratio text context = _rule_based_predict ratio text None) /\
  (forall ratio sk (self : engine sk) text context,
     model self = None ->
     predict ratio sk self text context = predict ratio sk self text None) /\
  Forall
    (fun ratio =>
       let r := predict ratio StandIn.sk StandIn.fallback "who are you" (Some known_user) in
       intent r = "ask_name" /\ (confidence r == 1)%Q)
    [Fuzz.ratio; Fuzz.ratio_difflib] /\
  snd (_apply_context "ask_name" 1 known_user) = (8 # 10)%Q.
Proof.
  split; [intros ratio text context; unfold _rule_based_predict; reflexivity|].
  split.
  { intros ratio sk self text context E. unfold predict. rewrite E.
    unfold _rule_based_predict. reflexivity. }
  split; [|vm_compute; reflexivity].
  apply Forall_cons; [|apply Forall_cons; [|apply Forall_nil]];
    cbv zeta; split; vm_compute; reflexivity.
Qed.

(** C6 on the code: in the rule-based mode the alternatives for
    ["kohomada"] repeat [greeting], the intent of the prediction, with
    either matcher. *)
Theorem fuzzy_alternatives_repeat_the_top_pick :
  Forall
    (fun ratio =>
       let r := predict ratio StandIn.sk StandIn.fallback "kohomada" None in
       intent r = "greeting" /\
       map alt_intent (alternatives r) = ["greeting"; "greeting"; "how_are_you"] /\
       In (intent r) (map alt_intent (alternatives r)))
    [Fuzz.ratio; Fuzz.ratio_difflib].
Proof.
  apply Forall_cons; [|apply Forall_cons; [|apply Forall_nil]];
    cbv zeta;
    (split; [vm_compute; reflexivity|]);
    (split; [vm_compute; reflexivity|]);
    vm_compute; left; reflexivity.
Qed.

End IntentFacts.

Module TrainingFacts.
Import IntentDetector.

Lemma mem_In x xs : Py.mem x xs = true <-> In x xs.
Proof.
  unfold Py.mem. rewrite existsb_exists. split.
  - intros (y & Hy & E). apply String.eqb_eq in E. now subst.
  - intros H. exists x. split; [assumption|apply String.eqb_refl].
Qed.

Lemma set_add_In x y s : In x (set_add y s) <-> x = y \/ In x s.
Proof.
  unfold set_add. destruct (Py.mem y s) eqn:E.
  - apply mem_In in E. split; [now right|]. now intros [->|H].
  - rewrite in_app_iff. cbn. intuition.
Qed.

Lemma set_of_list_In x xs : In x (set_of_list xs) <-> In x xs.
Proof.
  unfold set_of_list.
  enough (H : forall acc, In x (fold_left (fun s y => set_add y s) xs acc)
                          <-> In x xs \/ In x acc).
  { rewrite H. cbn. intuition. }
  induction xs as [|y xs IH]; intros acc; cbn; [intuition|].
  rewrite IH, set_add_In. intuition.
Qed.

Lemma label_index_nth labels label i :
  label_index labels label = Ok i -> nth_error labels i = Some label.
Proof.
  revert i. induction labels as [|l rest IH]; intros i; cbn; [discriminate|].
  destruct (String.eqb_spec label l) as [->|_].
  - intros H. now injection H as <-.
  - destruct (label_index rest label) as [j|]; [|discriminate].
    intros H. injection H as <-. now apply IH.
Qed.

Lemma label_index_In labels label :
  In label labels -> exists i, label_index labels label = Ok i.
Proof.
  induction labels as [|l rest IH]; cbn; [easy|].
  destruct (String.eqb_spec label l) as [->|Hne]; [now exists 0|].
  intros [->|H]; [easy|].
  destruct (IH H) as [i ->]. now exists (S i).
Qed.

(** The indices of the samples' labels: one per sample, equal exactly
    for equal labels. *)
Lemma label_indices_Ok labels ls :
  Forall (fun l => In l labels) ls ->
  exists y, label_indices labels ls = Ok y /\
            Forall2 (fun l i => label_index labels l = Ok i) ls y.
Proof.
  induction 1 as [|l ls Hl Hls (y & Ey & Hy)]; cbn.
  - exists []. now split.
  - destruct (label_index_In _ _ Hl) as [i Ei]. rewrite Ei, Ey.
    exists (i :: y). split; [reflexivity|now constructor].
Qed.

Lemma count_occ_indices labels ls y label i :
  Forall2 (fun l i => label_index labels l = Ok i) ls y ->
  label_index labels label = Ok i ->
  count_occ Nat.eq_dec y i = count_occ string_dec ls label.
Proof.
  intros H Hi. induction H as [|l j ls y Hj _ IH]; [reflexivity|].
  cbn [count_occ].
  destruct (Nat.eq_dec j i) as [->|Hne]; destruct (string_dec l label) as [->|Hne'];
    try (now rewrite IH).
  - apply label_index_nth in Hi, Hj. congruence.
  - congruence.
Qed.

Lemma single_member_not_stratifiable y i :
  count_occ Nat.eq_dec y i = 1 -> stratifiable y = false.
Proof.
  intros H. destruct (stratifiable y) eqn:E; [|reflexivity].
  unfold stratifiable in E. rewrite forallb_forall in E.
  assert (Hin : In i y) by (apply (count_occ_In Nat.eq_dec); lia).
  specialize (E i Hin). apply Nat.leb_le in E. lia.
Qed.

Section Train.

Variable py : interpreter.
Variable sk : sklearn.
Hypothesis py_ok : interpreter_ok py.

Lemma train_label_indices (training_data : list (string * string)) :
  exists y,
    label_indices (set_iter py (set_of_list (map snd training_data)))
                  (map snd training_data) = Ok y /\
    Forall2 (fun l i => label_index (set_iter py (set_of_list (map snd training_data))) l = Ok i)
            (map snd training_data) y.
Proof.
  apply label_indices_Ok. rewrite Forall_forall. intros l Hl.
  apply (Permutation_in l (Permutation_sym (py_ok _))).
  now apply set_of_list_In.
Qed.

(** C3, as the code has it: when training fails the error reaches
    the caller, and by then the label list holds the distinct labels
    of the samples and the vectorizer is the one newly built for their
    texts; a label with a single sample makes training fail no later
    than at the split, with the model left as it was. *)
Theorem failed_training_keeps_new_labels_and_vectorizer
  (self : engine sk) (training_data : list (string * string)) :
  let after := fst (train py sk self training_data) in
  let outcome := snd (train py sk self training_data) in
  (forall e, outcome = Raise e ->
     intent_labels after = set_iter py (set_of_list (map snd training_data)) /\
     vectorizer after
       = Some (fst (fit_transform sk (TfidfVectorizer sk) (map fst training_data)))) /\
  (forall label, single_sample_label training_data label ->
     (exists e, outcome = Raise e) /\ model after = model self).
Proof.
  cbv zeta. unfold train. cbn [set_intent_labels intent_labels].
  destruct (train_label_indices training_data) as (y & -> & Hy).
  destruct (fit_transform sk (TfidfVectorizer sk) (map fst training_data)) as [v X].
  cbn [fst].
  split.
  - intros e.
    destruct X as [X|]; [|cbn; now split].
    destruct (train_test_split sk X y) as [[[[X_train X_test] y_train] y_test]|];
      [|cbn; now split].
    destruct (fit sk (RandomForestClassifier sk) X_train y_train) as [m fitted].
    destruct fitted; [|cbn; now split].
    destruct (model_predict sk m X_test) as [y_pred|]; [|cbn; now split].
    destruct (accuracy_score sk y_test y_pred); [|cbn; now split].
    cbn. discriminate.
  - intros label Hlabel.
    destruct X as [X|]; [|cbn; eauto].
    assert (Hsplit : train_test_split sk X y = Raise "ValueError").
    { unfold train_test_split.
      destruct (label_index_In (set_iter py (set_of_list (map snd training_data))) label)
        as [i Hi].
      - apply (Permutation_in _ (Permutation_sym (py_ok _))), set_of_list_In.
        apply (count_occ_In string_dec). unfold single_sample_label in Hlabel. lia.
      - rewrite (single_member_not_stratifiable y i); [reflexivity|].
        now rewrite (count_occ_indices _ _ _ _ _ Hy Hi). }
    rewrite Hsplit. cbn. eauto.
Qed.

End Train.

(** C3 at work: training the rule-based engine on [lonely_goodbye]
    raises, keeps the absent model and leaves the two new labels and
    the new vectorizer. *)
Lemma failed_training_keeps_new_labels_and_vectorizer_witness :
  let after := fst (train insertion_order StandIn.sk StandIn.fallback lonely_goodbye) in
  let outcome := snd (train insertion_order StandIn.sk StandIn.fallback lonely_goodbye) in
  interpreter_ok insertion_order /\
  single_sample_label lonely_goodbye "goodbye" /\
  (exists e, outcome = Raise e) /\
  model after = model StandIn.fallback /\
  intent_labels after = ["greeting"; "goodbye"] /\
  vectorizer after = Some (Some ["hi"; "hello"; "bye"]).
Proof.
  cbv zeta.
  destruct (failed_training_keeps_new_labels_and_vectorizer
              insertion_order StandIn.sk insertion_order_ok
              StandIn.fallback lonely_goodbye) as [Hfail Hsingle].
  destruct (Hsingle "goodbye" eq_refl) as [[e He] Hmodel].
  destruct (Hfail e He) as [Hlabels Hvectorizer].
  split; [exact insertion_order_ok|]. split; [reflexivity|].
  split; [now exists e|]. split; [exact Hmodel|].
  split; [exact Hlabels|exact Hvectorizer].
Defined.

(** C3 fails as stated: training on samples in which [goodbye] has a
    single sample raises, and leaves the engine with two labels and a
    vectorizer where it had the eight fallback labels and none. *)
Lemma failed_training_changes_the_engine :
  let after := fst (train insertion_order StandIn.sk StandIn.fallback lonely_goodbye) in
  single_sample_label lonely_goodbye "goodbye" /\
  snd (train insertion_order StandIn.sk StandIn.fallback lonely_goodbye) = Raise "ValueError" /\
  intent_labels StandIn.fallback
    = ["greeting"; "self_intro"; "ask_name"; "how_are_you";
       "goodbye"; "thanks"; "help"; "unknown"] /\
  intent_labels after = ["greeting"; "goodbye"] /\
  vectorizer StandIn.fallback = None /\
  vectorizer after = Some (Some ["hi"; "hello"; "bye"]) /\
  after <> StandIn.fallback.
Proof.
  cbv zeta. repeat split.
  intros E. apply (f_equal (@intent_labels StandIn.sk)) in E. vm_compute in E. discriminate E.
Qed.

(** With the stand-in, a prediction after the failed training differs
    from the one before it: the trained engine answered ["hello"] from
    its model, and answers from the phrase catalogue once the labels
    no longer match the classes of the model. *)
Lemma prediction_changes_after_failed_training :
  let before := StandIn.trained in
  let after := fst (train insertion_order StandIn.sk before lonely_goodbye) in
  snd (train insertion_order StandIn.sk before lonely_goodbye) = Raise "ValueError" /\
  model after = model before /\
  (confidence (predict Fuzz.ratio StandIn.sk before "hello" None) == 8 # 33)%Q /\
  (confidence (predict Fuzz.ratio StandIn.sk after "hello" None) == 1)%Q.
Proof. cbv zeta. repeat split; vm_compute; reflexivity. Qed.

End TrainingFacts.

Module ResponseFacts.
Import ResponseGenerator.

Lemma startswith_app sub s t :
  Py.startswith sub s = true -> Py.startswith sub (s ++ t) = true.
Proof.
  revert s. induction sub as [|c sub IH]; intros s; [reflexivity|].
  destruct s as [|d s]; cbn; [discriminate|].
  intros H. apply andb_true_iff in H as [-> H]. now apply IH.
Qed.

Lemma contains_app_l sub s t :
  Py.contains sub s = true -> Py.contains sub (s ++ t) = true.
Proof.
  induction s as [|d s IH]; cbn [Py.contains].
  - rewrite orb_false_r. intros H. destruct sub; [|discriminate].
    now destruct t.
  - intros H. apply orb_true_iff in H as [H|H].
    + apply (startswith_app _ _ t) in H. cbn [append] in *.
      cbn [Py.contains]. now rewrite H.
    + cbn [append Py.contains]. rewrite (IH H). apply orb_true_r.
Qed.

Lemma contains_app_r sub s t :
  Py.contains sub t = true -> Py.contains sub (s ++ t) = true.
Proof.
  intros H. induction s as [|d s IH]; [exact H|].
  cbn [append Py.contains]. rewrite IH. apply orb_true_r.
Qed.

Lemma startswith_lower sub s :
  Py.startswith sub s = true -> Py.startswith (Py.lower sub) (Py.lower s) = true.
Proof.
  revert s. induction sub as [|c sub IH]; intros s; [reflexivity|].
  destruct s as [|d s]; cbn; [discriminate|].
  intros H. apply andb_true_iff in H as [E H].
  apply Ascii.eqb_eq in E as ->. rewrite Ascii.eqb_refl. now apply IH.
Qed.

Lemma contains_lower sub s :
  Py.contains sub s = true -> Py.contains (Py.lower sub) (Py.lower s) = true.
Proof.
  induction s as [|d s IH]; cbn [Py.contains Py.lower].
  - rewrite !orb_false_r. apply (startswith_lower sub "").
  - intros H. apply orb_true_iff in H as [H|H].
    + apply startswith_lower in H. cbn [Py.lower] in H. now rewrite H.
    + rewrite (IH H). apply orb_true_r.
Qed.

Lemma slotted_app_l s t : slotted s -> slotted (s ++ t).
Proof. apply contains_app_l. Qed.

Lemma slotted_app_r s t : slotted t -> slotted (s ++ t).
Proof. apply contains_app_r. Qed.

Lemma slotted_lower s : slotted s -> slotted (Py.lower s).
Proof. intros H. now apply contains_lower in H. Qed.

(** A choice from a non-empty sequence returns one of its elements. *)
Lemma choice_In {A : Type} (seq : list A) (g : rng) :
  seq <> [] -> exists x, fst (runState (choice seq) g) = Ok x /\ In x seq.
Proof.
  intros Hne. destruct seq as [|a seq]; [easy|].
  cbn [choice]. cbn -[Z.modulo Z.of_nat List.length index].
  unfold index.
  set (n := Z.of_nat (List.length (a :: seq))).
  assert (Hn : (0 < n)%Z) by (subst n; cbn [List.length]; lia).
  pose proof (Z.mod_pos_bound (g 0) n Hn) as Hb.
  destruct (nth_error (a :: seq) (Z.to_nat (g 0 mod n))) as [x|] eqn:E.
  - exists x. split; [reflexivity|]. now apply nth_error_In in E.
  - apply nth_error_None in E. subst n. lia.
Qed.

Lemma self_intro_templates_slotted :
  forall responses, Py.dict_get default_responses "self_intro" = Some responses ->
  Forall slotted responses /\ responses <> [].
Proof.
  intros responses H. vm_compute in H. injection H as <-.
  split; [|discriminate]. repeat constructor.
Qed.

Lemma run_bind {A B : Type} (m : state rng A) (k : A -> state rng B) (g : rng) :
  runState (bind m k) g = runState (k (fst (runState m g))) (snd (runState m g)).
Proof. cbn. now destruct (runState m g). Qed.

Lemma run_ret {A : Type} (x : A) (g : rng) : runState (ret x) g = (x, g).
Proof. reflexivity. Qed.

(** Running one more bind, or deciding one more test, of a composer
    stage whose every outcome keeps the placeholder. *)
Ltac run_stage :=
  repeat first
    [ rewrite run_ret; cbn [fst snd]
    | rewrite run_bind
    | match goal with
      | |- slotted (fst (runState (match ?x with _ => _ end) _)) => destruct x
      | |- slotted (fst (runState (if ?x then _ else _) _)) => destruct x
      end ];
  auto using slotted_app_l, slotted_app_r, slotted_lower.

Lemma find_absent sub s : Py.contains sub s = false -> Py.find sub s = None.
Proof.
  induction s as [|d s IH]; cbn [Py.contains Py.find]; intros H;
    apply orb_false_iff in H as [-> H]; [reflexivity|].
  now rewrite (IH H).
Qed.

(** A message that holds none of the patterns yields no name. *)
Lemma extract_name_absent (message : string) :
  Py.any_in patterns (Py.lower message) = false -> _extract_name message = None.
Proof.
  unfold _extract_name, Py.any_in.
  induction patterns as [|pattern rest IH]; cbn [existsb extract_name_from];
    [reflexivity|].
  intros H. apply orb_false_iff in H as [H1 H2].
  rewrite (find_absent _ _ H1). now apply IH.
Qed.

Lemma base_response_slotted (message : string) (g : rng) :
  Py.any_in patterns (Py.lower message) = false ->
  slotted (fst (runState (_get_base_response "self_intro" message) g)).
Proof.
  intros Hnone. unfold _get_base_response.
  destruct (Py.dict_get default_responses "self_intro") as [responses|] eqn:E;
    [|vm_compute in E; discriminate E].
  destruct (self_intro_templates_slotted responses E) as [Hall Hne].
  rewrite (extract_name_absent message Hnone). cbn [String.eqb Ascii.eqb Bool.eqb].
  rewrite run_bind.
  destruct (choice_In responses g Hne) as (x & -> & Hx).
  rewrite run_ret. cbn [fst].
  rewrite Forall_forall in Hall. now apply Hall.
Qed.

Lemma apply_personalization_slotted (response : string) (g : rng) :
  slotted response -> slotted (fst (runState (_apply_personalization response) g)).
Proof. intros H. unfold _apply_personalization. run_stage. Qed.

Lemma apply_context_modifiers_slotted (current_hour : nat) (response : string) (g : rng) :
  slotted response ->
  slotted (fst (runState (_apply_context_modifiers current_hour response) g)).
Proof. intros H. unfold _apply_context_modifiers. cbv zeta. run_stage. Qed.

Lemma add_personality_slotted (response : string) (confidence : Q) (g : rng) :
  slotted response ->
  slotted (fst (runState (_add_personality response confidence) g)).
Proof. intros H. unfold _add_personality. run_stage. Qed.

(** Whatever the message, once no pattern occurs in it the response
    to [self_intro] shows the placeholder. *)
Lemma generated_without_name_slotted
  (current_hour : nat) (message : string) (confidence : Q)
  (user_id session_id : option string) (g : rng) :
  Py.any_in patterns (Py.lower message) = false ->
  slotted (generated current_hour message "self_intro" confidence user_id session_id g).
Proof.
  intros Hnone. unfold generated, generate.
  rewrite run_bind.
  pose proof (base_response_slotted message g Hnone) as H0.
  set (r0 := runState (_get_base_response "self_intro" message) g) in *.
  rewrite run_bind.
  assert (H1 : slotted (fst (runState
                 (if given user_id then _apply_personalization (fst r0) else ret (fst r0))
                 (snd r0)))).
  { destruct (given user_id); [now apply apply_personalization_slotted|exact H0]. }
  set (r1 := runState (if given user_id then _ else _) (snd r0)) in *.
  rewrite run_bind.
  pose proof (apply_context_modifiers_slotted current_hour (fst r1) (snd r1) H1) as H2.
  set (r2 := runState (_apply_context_modifiers current_hour (fst r1)) (snd r1)) in *.
  rewrite run_bind.
  pose proof (add_personality_slotted (fst r2) confidence (snd r2) H2) as H3.
  rewrite run_ret. exact H3.
Qed.

(** C7 on the code: the message ["hello"] holds none of the
    introduction patterns, and the response to it with the intent
    [self_intro] contains the unfilled placeholder [{name}], whatever
    the random draws, the hour, the confidence and the user. *)
Theorem self_intro_without_name_keeps_placeholder
  (current_hour : nat) (confidence : Q) (user_id session_id : option string) (g : rng) :
  Py.any_in patterns (Py.lower "hello") = false /\
  Py.contains "{name}"
    (generated current_hour "hello" "self_intro" confidence user_id session_id g) = true.
Proof.
  assert (Hnone : Py.any_in patterns (Py.lower "hello") = false)
    by (vm_compute; reflexivity).
  split; [exact Hnone|].
  now apply generated_without_name_slotted.
Qed.

End ResponseFacts.

(** ** Further properties of the code *)

Module NormalizerFacts.
Import SinglishPreprocessor.

(** **** Tokens *)

Lemma split_from_app_space cur s t :
  Py.split_from cur (s ++ String " " t)
  = (Py.split_from cur s ++ Py.split_from "" t)%list.
Proof.
  revert cur. induction s as [|c s IH]; intros cur; cbn [append Py.split_from].
  - change (Py.isspace " ") with true. cbv iota. now destruct cur.
  - destruct (Py.isspace c); [|apply IH].
    destruct cur; [apply IH|]. cbn [app]. f_equal. apply IH.
Qed.

Lemma split_join ws :
  Py.split (Py.join " " ws) = flat_map Py.split ws.
Proof.
  unfold Py.split.
  induction ws as [|w ws IH]; [reflexivity|].
  destruct ws as [|w' ws'].
  - cbn [Py.join flat_map]. now rewrite app_nil_r.
  - change (Py.join " " (w :: w' :: ws')) with (w ++ String " " (Py.join " " (w' :: ws'))).
    rewrite split_from_app_space, IH. reflexivity.
Qed.

Lemma split_from_tokens s : forall cur,
  all_chars no_space cur = true ->
  Forall (fun w => w <> "" /\ all_chars no_space w = true) (Py.split_from cur s).
Proof.
  induction s as [|c s IH]; intros cur Hcur; cbn [Py.split_from].
  - destruct cur; [constructor|]. constructor; [|constructor]. split; [discriminate|exact Hcur].
  - destruct (Py.isspace c) eqn:E.
    + destruct cur; [now apply IH|].
      constructor; [split; [discriminate|exact Hcur]|now apply IH].
    + apply IH. rewrite all_chars_app, Hcur. cbn. unfold no_space. now rewrite E.
Qed.

Lemma split_tokens s :
  Forall (fun w => w <> "" /\ all_chars no_space w = true) (Py.split s).
Proof. now apply split_from_tokens. Qed.

Lemma split_from_word w : forall cur,
  all_chars no_space w = true ->
  Py.split_from cur w = match (cur ++ w)%string with "" => [] | t => [t] end.
Proof.
  induction w as [|c w IH]; intros cur H; cbn [Py.split_from].
  - assert (E : (cur ++ "")%string = cur) by (induction cur; cbn; congruence).
    rewrite E. now destruct cur.
  - cbn [all_chars] in H. apply andb_true_iff in H as [Hc Hw].
    unfold no_space in Hc. apply negb_true_iff in Hc. rewrite Hc.
    rewrite (IH _ Hw).
    replace ((cur ++ String c "") ++ w)%string with (cur ++ String c w)%string; [reflexivity|].
    clear. induction cur as [|d cur IH]; cbn; [reflexivity|now rewrite IH].
Qed.

Lemma split_word w :
  w <> "" -> all_chars no_space w = true -> Py.split w = [w].
Proof.
  intros Hne H. unfold Py.split. rewrite (split_from_word w "" H). cbn [append].
  now destruct w.
Qed.


(** **** The particle guard of the term passes *)

Lemma particle_free_tokens ws :
  Forall (fun w => particle_free w = true) ws ->
  particle_free (Py.join " " ws) = true.
Proof.
  intros H. unfold particle_free. rewrite split_join.
  apply forallb_forall. intros t Ht.
  apply in_flat_map in Ht as (w & Hw & Ht).
  rewrite Forall_forall in H. specialize (H w Hw).
  unfold particle_free in H. rewrite forallb_forall in H. now apply H.
Qed.

Lemma particle_free_word w :
  w <> "" -> all_chars no_space w = true -> Py.mem w particles = false ->
  particle_free w = true.
Proof.
  intros Hne Hw Hp. unfold particle_free. rewrite (split_word w Hne Hw).
  cbn [forallb]. now rewrite Hp.
Qed.

Lemma singlish_values_particle_free :
  forallb (fun kv => particle_free (snd kv)) singlish_mappings = true.
Proof. vm_compute. reflexivity. Qed.

Lemma sinhala_values_particle_free :
  forallb (fun kv => particle_free (snd kv)) sinhala_romanized = true.
Proof. vm_compute. reflexivity. Qed.

Lemma value_particle_free d k v :
  forallb (fun kv => particle_free (snd kv)) d = true ->
  Py.dict_get d k = Some v -> particle_free v = true.
Proof.
  intros Hd Hget. apply dict_get_In in Hget.
  apply in_map_iff in Hget as [[k' v'] [<- Hin]].
  rewrite forallb_forall in Hd. exact (Hd _ Hin).
Qed.

Lemma singlish_word_particle_free w :
  w <> "" -> all_chars no_space w = true ->
  Forall (fun t => particle_free t = true) (singlish_word w).
Proof.
  intros Hne Hw. unfold singlish_word.
  destruct (Py.mem w particles) eqn:Ep; [constructor|].
  destruct (Py.dict_get singlish_mappings w) as [mapped|] eqn:E.
  - destruct mapped as [|c m]; [constructor|].
    constructor; [|constructor].
    exact (value_particle_free _ _ _ singlish_values_particle_free E).
  - constructor; [|constructor]. now apply particle_free_word.
Qed.

Lemma process_singlish_terms_particle_free text :
  particle_free (_process_singlish_terms text) = true.
Proof.
  unfold _process_singlish_terms. apply particle_free_tokens.
  pose proof (split_tokens text) as H.
  induction H as [|w ws [Hne Hw] _ IH]; cbn [flat_map]; [constructor|].
  apply Forall_app. split; [now apply singlish_word_particle_free|exact IH].
Qed.

Lemma sinhala_word_particle_free w :
  particle_free w = true -> particle_free (sinhala_word w) = true.
Proof.
  intros H. unfold sinhala_word.
  destruct (Py.dict_get sinhala_romanized w) as [gloss|] eqn:E; [|exact H].
  exact (value_particle_free _ _ _ sinhala_values_particle_free E).
Qed.

Lemma process_sinhala_terms_particle_free text :
  particle_free text = true -> particle_free (_process_sinhala_terms text) = true.
Proof.
  intros H. unfold _process_sinhala_terms. apply particle_free_tokens.
  unfold particle_free in H. rewrite forallb_forall in H.
  pose proof (split_tokens text) as Ht.
  rewrite Forall_forall in *. intros t Hin.
  apply in_map_iff in Hin as (w & <- & Hw).
  apply sinhala_word_particle_free.
  destruct (Ht w Hw) as [Hne Hns].
  apply particle_free_word; try assumption.
  apply negb_true_iff. now apply H.
Qed.

(** X7: whatever the text, no token of the output of the Singlish
    term pass is a discourse particle, and none is after the Sinhala
    pass that follows it: the glosses the two tables insert hold no
    particle either. *)
Theorem term_passes_leave_no_particle (text : string) :
  particle_free (_process_singlish_terms text) = true /\
  particle_free (_process_sinhala_terms (_process_singlish_terms text)) = true.
Proof.
  split; [apply process_singlish_terms_particle_free|].
  apply process_sinhala_terms_particle_free, process_singlish_terms_particle_free.
Qed.

(** **** Trimming *)

Lemma lstrip_fixed p s :
  match s with String c _ => p c = false | "" => True end ->
  Py.lstrip_by p s = s.
Proof. destruct s as [|c s]; cbn; [reflexivity|]. now intros ->. Qed.

Lemma lstrip_head p s :
  match Py.lstrip_by p s with String c _ => p c = false | "" => True end.
Proof.
  induction s as [|c s IH]; cbn; [exact I|].
  destruct (p c) eqn:E; [exact IH|exact E].
Qed.

Lemma rstrip_head p s :
  match s with String c _ => p c = false | "" => True end ->
  match Py.rstrip_by p s with String c _ => p c = false | "" => True end.
Proof.
  destruct s as [|c s]; cbn; [easy|]. intros E.
  destruct (Py.rstrip_by p s); [now rewrite E|exact E].
Qed.

Lemma rstrip_idem p s : Py.rstrip_by p (Py.rstrip_by p s) = Py.rstrip_by p s.
Proof.
  induction s as [|c s IH]; [reflexivity|]. cbn [Py.rstrip_by].
  destruct (Py.rstrip_by p s) as [|d r] eqn:E.
  - destruct (p c) eqn:Ec; [reflexivity|]. cbn. now rewrite Ec.
  - assert (R : forall t, Py.rstrip_by p (String c t)
                = match Py.rstrip_by p t with
                  | "" => if p c then "" else String c ""
                  | String e r' => String c (String e r')
                  end) by reflexivity.
    rewrite R, IH. reflexivity.
Qed.

Lemma strip_by_idem p s : Py.strip_by p (Py.strip_by p s) = Py.strip_by p s.
Proof.
  unfold Py.strip_by.
  rewrite (lstrip_fixed p (Py.rstrip_by p (Py.lstrip_by p s))).
  - apply rstrip_idem.
  - apply rstrip_head, lstrip_head.
Qed.

(** X5: the canonical text has no space at either end: trimming it
    again changes nothing. *)
Theorem process_output_is_trimmed (text : string) :
  exists canonical, process text = Ok canonical /\ Py.strip canonical = canonical.
Proof.
  exists (pipeline text). split; [apply PreprocessorFacts.process_pipeline|].
  unfold pipeline, Py.strip. apply strip_by_idem.
Qed.

(** **** What the punctuation cleanup leaves *)

Lemma keep_chars_all keep s : all_chars keep (Py.keep_chars keep s) = true.
Proof.
  induction s as [|c s IH]; cbn; [reflexivity|].
  destruct (keep c) eqn:E; [cbn; now rewrite E|exact IH].
Qed.

Lemma keep_chars_fixed keep s :
  all_chars keep s = true -> Py.keep_chars keep s = s.
Proof.
  induction s as [|c s IH]; cbn; [reflexivity|]. intros H.
  apply andb_true_iff in H as [-> H]. now rewrite IH.
Qed.

Lemma all_chars_sub_marks_from p s :
  p "?"%char = true -> all_chars p s = true ->
  forall b, all_chars p (sub_marks_from b s) = true.
Proof.
  intros Hq.
  induction s as [|c s IH]; intros H b; [reflexivity|].
  cbn [all_chars] in H. apply andb_true_iff in H as [Hc Hs].
  cbn [sub_marks_from].
  destruct (is_mark c).
  - destruct b; [now apply IH|].
    destruct s as [|c' s']; [cbn; now rewrite Hc|].
    destruct (is_mark c'); cbn [all_chars].
    + now rewrite Hq, (IH Hs true).
    + now rewrite Hc, (IH Hs false).
  - cbn [all_chars]. now rewrite Hc, (IH Hs false).
Qed.

(** Inside a run already replaced, the output resumes with a character
    that is no mark. *)
Lemma sub_marks_in_run_head s :
  match sub_marks_from true s with String c _ => is_mark c = false | "" => True end.
Proof.
  induction s as [|c s IH]; cbn [sub_marks_from]; [exact I|].
  destruct (is_mark c) eqn:E; [exact IH|exact E].
Qed.

Lemma marks_apart_cons c s :
  marks_apart (String c s)
  = match s with
    | String d _ => negb (is_mark c && is_mark d) && marks_apart s
    | "" => true
    end.
Proof. destruct s; reflexivity. Qed.

Lemma sub_marks_apart s : forall b, marks_apart (sub_marks_from b s) = true.
Proof.
  induction s as [|c s IH]; intros b; [reflexivity|].
  cbn [sub_marks_from].
  destruct (is_mark c) eqn:Ec.
  - destruct b; [apply IH|].
    destruct s as [|c' s']; [reflexivity|].
    destruct (is_mark c') eqn:Ec'.
    + rewrite marks_apart_cons. pose proof (sub_marks_in_run_head (String c' s')) as Hh.
      specialize (IH true).
      destruct (sub_marks_from true (String c' s')) as [|d r]; [reflexivity|].
      rewrite Hh, andb_false_r. exact IH.
    + rewrite marks_apart_cons. specialize (IH false).
      cbn [sub_marks_from] in *. rewrite Ec' in *.
      rewrite Ec', andb_false_r. exact IH.
  - rewrite marks_apart_cons. specialize (IH false).
    destruct (sub_marks_from false s) as [|d r]; [reflexivity|].
    rewrite Ec. exact IH.
Qed.

Lemma marks_apart_lstrip p s :
  marks_apart s = true -> marks_apart (Py.lstrip_by p s) = true.
Proof.
  induction s as [|c s IH]; cbn [Py.lstrip_by]; [easy|]. intros H.
  destruct (p c); [|exact H]. apply IH.
  rewrite marks_apart_cons in H. destruct s; [reflexivity|].
  now apply andb_true_iff in H as [_ H].
Qed.

Lemma marks_apart_rstrip p s :
  marks_apart s = true -> marks_apart (Py.rstrip_by p s) = true.
Proof.
  induction s as [|c s IH]; [easy|]. intros H.
  rewrite marks_apart_cons in H. cbn [Py.rstrip_by].
  destruct s as [|d s]; [cbn; now destruct (p c)|].
  apply andb_true_iff in H as [Hcd H]. specialize (IH H).
  assert (R : Py.rstrip_by p (String d s)
              = match Py.rstrip_by p s with
                | "" => if p d then "" else String d ""
                | String e r => String d (String e r)
                end) by reflexivity.
  destruct (Py.rstrip_by p (String d s)) as [|d' r] eqn:E.
  - now destruct (p c).
  - rewrite marks_apart_cons.
    assert (d' = d) as ->.
    { rewrite R in E. destruct (Py.rstrip_by p s); [destruct (p d)|]; congruence. }
    now rewrite Hcd, IH.
Qed.

Lemma clean_punctuation_kept text :
  all_chars kept (_clean_punctuation text) = true /\
  marks_apart (_clean_punctuation text) = true.
Proof.
  unfold _clean_punctuation. split; [|apply sub_marks_apart].
  apply all_chars_sub_marks_from; [reflexivity|].
  apply (keep_chars_all kept).
Qed.

(** X6: every character of the canonical text is one the cleanup
    pattern keeps (a word character, a space, [?] or [!]), and no
    question or exclamation mark stands next to another one. *)
Theorem process_output_is_clean (text : string) :
  exists canonical,
    process text = Ok canonical /\
    all_chars kept canonical = true /\ marks_apart canonical = true.
Proof.
  exists (pipeline text). split; [apply PreprocessorFacts.process_pipeline|].
  unfold pipeline, Py.strip, Py.strip_by.
  destruct (clean_punctuation_kept
              (_process_sinhala_terms
                 (_process_singlish_terms
                    (_expand_contractions (Py.sub_spaces (Py.rstrip_by Py.isspace
                       (Py.lstrip_by Py.isspace (Py.lower text)))))))) as [Hk Hm].
  split.
  - now apply all_chars_rstrip, all_chars_lstrip.
  - now apply marks_apart_rstrip, marks_apart_lstrip.
Qed.

(** **** Contractions *)

Lemma startswith_needs_char x old : forall s,
  Py.mem_char x old = true -> all_chars (fun c => negb (Ascii.eqb c x)) s = true ->
  Py.startswith old s = false.
Proof.
  induction old as [|d old IH]; intros s Hx Hs; [discriminate|].
  destruct s as [|c s]; [reflexivity|].
  cbn [Py.startswith]. cbn [all_chars] in Hs. apply andb_true_iff in Hs as [Hc Hs].
  cbn [Py.mem_char] in Hx. apply orb_true_iff in Hx as [Hx|Hx].
  - apply Ascii.eqb_eq in Hx as <-. apply negb_true_iff in Hc.
    rewrite Ascii.eqb_sym, Hc. reflexivity.
  - rewrite (IH s Hx Hs). apply andb_false_r.
Qed.

Lemma replace_absent x old new s :
  Py.mem_char x old = true -> all_chars (fun c => negb (Ascii.eqb c x)) s = true ->
  Py.replace old new s = s.
Proof.
  intros Hx Hs. unfold Py.replace. destruct old as [|d old]; [reflexivity|].
  induction s as [|c s IH]; [reflexivity|].
  cbn [Py.replace_from]. rewrite (startswith_needs_char x _ _ Hx Hs).
  cbn [all_chars] in Hs. apply andb_true_iff in Hs as [_ Hs]. now rewrite IH.
Qed.

Lemma contractions_have_apostrophe :
  forallb (fun kv => Py.mem_char "'" (fst kv)) contraction_mapping = true.
Proof. vm_compute. reflexivity. Qed.

Lemma expand_contractions_needs_apostrophe_aux (text : string) :
  all_chars not_apostrophe text = true -> _expand_contractions text = text.
Proof.
  intros H. unfold _expand_contractions.
  pose proof contractions_have_apostrophe as Hd. revert Hd.
  induction contraction_mapping as [|[k v] d IH]; cbn [fold_left forallb fst snd];
    [reflexivity|].
  intros Hd. apply andb_true_iff in Hd as [Hk Hd].
  rewrite (replace_absent "'" k v text Hk H). now apply IH.
Qed.

(** X8: a text without an apostrophe passes the expansion of
    contractions unchanged. *)
Theorem expand_contractions_needs_apostrophe (text : string) :
  all_chars not_apostrophe text = true -> _expand_contractions text = text.
Proof. apply expand_contractions_needs_apostrophe_aux. Qed.

Lemma expand_contractions_needs_apostrophe_witness :
  all_chars not_apostrophe "wah so shiok" = true /\
  _expand_contractions "wah so shiok" = "wah so shiok".
Proof.
  split; [reflexivity|].
  apply (expand_contractions_needs_apostrophe "wah so shiok"). reflexivity.
Defined.

(** **** Text without punctuation *)

Lemma all_chars_impl (p q : ascii -> bool) s :
  (forall c, p c = true -> q c = true) -> all_chars p s = true -> all_chars q s = true.
Proof.
  intros Hpq. induction s as [|c s IH]; cbn; [reflexivity|]. intros H.
  apply andb_true_iff in H as [Hc Hs]. now rewrite (Hpq c Hc), IH.
Qed.

Lemma plain_lower_char c : plain (Py.lower_char c) = plain c.
Proof.
  destruct c as [b0 b1 b2 b3 b4 b5 b6 b7].
  destruct b0, b1, b2, b3, b4, b5, b6, b7; reflexivity.
Qed.

Lemma plain_lower s : all_chars plain (Py.lower s) = all_chars plain s.
Proof.
  induction s as [|c s IH]; cbn; [reflexivity|]. now rewrite plain_lower_char, IH.
Qed.

Lemma plain_not_apostrophe c : plain c = true -> not_apostrophe c = true.
Proof.
  destruct c as [b0 b1 b2 b3 b4 b5 b6 b7].
  destruct b0, b1, b2, b3, b4, b5, b6, b7; vm_compute; congruence.
Qed.

Lemma plain_not_mark c : plain c = true -> is_mark c = false.
Proof.
  destruct c as [b0 b1 b2 b3 b4 b5 b6 b7].
  destruct b0, b1, b2, b3, b4, b5, b6, b7; vm_compute; congruence.
Qed.

Lemma plain_kept c : plain c = true -> kept c = true.
Proof. unfold plain, kept. intros ->. reflexivity. Qed.

Lemma sub_marks_fixed s :
  all_chars plain s = true -> forall b, sub_marks_from b s = s.
Proof.
  induction s as [|c s IH]; intros H b; [reflexivity|].
  cbn [all_chars] in H. apply andb_true_iff in H as [Hc Hs].
  cbn [sub_marks_from]. rewrite (plain_not_mark c Hc). now rewrite IH.
Qed.

Lemma clean_punctuation_plain s :
  all_chars plain s = true -> _clean_punctuation s = s.
Proof.
  intros H. unfold _clean_punctuation.
  rewrite keep_chars_fixed by (revert H; apply all_chars_impl, plain_kept).
  now apply sub_marks_fixed.
Qed.

Lemma split_from_lstrip s :
  Py.split_from "" (Py.lstrip_by Py.isspace s) = Py.split_from "" s.
Proof.
  induction s as [|c s IH]; [reflexivity|]. cbn [Py.lstrip_by Py.split_from].
  destruct (Py.isspace c) eqn:E; [exact IH|]. cbn [Py.split_from]. now rewrite E.
Qed.

Lemma split_from_rstrip s : forall cur,
  Py.split_from cur (Py.rstrip_by Py.isspace s) = Py.split_from cur s.
Proof.
  induction s as [|c s IH]; intros cur; [reflexivity|].
  cbn [Py.rstrip_by].
  destruct (Py.rstrip_by Py.isspace s) as [|d r] eqn:E.
  - destruct (Py.isspace c) eqn:Ec; cbn [Py.split_from]; rewrite Ec.
    + rewrite <- (IH ""). now destruct cur.
    + rewrite <- IH. reflexivity.
  - cbn [Py.split_from]. destruct (Py.isspace c).
    + rewrite <- (IH ""). reflexivity.
    + rewrite <- IH. reflexivity.
Qed.

Lemma split_strip s : Py.split (Py.strip s) = Py.split s.
Proof.
  unfold Py.split, Py.strip, Py.strip_by.
  now rewrite split_from_rstrip, split_from_lstrip.
Qed.

Lemma singlish_values_plain : values_ok plain singlish_mappings = true.
Proof. vm_compute. reflexivity. Qed.

Lemma sinhala_values_plain : values_ok plain sinhala_romanized = true.
Proof. vm_compute. reflexivity. Qed.

Lemma process_singlish_terms_plain text :
  all_chars plain text = true -> all_chars plain (_process_singlish_terms text) = true.
Proof.
  intros H. unfold _process_singlish_terms.
  apply all_chars_join; [reflexivity|].
  apply (all_chars_split plain) in H.
  induction H as [|w ws Hw Hws IH]; cbn [flat_map]; [constructor|].
  apply Forall_app. split; [|exact IH].
  unfold singlish_word. destruct (Py.mem w particles); [constructor|].
  destruct (Py.dict_get singlish_mappings w) as [mapped|] eqn:E.
  - destruct mapped as [|c m]; [constructor|]. constructor; [|constructor].
    exact (PreprocessorFacts.values_ok_get plain _ _ _ singlish_values_plain E).
  - now constructor.
Qed.

Lemma process_sinhala_terms_plain text :
  all_chars plain text = true -> all_chars plain (_process_sinhala_terms text) = true.
Proof.
  intros H. unfold _process_sinhala_terms.
  apply all_chars_join; [reflexivity|].
  apply (all_chars_split plain) in H.
  induction H as [|w ws Hw Hws IH]; cbn [map]; constructor; [|exact IH].
  unfold sinhala_word. destruct (Py.dict_get sinhala_romanized w) as [gloss|] eqn:E;
    [|exact Hw].
  exact (PreprocessorFacts.values_ok_get plain _ _ _ sinhala_values_plain E).
Qed.

(** X9: an ASCII text without punctuation (letters, digits,
    underscores and spaces only) loses every discourse particle: no
    token of its canonical text is one of them. *)
Theorem plain_text_loses_every_particle (text : string) :
  all_chars plain text = true ->
  exists canonical, process text = Ok canonical /\ particle_free canonical = true.
Proof.
  intros H. exists (pipeline text).
  split; [apply PreprocessorFacts.process_pipeline|].
  unfold pipeline.
  set (t0 := Py.sub_spaces (Py.strip (Py.lower text))).
  assert (H0 : all_chars plain t0 = true).
  { apply all_chars_sub_spaces_from; [reflexivity|].
    apply all_chars_strip_by. now rewrite plain_lower. }
  rewrite (expand_contractions_needs_apostrophe_aux t0)
    by (revert H0; apply all_chars_impl, plain_not_apostrophe).
  rewrite clean_punctuation_plain
    by now apply process_sinhala_terms_plain, process_singlish_terms_plain.
  unfold particle_free. rewrite split_strip.
  apply process_sinhala_terms_particle_free, process_singlish_terms_particle_free.
Qed.

Lemma plain_text_loses_every_particle_witness :
  all_chars plain "Wah lah so shiok lor" = true /\
  exists canonical,
    process "Wah lah so shiok lor" = Ok canonical /\ particle_free canonical = true.
Proof.
  split; [vm_compute; reflexivity|].
  apply (plain_text_loses_every_particle "Wah lah so shiok lor").
  vm_compute. reflexivity.
Defined.

(** **** Blank text *)

Lemma isspace_lower_char c : Py.isspace c = true -> Py.lower_char c = c.
Proof.
  destruct c as [b0 b1 b2 b3 b4 b5 b6 b7].
  destruct b0, b1, b2, b3, b4, b5, b6, b7; vm_compute; congruence.
Qed.

Lemma lower_blank s : all_chars Py.isspace s = true -> Py.lower s = s.
Proof.
  induction s as [|c s IH]; cbn; [reflexivity|]. intros H.
  apply andb_true_iff in H as [Hc Hs]. now rewrite (isspace_lower_char c Hc), IH.
Qed.

Lemma lstrip_blank s : all_chars Py.isspace s = true -> Py.lstrip_by Py.isspace s = "".
Proof.
  induction s as [|c s IH]; cbn; [reflexivity|]. intros H.
  apply andb_true_iff in H as [-> Hs]. now apply IH.
Qed.

Lemma strip_blank s : all_chars Py.isspace s = true -> Py.strip s = "".
Proof. intros H. unfold Py.strip, Py.strip_by. now rewrite lstrip_blank. Qed.

Lemma split_from_blank s :
  all_chars Py.isspace s = true -> Py.split_from "" s = [].
Proof.
  induction s as [|c s IH]; cbn; [reflexivity|]. intros H.
  apply andb_true_iff in H as [-> Hs]. now apply IH.
Qed.

Lemma split_lower_blank s :
  all_chars Py.isspace s = true -> Py.split (Py.lower s) = [].
Proof.
  intros H. rewrite (lower_blank s H). now apply split_from_blank.
Qed.

(** X4: a text of spaces only (the empty text included) has the
    empty canonical text, no word, intensity 0 and English as its only
    language. *)
Theorem blank_text_normalizes_to_nothing (py : interpreter) (text : string) :
  interpreter_ok py -> all_chars Py.isspace text = true ->
  fst (normalize py text) = Ok "" /\
  word_count (snd (normalize py text)) = 0 /\
  singlish_intensity (snd (normalize py text)) = 0%Q /\
  language_mix (snd (normalize py text)) = ["english"].
Proof.
  intros Hpy H. cbn [normalize fst snd extract_features word_count
                     singlish_intensity language_mix].
  repeat split.
  - rewrite PreprocessorFacts.process_pipeline. unfold pipeline.
    rewrite (lower_blank text H), (strip_blank text H). reflexivity.
  - unfold Py.split. now rewrite split_from_blank.
  - unfold _calculate_singlish_intensity. now rewrite split_lower_blank.
  - unfold _detect_language_mix, language_set. rewrite split_lower_blank by assumption.
    cbn [fold_left]. apply Permutation_length_1_inv, Permutation_sym, Hpy.
Qed.

Lemma blank_text_normalizes_to_nothing_witness :
  interpreter_ok reverse_order /\ all_chars Py.isspace "   " = true /\
  fst (normalize reverse_order "   ") = Ok "" /\
  word_count (snd (normalize reverse_order "   ")) = 0 /\
  singlish_intensity (snd (normalize reverse_order "   ")) = 0%Q /\
  language_mix (snd (normalize reverse_order "   ")) = ["english"].
Proof.
  split; [exact reverse_order_ok|]. split; [reflexivity|].
  apply (blank_text_normalizes_to_nothing reverse_order "   " reverse_order_ok).
  reflexivity.
Defined.

(** **** The features *)

Lemma count_fraction (n m : nat) :
  n <= m -> 0 < m ->
  unit_interval (inject_Z (Z.of_nat n) / inject_Z (Z.of_nat m))%Q.
Proof.
  intros Hn Hm. unfold unit_interval.
  assert (Hpos : (0 < inject_Z (Z.of_nat m))%Q) by (unfold Qlt; cbn; lia).
  split.
  - apply Qle_shift_div_l; [exact Hpos|]. rewrite Qmult_0_l. unfold Qle. cbn. lia.
  - apply Qle_shift_div_r; [exact Hpos|]. rewrite Qmult_1_l. unfold Qle. cbn. lia.
Qed.

(** X1: the Singlish intensity of every text is a fraction between 0
    and 1. *)
Theorem singlish_intensity_is_a_fraction (text : string) :
  unit_interval (_calculate_singlish_intensity text).
Proof.
  unfold _calculate_singlish_intensity.
  destruct (Py.split (Py.lower text)) as [|w ws] eqn:E; [split; discriminate|].
  apply count_fraction; [apply filter_length_le|cbn; lia].
Qed.

Lemma set_add_NoDup x s : NoDup s -> NoDup (set_add x s).
Proof.
  intros H. unfold set_add. destruct (Py.mem x s) eqn:E; [exact H|].
  apply NoDup_app; [exact H|repeat constructor; easy|].
  intros y Hy [<-|[]]. apply TrainingFacts.mem_In in Hy. congruence.
Qed.

(** The languages collected from the words [ws], starting from [acc],
    for any two membership tests. *)
Lemma language_fold_In (f g : string -> bool) l ws : forall acc,
  In l (fold_left
          (fun languages word =>
             let languages :=
               if f word then set_add "sinhala" languages else languages in
             if g word then set_add "singlish" languages else languages) ws acc)
  <-> In l acc
      \/ (l = "sinhala" /\ existsb f ws = true)
      \/ (l = "singlish" /\ existsb g ws = true).
Proof.
  induction ws as [|w ws IH]; intros acc; cbn [fold_left existsb].
  - split; [now left|]. intros [H|[[_ H]|[_ H]]]; [exact H|discriminate|discriminate].
  - rewrite IH. cbv zeta.
    destruct (f w), (g w); cbn [orb]; rewrite ?TrainingFacts.set_add_In; intuition.
Qed.

Lemma language_fold_NoDup (f g : string -> bool) ws : forall acc,
  NoDup acc ->
  NoDup (fold_left
          (fun languages word =>
             let languages :=
               if f word then set_add "sinhala" languages else languages in
             if g word then set_add "singlish" languages else languages) ws acc).
Proof.
  induction ws as [|w ws IH]; intros acc H; cbn [fold_left]; [exact H|].
  apply IH. cbv zeta.
  destruct (f w), (g w); auto using set_add_NoDup.
Qed.

Lemma language_set_In l text :
  In l (language_set text)
  <-> l = "english"
      \/ (l = "sinhala"
          /\ existsb (Py.dict_mem sinhala_romanized) (Py.split (Py.lower text)) = true)
      \/ (l = "singlish"
          /\ existsb (Py.dict_mem singlish_mappings) (Py.split (Py.lower text)) = true).
Proof.
  unfold language_set.
  rewrite (language_fold_In (Py.dict_mem sinhala_romanized) (Py.dict_mem singlish_mappings)).
  change (set_of_list ["english"]) with ["english"].
  cbn [In]. split.
  - intros [[H|[]]|H]; [left; symmetry; exact H|right; exact H].
  - intros [H|H]; [left; left; symmetry; exact H|right; exact H].
Qed.

Lemma language_set_NoDup text : NoDup (language_set text).
Proof.
  unfold language_set.
  apply (language_fold_NoDup (Py.dict_mem sinhala_romanized) (Py.dict_mem singlish_mappings)).
  change (set_of_list ["english"]) with ["english"].
  repeat constructor; easy.
Qed.

Lemma language_mix_members (py : interpreter) (text : string) :
  interpreter_ok py ->
  In "english" (_detect_language_mix py text) /\
  NoDup (_detect_language_mix py text) /\
  incl (_detect_language_mix py text) ["english"; "sinhala"; "singlish"].
Proof.
  intros Hpy. unfold _detect_language_mix.
  pose proof (Hpy (language_set text)) as Hperm.
  split; [|split].
  - apply (Permutation_in _ (Permutation_sym Hperm)), language_set_In. now left.
  - apply (Permutation_NoDup (Permutation_sym Hperm)), language_set_NoDup.
  - intros l Hl. apply (Permutation_in _ Hperm), language_set_In in Hl.
    cbn [In]. destruct Hl as [->|[[-> _]|[-> _]]]; auto.
Qed.

(** X2: the language mix of every text names English, names no
    language twice, and names none besides English, Sinhala and
    Singlish, so it has one to three entries. *)
Theorem language_mix_names_each_language_once (py : interpreter) (text : string) :
  interpreter_ok py ->
  In "english" (_detect_language_mix py text) /\
  NoDup (_detect_language_mix py text) /\
  incl (_detect_language_mix py text) ["english"; "sinhala"; "singlish"] /\
  1 <= List.length (_detect_language_mix py text) <= 3.
Proof.
  intros Hpy. destruct (language_mix_members py text Hpy) as (Hen & Hnd & Hincl).
  repeat split; try assumption.
  - destruct (_detect_language_mix py text); [easy|cbn; lia].
  - apply (NoDup_incl_length Hnd Hincl).
Qed.

Lemma language_mix_names_each_language_once_witness :
  interpreter_ok reverse_order /\
  In "english" (_detect_language_mix reverse_order "mama can") /\
  NoDup (_detect_language_mix reverse_order "mama can") /\
  incl (_detect_language_mix reverse_order "mama can") ["english"; "sinhala"; "singlish"] /\
  1 <= List.length (_detect_language_mix reverse_order "mama can") <= 3.
Proof.
  split; [exact reverse_order_ok|].
  exact (language_mix_names_each_language_once reverse_order "mama can" reverse_order_ok).
Defined.

Lemma fraction_positive (n m : nat) :
  0 < m -> ((0 < inject_Z (Z.of_nat n) / inject_Z (Z.of_nat m))%Q <-> 0 < n).
Proof.
  intros Hm.
  assert (Hpos : (0 < inject_Z (Z.of_nat m))%Q) by (unfold Qlt; cbn; lia).
  split.
  - intros H. destruct n; [|lia]. exfalso.
    unfold Qdiv in H. rewrite Qmult_0_l in H. revert H. apply Qlt_irrefl.
  - intros Hn. apply Qlt_shift_div_l; [exact Hpos|]. rewrite Qmult_0_l.
    unfold Qlt. cbn. lia.
Qed.

Lemma filter_orb_positive {A : Type} (f g : A -> bool) ws :
  0 < List.length (filter (fun w => f w || g w) ws)
  <-> existsb g ws = true \/ existsb f ws = true.
Proof.
  induction ws as [|w ws IH]; cbn [filter existsb List.length].
  - split; [lia|]. intros [H|H]; discriminate.
  - destruct (f w), (g w); cbn [orb List.length]; try (split; [auto|lia]).
    rewrite IH. reflexivity.
Qed.

(** X3: the intensity and the language mix agree: the intensity of a
    text is above 0 exactly when its mix names a language besides
    English. *)
Theorem intensity_is_positive_when_mixed (py : interpreter) (text : string) :
  interpreter_ok py ->
  (0 < _calculate_singlish_intensity text)%Q
  <-> 1 < List.length (_detect_language_mix py text).
Proof.
  intros Hpy.
  destruct (language_mix_members py text Hpy) as (Hen & Hnd & Hincl).
  unfold _detect_language_mix in *.
  pose proof (Hpy (language_set text)) as Hperm.
  set (mix := set_iter py (language_set text)) in *.
  assert (Hother : 1 < List.length mix <-> exists l, In l mix /\ l <> "english").
  { split.
    - intros Hlen. destruct mix as [|a [|b mix']]; cbn in Hlen; try lia.
      destruct (string_dec a "english") as [->|Ha].
      + exists b. split; [right; now left|]. intros ->.
        apply NoDup_cons_iff in Hnd as [Hnd _]. apply Hnd. now left.
      + exists a. split; [now left|exact Ha].
    - intros (l & Hl & Hne).
      destruct mix as [|a [|b mix']]; [easy| |cbn; lia].
      destruct Hen as [Ha|[]]. destruct Hl as [Hl|[]]. congruence. }
  rewrite Hother.
  assert (Hwords : (exists l, In l mix /\ l <> "english")
                   <-> existsb (Py.dict_mem sinhala_romanized) (Py.split (Py.lower text)) = true
                       \/ existsb (Py.dict_mem singlish_mappings) (Py.split (Py.lower text)) = true).
  { split.
    - intros (l & Hl & Hne).
      apply (Permutation_in _ Hperm), language_set_In in Hl.
      destruct Hl as [->|[[_ H]|[_ H]]]; [easy|left; exact H|right; exact H].
    - intros [H|H].
      + exists "sinhala". split; [|discriminate].
        apply (Permutation_in _ (Permutation_sym Hperm)), language_set_In. auto.
      + exists "singlish". split; [|discriminate].
        apply (Permutation_in _ (Permutation_sym Hperm)), language_set_In. auto. }
  rewrite Hwords. unfold _calculate_singlish_intensity.
  destruct (Py.split (Py.lower text)) as [|w ws] eqn:E.
  - cbn [existsb]. split; [intros H; now apply Qlt_irrefl in H|intros [H|H]; discriminate].
  - rewrite fraction_positive by (cbn; lia). apply filter_orb_positive.
Qed.

Lemma intensity_is_positive_when_mixed_witness :
  interpreter_ok reverse_order /\
  ((0 < _calculate_singlish_intensity "mama can")%Q
   <-> 1 < List.length (_detect_language_mix reverse_order "mama can")).
Proof.
  split; [exact reverse_order_ok|].
  exact (intensity_is_positive_when_mixed reverse_order "mama can" reverse_order_ok).
Defined.

(** **** Two runs *)

Lemma language_mix_lists (py : interpreter) (text : string) :
  interpreter_ok py -> lists_languages text (language_mix (snd (normalize py text))).
Proof.
  intros Hpy. unfold normalize. cbn [snd]. unfold extract_features. cbn [language_mix].
  unfold _detect_language_mix.
  pose proof (Hpy (language_set text)) as Hperm. split.
  - apply (Permutation_NoDup (Permutation_sym Hperm)), language_set_NoDup.
  - intros l. unfold shown. rewrite <- language_set_In. split.
    + apply Permutation_in. exact Hperm.
    + apply Permutation_in. apply Permutation_sym. exact Hperm.
Qed.

(** C9, as the code has it: two runs both return, with the same
    canonical text and the same features but for the order of
    [language_mix].  In each run that list names, each once, the
    languages the text shows (English, Sinhala when a word is in the
    romanized-Sinhala table, Singlish when one is in the Singlish
    table), in the order in which the interpreter of the run iterates a
    set; two runs that iterate it alike return identical results. *)
Theorem normalize_differs_in_language_order_only
  (py1 py2 : interpreter) (text : string) :
  interpreter_ok py1 -> interpreter_ok py2 ->
  (exists canonical,
     fst (normalize py1 text) = Ok canonical /\ fst (normalize py2 text) = Ok canonical) /\
  same_features (snd (normalize py1 text)) (snd (normalize py2 text)) /\
  lists_languages text (language_mix (snd (normalize py1 text))) /\
  lists_languages text (language_mix (snd (normalize py2 text))) /\
  (set_iter py1 (language_set text) = set_iter py2 (language_set text) ->
   normalize py1 text = normalize py2 text).
Proof.
  intros H1 H2.
  split; [exists (pipeline text); split; apply PreprocessorFacts.process_pipeline|].
  split; [|split; [now apply language_mix_lists|split; [now apply language_mix_lists|]]].
  - unfold normalize. cbn [snd]. unfold same_features, extract_features.
    cbn [SinglishPreprocessor.length word_count has_question has_exclamation
         has_singlish_particles has_sinhala_terms has_english_contractions
         singlish_intensity language_mix].
    repeat (split; [reflexivity|]).
    unfold _detect_language_mix.
    rewrite (H1 (language_set text)). symmetry. apply H2.
  - intros E. unfold normalize, extract_features, _detect_language_mix.
    now rewrite E.
Qed.

(** C9 at work: ["mama can"] under the two set orders. *)
Lemma normalize_differs_in_language_order_only_witness :
  interpreter_ok insertion_order /\ interpreter_ok reverse_order /\
  (exists canonical,
     fst (normalize insertion_order "mama can") = Ok canonical /\
     fst (normalize reverse_order "mama can") = Ok canonical) /\
  same_features (snd (normalize insertion_order "mama can"))
                (snd (normalize reverse_order "mama can")) /\
  lists_languages "mama can" (language_mix (snd (normalize insertion_order "mama can"))) /\
  lists_languages "mama can" (language_mix (snd (normalize reverse_order "mama can"))) /\
  (set_iter insertion_order (language_set "mama can")
   = set_iter reverse_order (language_set "mama can") ->
   normalize insertion_order "mama can" = normalize reverse_order "mama can").
Proof.
  split; [exact insertion_order_ok|]. split; [exact reverse_order_ok|].
  exact (normalize_differs_in_language_order_only
           insertion_order reverse_order "mama can"
           insertion_order_ok reverse_order_ok).
Defined.

End NormalizerFacts.

Module LanguageFacts.
Import SinglishClassifier.

Lemma gt_false a b : gt a b = false -> (a <= b)%Q.
Proof.
  unfold gt. destruct (a ?= b)%Q eqn:E; try discriminate; intros _.
  - apply Qeq_alt in E. rewrite E. apply Qle_refl.
  - apply Qlt_le_weak. now apply Qlt_alt.
Qed.

Lemma py_min_le_l a b : (py_min a b <= a)%Q.
Proof.
  unfold py_min. destruct (b ?= a)%Q eqn:E; try apply Qle_refl.
  apply Qlt_le_weak. now apply Qlt_alt.
Qed.

Lemma py_min_glb x a b : (x <= a)%Q -> (x <= b)%Q -> (x <= py_min a b)%Q.
Proof. intros Ha Hb. unfold py_min. now destruct (b ?= a)%Q. Qed.

Lemma marker_sum_tenths text :
  (marker_sum text == inject_Z (Z.of_nat (tenths text)) / 10)%Q.
Proof.
  unfold marker_sum, tenths.
  rewrite !Nat2Z.inj_add, !Nat2Z.inj_mul, !inject_Z_plus, !inject_Z_mult.
  cbn [Z.of_nat Pos.of_succ_nat Pos.succ]. field.
Qed.

Lemma score_tenths text :
  (_calculate_singlish_score text
   == py_min (inject_Z (Z.of_nat (tenths text)) / 10) 1)%Q.
Proof.
  rewrite ClassifierFacts.calculate_singlish_score_sum.
  apply ClassifierFacts.py_min_compat, marker_sum_tenths.
Qed.

Lemma tenths_le (k : nat) (n : Z) :
  (inject_Z n <= inject_Z (Z.of_nat k))%Q <-> (n <= Z.of_nat k)%Z.
Proof. unfold Qle. cbn. lia. Qed.

Lemma score_bounds text :
  (0 <= _calculate_singlish_score text <= 1)%Q.
Proof.
  split.
  - rewrite score_tenths. apply py_min_glb; [|discriminate].
    apply Qle_shift_div_l; [reflexivity|]. rewrite Qmult_0_l.
    unfold Qle. cbn. lia.
  - rewrite <- ClassifierFacts.calculate_singlish_score_clamped.
    apply IntentFacts.py_min_le_r.
Qed.

(** A score above 0.3 is at least 0.4. *)
Lemma score_above_threshold text :
  gt (_calculate_singlish_score text) (3 # 10) = true ->
  (4 # 10 <= _calculate_singlish_score text)%Q.
Proof.
  intros H. apply IntentFacts.gt_true in H.
  rewrite score_tenths in *.
  assert (Hk : (3 # 10 < inject_Z (Z.of_nat (tenths text)) / 10)%Q).
  { eapply Qlt_le_trans; [exact H|apply py_min_le_l]. }
  apply py_min_glb; [|discriminate].
  apply Qle_shift_div_l; [reflexivity|].
  apply Qlt_shift_div_r in Hk; [|reflexivity].
  unfold Qle, Qlt in *. cbn in *. lia.
Qed.

(** X10: every text is labelled [singlish], [sinhala_romanized] or
    [english], with a confidence between 0.4 and 1. *)
Theorem classify_is_never_unsure (text : string) :
  let r := classify text in
  In (classification r) ["singlish"; "sinhala_romanized"; "english"] /\
  (4 # 10 <= confidence r <= 1)%Q.
Proof.
  cbv zeta. unfold classify. cbn [classification confidence].
  set (score := _calculate_singlish_score (Py.lower text)).
  pose proof (score_bounds (Py.lower text)) as [H0 H1]. fold score in H0, H1.
  destruct (gt score (3 # 10)) eqn:E; cbn [fst snd].
  - split; [now left|].
    unfold score. rewrite ClassifierFacts.calculate_singlish_score_clamped.
    split; [now apply score_above_threshold|exact H1].
  - apply gt_false in E.
    destruct (_contains_sinhala (Py.lower text)); cbn [fst snd].
    + split; [right; now left|]. split; discriminate.
    + split; [right; right; now left|].
      split.
      * apply Qle_trans with (1 - (3 # 10))%Q; [discriminate|].
        apply Qplus_le_r, Qopp_le_compat, E.
      * rewrite <- (Qplus_0_r 1) at 2. apply Qplus_le_r.
        apply (Qopp_le_compat 0 score), H0.
Qed.

(** **** Which texts are romanized Sinhala *)

Lemma startswith_prefix a b s :
  Py.startswith (a ++ b) s = true -> Py.startswith a s = true.
Proof.
  revert s. induction a as [|c a IH]; intros s; [reflexivity|].
  destruct s as [|d s]; cbn; [discriminate|].
  intros H. apply andb_true_iff in H as [-> H]. now apply IH.
Qed.

Lemma contains_prefix a b s :
  Py.contains (a ++ b) s = true -> Py.contains a s = true.
Proof.
  induction s as [|d s IH]; cbn [Py.contains]; intros H;
    apply orb_true_iff in H as [H|H].
  - now rewrite (startswith_prefix a b "" H).
  - discriminate.
  - now rewrite (startswith_prefix a b _ H).
  - rewrite (IH H). apply orb_true_r.
Qed.

Lemma present_In m ms text :
  In m ms -> Py.contains m text = true -> 1 <= present ms text.
Proof.
  intros Hin Hc. unfold present.
  induction ms as [|m' ms IH]; [easy|]. cbn [filter].
  destruct Hin as [->|Hin].
  - rewrite Hc. cbn. lia.
  - destruct (Py.contains m' text); cbn [List.length]; [|now apply IH].
    specialize (IH Hin). lia.
Qed.

(** A Sinhala word of the marker table lifts the score over the
    threshold. *)
Lemma sinhala_word_scores m text :
  In m (sinhala_words singlish_markers) -> Py.contains m text = true ->
  gt (_calculate_singlish_score text) (3 # 10) = true.
Proof.
  intros Hin Hc.
  assert (Hk : 4 <= tenths text).
  { unfold tenths. pose proof (present_In _ _ _ Hin Hc). lia. }
  destruct (gt (_calculate_singlish_score text) (3 # 10)) eqn:E; [reflexivity|].
  apply gt_false in E. rewrite score_tenths in E. exfalso.
  assert (H4 : (4 # 10 <= py_min (inject_Z (Z.of_nat (tenths text)) / 10) 1)%Q).
  { apply py_min_glb; [|discriminate].
    apply Qle_shift_div_l; [reflexivity|].
    revert Hk. generalize (tenths text). intros k Hk. unfold Qle. cbn. lia. }
  pose proof (Qle_trans _ _ _ H4 E) as H. apply H. reflexivity.
Qed.

(** X11: a text is labelled [sinhala_romanized] only when it holds
    [mage]: each of the other indicators ([kohomada], [oyage], [mama],
    [oya]) holds a Sinhala word of the marker table, which makes the
    text [singlish]. *)
Theorem sinhala_romanized_means_mage (text : string) :
  classification (classify text) = "sinhala_romanized" ->
  Py.contains "mage" (Py.lower text) = true /\
  confidence (classify text) = (8 # 10)%Q.
Proof.
  unfold classify. cbn [classification confidence].
  set (t := Py.lower text).
  destruct (gt (_calculate_singlish_score t) (3 # 10)) eqn:E; cbn [fst snd];
    [discriminate|].
  destruct (_contains_sinhala t) eqn:Es; cbn [fst snd]; [|discriminate].
  intros _. split; [|reflexivity].
  unfold _contains_sinhala, Py.any_in, sinhala_indicators in Es.
  cbn [existsb] in Es.
  assert (Hno : forall m, In m (sinhala_words singlish_markers) ->
                          Py.contains m t = false).
  { intros m Hm. destruct (Py.contains m t) eqn:Ec; [|reflexivity].
    rewrite (sinhala_word_scores m t Hm Ec) in E. discriminate. }
  assert (Hoya : Py.contains "oya" t = false) by (apply Hno; cbn; auto).
  assert (Hoyage : Py.contains "oyage" t = false).
  { destruct (Py.contains "oyage" t) eqn:Ec; [|reflexivity].
    apply (contains_prefix "oya" "ge") in Ec. congruence. }
  rewrite (Hno "kohomada"), (Hno "mama"), Hoya, Hoyage in Es by (cbn; auto).
  cbn [orb] in Es. now rewrite orb_false_r in Es.
Qed.

Lemma sinhala_romanized_means_mage_witness :
  classification (classify "Mage pota") = "sinhala_romanized" /\
  Py.contains "mage" (Py.lower "Mage pota") = true /\
  confidence (classify "Mage pota") = (8 # 10)%Q.
Proof.
  split; [vm_compute; reflexivity|].
  apply (sinhala_romanized_means_mage "Mage pota"). vm_compute. reflexivity.
Defined.

(** **** Blank text *)

Lemma any_in_blank ms text :
  forallb starts_with_letter ms = true -> all_chars Py.isspace text = true ->
  Py.any_in ms text = false.
Proof.
  intros Hms Hs. unfold Py.any_in.
  induction ms as [|m ms IH]; [reflexivity|]. cbn [existsb forallb] in *.
  apply andb_true_iff in Hms as [Hm Hms]. rewrite (IH Hms), orb_false_r.
  destruct (Py.contains m text) eqn:E; [|reflexivity].
  destruct m as [|c m]; [discriminate|].
  apply ClassifierFacts.contains_in_spaces in E; [|assumption].
  cbn in Hm. now rewrite E in Hm.
Qed.

(** X12: a text of spaces only (the empty text included) is English
    with confidence 1 and score 0. *)
Theorem blank_text_is_english (text : string) :
  all_chars Py.isspace text = true ->
  classification (classify text) = "english" /\
  confidence (classify text) = 1%Q /\
  singlish_score (classify text) = 0%Q.
Proof.
  intros H. unfold classify. cbn [classification confidence singlish_score].
  rewrite (NormalizerFacts.lower_blank text H).
  assert (Hs : _calculate_singlish_score text = 0%Q).
  { unfold _calculate_singlish_score, Py.split.
    now rewrite (NormalizerFacts.split_from_blank text H). }
  rewrite Hs. cbn [gt Qcompare].
  unfold _contains_sinhala. rewrite (any_in_blank sinhala_indicators text) by easy.
  now repeat split.
Qed.

Lemma blank_text_is_english_witness :
  all_chars Py.isspace "  " = true /\
  classification (classify "  ") = "english" /\
  confidence (classify "  ") = 1%Q /\
  singlish_score (classify "  ") = 0%Q.
Proof.
  split; [reflexivity|]. apply (blank_text_is_english "  "). reflexivity.
Defined.

End LanguageFacts.

Module EngineFacts.
Import IntentDetector.

(** **** The rule-based scan keeps the best phrase *)

Section Best.

Variable ratio : string -> string -> Z.

Lemma scan_phrase_scanned known text i st phrase :
  In i known -> scanned known st -> scanned known (scan_phrase ratio text i st phrase).
Proof.
  intros Hi H. unfold scan_phrase.
  destruct (gt _ (best_score st)); [exact Hi|].
  now destruct (gt _ (5 # 10)).
Qed.

Lemma scan_intent_scanned known text i st :
  In i known -> scanned known st -> scanned known (scan_intent ratio text st i).
Proof.
  intros Hi. unfold scan_intent. revert st.
  induction (phrases i) as [|p ps IH]; cbn [fold_left]; intros st H; [exact H|].
  now apply IH, scan_phrase_scanned.
Qed.

Lemma scan_fold_scanned known text l :
  incl l known -> forall st, scanned known st ->
  scanned known (fold_left (scan_intent ratio text) l st).
Proof.
  induction l as [|i l IH]; cbn [fold_left]; intros Hincl st H; [exact H|].
  apply IH; [intros x Hx; apply Hincl; now right|].
  apply scan_intent_scanned; [apply Hincl; now left|exact H].
Qed.

Lemma scan_all_scanned text : scanned _load_default_intents (scan_all ratio text).
Proof.
  unfold scan_all. apply scan_fold_scanned; [apply incl_refl|reflexivity].
Qed.

(** X13: the rule-based prediction either answers [unknown] with
    confidence 0 and no alternative, or names an intent of the phrase
    catalogue with a confidence above 0.6. *)
Theorem rule_based_answer_is_unknown_or_confident (text : string) (context : option context) :
  let p := _rule_based_predict ratio text context in
  p = unknown \/
  ((6 # 10 < confidence p)%Q /\ In (intent p) catalogue_intents).
Proof.
  cbv zeta. unfold _rule_based_predict.
  pose proof (scan_all_scanned text) as H.
  revert H. generalize (scan_all ratio text). intros st H. unfold scanned in H.
  destruct (best_match st) as [best|]; [|left; reflexivity].
  destruct (gt (best_score st) (6 # 10)) eqn:E; [|left; reflexivity].
  right. cbn [confidence intent]. split; [now apply IntentFacts.gt_true|].
  unfold catalogue_intents. now apply in_map.
Qed.

(** **** An exact phrase *)

Lemma gt_of_lt a b : (b < a)%Q -> gt a b = true.
Proof. intros H. unfold gt. apply Qgt_alt in H. now rewrite H. Qed.

Lemma scan_phrase_best text i st phrase :
  (best_score st <= best_score (scan_phrase ratio text i st phrase))%Q /\
  (inject_Z (ratio (Py.lower text) (Py.lower phrase)) / 100
   <= best_score (scan_phrase ratio text i st phrase))%Q.
Proof.
  unfold scan_phrase.
  set (score := (inject_Z (ratio (Py.lower text) (Py.lower phrase)) / 100)%Q).
  destruct (gt score (best_score st)) eqn:E.
  - cbn [best_score]. split; [|apply Qle_refl].
    apply Qlt_le_weak. now apply IntentFacts.gt_true.
  - apply LanguageFacts.gt_false in E.
    destruct (gt score (5 # 10)); cbn [best_score]; split;
      try apply Qle_refl; exact E.
Qed.

Lemma scan_phrases_best text i phrase ps : forall st,
  (best_score st <= best_score (fold_left (scan_phrase ratio text i) ps st))%Q /\
  (In phrase ps ->
   (inject_Z (ratio (Py.lower text) (Py.lower phrase)) / 100
    <= best_score (fold_left (scan_phrase ratio text i) ps st))%Q).
Proof.
  induction ps as [|p ps IH]; intros st; cbn [fold_left].
  - split; [apply Qle_refl|intros []].
  - destruct (IH (scan_phrase ratio text i st p)) as [IH1 IH2].
    destruct (scan_phrase_best text i st p) as [H1 H2].
    split; [eapply Qle_trans; eassumption|].
    intros [->|Hin]; [eapply Qle_trans; eassumption|now apply IH2].
Qed.

Lemma scan_intents_best text phrase l : forall st,
  (best_score st <= best_score (fold_left (scan_intent ratio text) l st))%Q /\
  (In phrase (flat_map phrases l) ->
   (inject_Z (ratio (Py.lower text) (Py.lower phrase)) / 100
    <= best_score (fold_left (scan_intent ratio text) l st))%Q).
Proof.
  induction l as [|i l IH]; intros st; cbn [fold_left flat_map].
  - split; [apply Qle_refl|intros []].
  - destruct (IH (scan_intent ratio text st i)) as [IH1 IH2].
    destruct (scan_phrases_best text i phrase (phrases i) st) as [H1 H2].
    fold (scan_intent ratio text st i) in H1, H2.
    split; [eapply Qle_trans; eassumption|].
    intros Hin. apply in_app_or in Hin as [Hin|Hin].
    + eapply Qle_trans; [now apply H2|exact IH1].
    + now apply IH2.
Qed.

Lemma catalogue_phrases_lowercase :
  forallb (fun phrase => String.eqb (Py.lower phrase) phrase) catalogue_phrases = true.
Proof. vm_compute. reflexivity. Qed.

Lemma catalogue_has_no_unknown : ~ In "unknown" catalogue_intents.
Proof. vm_compute. intuition discriminate. Qed.

(** X14: a text that is, letter case apart, a phrase of the catalogue
    gets confidence 1 and an intent of the catalogue, for every
    similarity that is a percentage and scores equal strings 100. *)
Theorem exact_phrase_is_certain (text phrase : string) (context : option context) :
  ratio_ok ratio -> ratio_reflexive ratio ->
  In phrase catalogue_phrases -> Py.lower text = phrase ->
  (confidence (_rule_based_predict ratio text context) == 1)%Q /\
  In (intent (_rule_based_predict ratio text context)) catalogue_intents.
Proof.
  intros Hok Hrefl Hin Htext.
  assert (Hlow : Py.lower phrase = phrase).
  { pose proof catalogue_phrases_lowercase as H. rewrite forallb_forall in H.
    apply String.eqb_eq. now apply H. }
  assert (Hbest : (best_score (scan_all ratio text) == 1)%Q).
  { apply Qle_antisym; [apply (IntentFacts.scan_all_unit ratio Hok)|].
    unfold scan_all.
    destruct (scan_intents_best text phrase _load_default_intents
                {| best_match := None; best_score := 0%Q; scan_alternatives := [] |})
      as [_ H].
    specialize (H Hin). rewrite Htext, Hlow, Hrefl in H.
    apply Qle_trans with (inject_Z 100 / 100)%Q; [discriminate|exact H]. }
  pose proof (scan_all_scanned text) as Hsc.
  unfold _rule_based_predict.
  revert Hbest Hsc. generalize (scan_all ratio text). intros st Hbest Hsc.
  unfold scanned in Hsc.
  destruct (best_match st) as [best|].
  - rewrite (gt_of_lt (best_score st) (6 # 10)) by (rewrite Hbest; reflexivity).
    cbn [confidence intent]. split; [exact Hbest|].
    unfold catalogue_intents. now apply in_map.
  - rewrite Hsc in Hbest. discriminate Hbest.
Qed.

End Best.

Ltac in_list := repeat first [left; reflexivity | right].

Lemma fuzz_ratio_reflexive : ratio_reflexive Fuzz.ratio.
Proof. intros s. unfold Fuzz.ratio, Fuzz.ratio_with. now rewrite String.eqb_refl. Qed.

Lemma exact_phrase_is_certain_witness :
  ratio_ok Fuzz.ratio /\ ratio_reflexive Fuzz.ratio /\
  In "oya kawda" catalogue_phrases /\ Py.lower "Oya Kawda" = "oya kawda" /\
  (confidence (_rule_based_predict Fuzz.ratio "Oya Kawda" None) == 1)%Q /\
  In (intent (_rule_based_predict Fuzz.ratio "Oya Kawda" None)) catalogue_intents.
Proof.
  assert (Hin : In "oya kawda" catalogue_phrases) by (vm_compute; in_list).
  assert (Hlow : Py.lower "Oya Kawda" = "oya kawda") by (vm_compute; reflexivity).
  split; [exact ContractFacts.ratio_is_percentage|].
  split; [exact fuzz_ratio_reflexive|].
  split; [exact Hin|]. split; [exact Hlow|].
  exact (exact_phrase_is_certain Fuzz.ratio "Oya Kawda" "oya kawda" None
           ContractFacts.ratio_is_percentage fuzz_ratio_reflexive Hin Hlow).
Defined.

(** **** The context adjustment *)

(** X15: the context adjustment keeps the intent, never returns a
    confidence above 1, and raises the confidence of no intent but
    [self_intro]. *)
Theorem context_lifts_self_intro_only (intent : string) (c : Q) (ctx : context) :
  (0 <= c)%Q ->
  fst (_apply_context intent c ctx) = intent /\
  (snd (_apply_context intent c ctx) <= 1)%Q /\
  (intent <> "self_intro" -> (snd (_apply_context intent c ctx) <= c)%Q).
Proof.
  intros Hc. split; [reflexivity|]. unfold _apply_context. cbn [snd].
  split; [apply IntentFacts.py_min_le_r|].
  intros Hne. apply String.eqb_neq in Hne. rewrite Hne, andb_false_r.
  eapply Qle_trans; [apply LanguageFacts.py_min_le_l|].
  destruct (truthy (Py.dict_get ctx "user_id") && (intent =? "ask_name")%string);
    [|apply Qle_refl].
  destruct c as [n d]. unfold Qle in *. cbn in *. nia.
Qed.

Lemma context_lifts_self_intro_only_witness :
  (0 <= 9 # 10)%Q /\
  fst (_apply_context "ask_name" (9 # 10) known_user) = "ask_name" /\
  (snd (_apply_context "ask_name" (9 # 10) known_user) <= 1)%Q /\
  ("ask_name" <> "self_intro" ->
   (snd (_apply_context "ask_name" (9 # 10) known_user) <= 9 # 10)%Q).
Proof.
  split; [discriminate|].
  apply (context_lifts_self_intro_only "ask_name" (9 # 10) known_user). discriminate.
Defined.

(** **** The statistical strategy *)

Lemma firstn_S_In {A : Type} (l : list A) : forall i p x,
  nth_error l i = Some p -> In x (firstn (S i) l) -> In x (firstn i l) \/ x = p.
Proof.
  induction l as [|a l IH]; intros [|i] p x Hp Hx; try discriminate.
  - cbn in Hp, Hx. injection Hp as <-. destruct Hx as [<-|Hx]; [now right|].
    now destruct l.
  - cbn [nth_error] in Hp. cbn [firstn In] in Hx |- *.
    destruct Hx as [Hx|Hx]; [left; now left|].
    destruct (IH i p x Hp Hx) as [H|H]; [left; now right|now right].
Qed.

(** [argmax_from] over the rest [l] of the array [full], of which the
    first [i] entries have been read and [best], at [best_i], is a
    greatest one. *)
Lemma argmax_from_greatest full : forall l i best_i best,
  skipn i full = l -> nth_error full best_i = Some best ->
  (forall x, In x (firstn i full) -> (x <= best)%Q) ->
  exists c, nth_error full (argmax_from i best_i best l) = Some c /\
            forall x, In x full -> (x <= c)%Q.
Proof.
  induction l as [|p l IH]; intros i best_i best Hskip Hbest Hseen; cbn [argmax_from].
  - exists best. split; [exact Hbest|]. intros x Hx. apply Hseen.
    rewrite <- (firstn_skipn i full), Hskip, app_nil_r in Hx. exact Hx.
  - assert (Hp : nth_error full i = Some p).
    { rewrite <- (firstn_skipn i full) at 1. rewrite Hskip.
      rewrite nth_error_app2 by apply firstn_le_length.
      assert (Hlen : List.length (firstn i full) = i).
      { apply firstn_length_le. apply Nat.lt_le_incl, nth_error_Some.
        rewrite <- (Nat.add_0_r i), <- nth_error_skipn, Hskip. discriminate. }
      rewrite Hlen, Nat.sub_diag. reflexivity. }
    assert (Hnext : skipn (S i) full = l).
    { rewrite <- (Nat.add_1_l i), <- skipn_skipn, Hskip. reflexivity. }
    pose proof (fun x => firstn_S_In full i p x Hp) as Hfirst.
    destruct (gt p best) eqn:E.
    + apply IH; [exact Hnext|exact Hp|].
      apply IntentFacts.gt_true in E.
      intros x Hx. destruct (Hfirst x Hx) as [Hx'| ->]; [|apply Qle_refl].
      apply Qle_trans with best; [now apply Hseen|now apply Qlt_le_weak].
    + apply IH; [exact Hnext|exact Hbest|].
      apply LanguageFacts.gt_false in E.
      intros x Hx. destruct (Hfirst x Hx) as [Hx'| ->]; [now apply Hseen|exact E].
Qed.

Lemma argmax_greatest l idx :
  argmax l = Ok idx ->
  exists c, nth_error l idx = Some c /\ forall x, In x l -> (x <= c)%Q.
Proof.
  destruct l as [|p l]; cbn [argmax]; [discriminate|].
  intros H. injection H as <-.
  apply (argmax_from_greatest (p :: l) l 1 0 p); [reflexivity|reflexivity|].
  intros x [<-|[]]. apply Qle_refl.
Qed.

Lemma collect_alternatives_probabilities labels predicted_idx probabilities :
  forall i alts a,
  collect_alternatives labels predicted_idx i probabilities = Ok alts ->
  In a alts ->
  In (alt_confidence a) probabilities /\ (1 # 10 < alt_confidence a)%Q.
Proof.
  induction probabilities as [|prob rest IH]; intros i alts a; cbn [collect_alternatives].
  - intros H. injection H as <-. intros [].
  - destruct (negb (i =? predicted_idx) && gt prob (1 # 10)) eqn:E.
    + destruct (index labels i) as [label|]; [|discriminate].
      destruct (collect_alternatives labels predicted_idx (S i) rest) as [alts'|] eqn:E';
        [|discriminate].
      intros H. injection H as <-. intros [<-|Hin].
      * cbn [alt_confidence]. split; [now left|].
        apply andb_true_iff in E as [_ E]. now apply IntentFacts.gt_true.
      * destruct (IH (S i) alts' a E' Hin) as [H1 H2]. split; [now right|exact H2].
    + intros H Hin. destruct (IH (S i) alts a H Hin) as [H1 H2].
      split; [now right|exact H2].
Qed.

(** X16: without a context, every alternative of the statistical
    strategy has a confidence above 0.1 and at most that of the
    prediction itself. *)
Theorem ml_alternatives_rank_below_the_prediction
  (sk : sklearn) (self : engine sk) (m : Model sk) (v : Vectorizer sk)
  (text : string) (p : prediction) :
  ml_predict_body sk self m v text None = Ok p ->
  Forall (fun a => (1 # 10 < alt_confidence a <= confidence p)%Q) (alternatives p).
Proof.
  unfold ml_predict_body.
  destruct (transform sk v [text]) as [X|]; [|discriminate].
  destruct (predict_proba sk m X) as [rows|]; [|discriminate].
  destruct (index rows 0) as [probabilities|]; [|discriminate].
  destruct (argmax probabilities) as [predicted_idx|] eqn:Eidx; [|discriminate].
  destruct (index probabilities predicted_idx) as [c|] eqn:Ec; [|discriminate].
  destruct (index (intent_labels self) predicted_idx) as [label|]; [|discriminate].
  destruct (collect_alternatives (intent_labels self) predicted_idx 0 probabilities)
    as [alts|] eqn:Ealts; [|discriminate].
  intros H. injection H as <-. cbn [alternatives confidence].
  apply argmax_greatest in Eidx as (c' & Hc' & Hmax).
  unfold index in Ec. rewrite Hc' in Ec. injection Ec as ->.
  rewrite Forall_forall. intros a Ha.
  apply (IntentFacts.In_firstn a 3 (sort_desc alts)), IntentFacts.sort_desc_In in Ha.
  destruct (collect_alternatives_probabilities _ _ _ _ _ _ Ealts Ha) as [Hin Hgt].
  split; [exact Hgt|now apply Hmax].
Qed.

Lemma greeter_answers :
  ml_predict_body StandIn.sk greeter (Some [0; 0; 0; 1; 1])
    (Some ["hi"; "hello"; "ayubowan"; "bye"; "goodbye"]) "hello" None
  = Ok greeting_first.
Proof. vm_compute. reflexivity. Qed.

Lemma ml_alternatives_rank_below_the_prediction_witness :
  ml_predict_body StandIn.sk greeter (Some [0; 0; 0; 1; 1])
    (Some ["hi"; "hello"; "ayubowan"; "bye"; "goodbye"]) "hello" None
  = Ok greeting_first /\
  Forall (fun a => (1 # 10 < alt_confidence a <= confidence greeting_first)%Q)
         (alternatives greeting_first).
Proof.
  split; [exact greeter_answers|].
  exact (ml_alternatives_rank_below_the_prediction StandIn.sk greeter _ _ "hello"
           greeting_first greeter_answers).
Defined.

(** **** Training *)

Section Labels.

Variable py : interpreter.
Hypothesis py_ok : interpreter_ok py.

Lemma set_of_list_NoDup xs : NoDup (set_of_list xs).
Proof.
  unfold set_of_list.
  assert (H : NoDup (@nil string)) by constructor.
  revert H. generalize (@nil string).
  induction xs as [|x xs IH]; cbn [fold_left]; intros acc H; [exact H|].
  apply IH, NormalizerFacts.set_add_NoDup, H.
Qed.

Lemma label_list_NoDup xs : NoDup (set_iter py (set_of_list xs)).
Proof.
  apply (Permutation_NoDup (Permutation_sym (py_ok _))), set_of_list_NoDup.
Qed.

(** X17: the label list [train] builds names every label of the
    samples once, every sample's label gets an index, and the index
    leads back to the label. *)
Theorem label_encoding_round_trip (labels : list string) :
  let intent_labels := set_iter py (set_of_list labels) in
  NoDup intent_labels /\
  (forall l, In l intent_labels <-> In l labels) /\
  exists y, label_indices intent_labels labels = Ok y /\
            Forall2 (fun l i => index intent_labels i = Ok l) labels y.
Proof.
  cbv zeta. split; [apply label_list_NoDup|]. split.
  - intros l. split; intros H.
    + apply TrainingFacts.set_of_list_In. revert H. apply Permutation_in, py_ok.
    + apply TrainingFacts.set_of_list_In in H. revert H.
      apply Permutation_in, Permutation_sym, py_ok.
  - destruct (TrainingFacts.label_indices_Ok (set_iter py (set_of_list labels)) labels)
      as (y & Ey & Hy).
    + rewrite Forall_forall. intros l Hl.
      apply (Permutation_in l (Permutation_sym (py_ok _))).
      now apply TrainingFacts.set_of_list_In.
    + exists y. split; [exact Ey|].
      revert Hy. apply Forall2_impl. intros l i Hi.
      unfold index. now rewrite (TrainingFacts.label_index_nth _ _ _ Hi).
Qed.

End Labels.

Lemma label_encoding_round_trip_witness :
  interpreter_ok reverse_order /\
  NoDup (set_iter reverse_order (set_of_list ["greeting"; "goodbye"; "greeting"])) /\
  (forall l, In l (set_iter reverse_order (set_of_list ["greeting"; "goodbye"; "greeting"]))
             <-> In l ["greeting"; "goodbye"; "greeting"]) /\
  exists y,
    label_indices (set_iter reverse_order (set_of_list ["greeting"; "goodbye"; "greeting"]))
                  ["greeting"; "goodbye"; "greeting"] = Ok y /\
    Forall2 (fun l i => index (set_iter reverse_order
                                 (set_of_list ["greeting"; "goodbye"; "greeting"])) i = Ok l)
            ["greeting"; "goodbye"; "greeting"] y.
Proof.
  split; [exact reverse_order_ok|].
  exact (label_encoding_round_trip reverse_order reverse_order_ok
           ["greeting"; "goodbye"; "greeting"]).
Defined.

Section Trained.

Variable py : interpreter.
Variable sk : sklearn.
Hypothesis py_ok : interpreter_ok py.

Lemma stratifiable_counts labels ls y :
  Forall2 (fun l i => label_index labels l = Ok i) ls y ->
  stratifiable y = true ->
  forall l, In l ls -> 2 <= count_occ string_dec ls l.
Proof.
  intros Hy Hs l Hl.
  assert (Hi : exists i, label_index labels l = Ok i /\ In i y).
  { clear Hs. induction Hy as [|l' i ls y Hi _ IH]; [destruct Hl|].
    destruct Hl as [->|Hl]; [exists i; split; [exact Hi|now left]|].
    destruct (IH Hl) as (j & Hj & Hin). exists j. split; [exact Hj|now right]. }
  destruct Hi as (i & Hi & Hin).
  rewrite <- (TrainingFacts.count_occ_indices _ _ _ _ _ Hy Hi).
  unfold stratifiable in Hs. rewrite forallb_forall in Hs.
  now apply Nat.leb_le, Hs.
Qed.

(** X18: a training that returns its report leaves the engine with a
    model, a vectorizer, the distinct labels of the samples and the
    accuracy it reports; the report counts those labels and the
    samples, and every label had at least two samples. *)
Theorem successful_training_installs_the_model
  (self : engine sk) (training_data : list (string * string)) (r : report) :
  snd (train py sk self training_data) = Ok r ->
  let after := fst (train py sk self training_data) in
  model after <> None /\ vectorizer after <> None /\
  intent_labels after = set_iter py (set_of_list (map snd training_data)) /\
  last_accuracy after = accuracy r /\
  num_intents r = List.length (intent_labels after) /\
  training_samples r = List.length training_data /\
  Forall (fun l => 2 <= count_occ string_dec (map snd training_data) l)
         (intent_labels after).
Proof.
  cbv zeta. unfold train. cbn [set_intent_labels intent_labels].
  destruct (TrainingFacts.train_label_indices py py_ok training_data) as (y & -> & Hy).
  destruct (fit_transform sk (TfidfVectorizer sk) (map fst training_data)) as [v X].
  destruct X as [X|]; [|discriminate].
  unfold train_test_split.
  destruct (stratifiable y) eqn:Es; [|discriminate].
  destruct (shuffle_split sk X y) as [[[[X_train X_test] y_train] y_test]|];
    [|discriminate].
  destruct (fit sk (RandomForestClassifier sk) X_train y_train) as [m fitted].
  destruct fitted; [|discriminate].
  destruct (model_predict sk m X_test) as [y_pred|]; [|discriminate].
  destruct (accuracy_score sk y_test y_pred) as [acc|]; [|discriminate].
  cbn. intros H. injection H as <-. cbn.
  repeat split; try discriminate.
  rewrite Forall_forall. intros l Hl.
  apply (stratifiable_counts _ _ _ Hy Es).
  apply TrainingFacts.set_of_list_In. revert Hl. apply Permutation_in, py_ok.
Qed.

End Trained.

Lemma successful_training_installs_the_model_witness :
  let trained := train insertion_order StandIn.sk (init StandIn.sk) introductions in
  interpreter_ok insertion_order /\
  snd trained = Ok {| accuracy := 0 # 2; num_intents := 2; training_samples := 6 |} /\
  model (fst trained) <> None /\ vectorizer (fst trained) <> None /\
  intent_labels (fst trained) = ["self_intro"; "greeting"] /\
  Forall (fun l => 2 <= count_occ string_dec (map snd introductions) l)
         (intent_labels (fst trained)).
Proof.
  cbv zeta.
  assert (E : snd (train insertion_order StandIn.sk (init StandIn.sk) introductions)
              = Ok {| accuracy := 0 # 2; num_intents := 2; training_samples := 6 |})
    by (vm_compute; reflexivity).
  destruct (successful_training_installs_the_model insertion_order StandIn.sk
              insertion_order_ok (init StandIn.sk) introductions _ E)
    as (Hm & Hv & Hl & _ & _ & _ & Hc).
  split; [exact insertion_order_ok|]. split; [exact E|].
  split; [exact Hm|]. split; [exact Hv|]. split; [|exact Hc].
  rewrite Hl. vm_compute. reflexivity.
Defined.

(** **** The top pick and the alternatives *)

Lemma greeter_labels_distinct : NoDup (intent_labels greeter).
Proof. repeat constructor; cbn; intuition discriminate. Qed.

(** **** The default training *)

Section Default.

Variable py : interpreter.
Variable sk : sklearn.
Hypothesis py_ok : interpreter_ok py.

(** Whatever its outcome, [train] leaves the distinct labels of the
    samples as the label list. *)
Lemma train_labels (self : engine sk) (training_data : list (string * string)) :
  intent_labels (fst (train py sk self training_data))
  = set_iter py (set_of_list (map snd training_data)).
Proof.
  unfold train. cbn [set_intent_labels intent_labels].
  destruct (TrainingFacts.train_label_indices py py_ok training_data) as (y & -> & _).
  destruct (fit_transform sk (TfidfVectorizer sk) (map fst training_data)) as [v X].
  destruct X as [X|]; [|reflexivity].
  destruct (train_test_split sk X y) as [[[[X_train X_test] y_train] y_test]|];
    [|reflexivity].
  destruct (fit sk (RandomForestClassifier sk) X_train y_train) as [m fitted].
  destruct fitted; [|reflexivity].
  destruct (model_predict sk m X_test) as [y_pred|]; [|reflexivity].
  destruct (accuracy_score sk y_test y_pred); reflexivity.
Qed.

Lemma default_samples_name_the_catalogue :
  incl catalogue_intents (map snd default_training_data).
Proof.
  intros l Hl. vm_compute in Hl. vm_compute.
  repeat (destruct Hl as [<-|Hl]; [in_list|]). destruct Hl.
Qed.

(** X19: after [_train_default_model], whether the training succeeded
    or the fallback was taken, the label list names every intent of
    the phrase catalogue. *)
Theorem default_training_names_the_catalogue (self : engine sk) :
  incl catalogue_intents (intent_labels (_train_default_model py sk self)).
Proof.
  unfold _train_default_model.
  pose proof (train_labels self default_training_data) as Hl.
  pose proof default_samples_name_the_catalogue as Hcat.
  revert Hl Hcat. generalize default_training_data. intros data Hl Hcat.
  destruct (train py sk self data) as [after [r|e]].
  - cbn [fst] in Hl. rewrite Hl. intros l Hin.
    apply (Permutation_in l (Permutation_sym (py_ok (set_of_list (map snd data))))).
    apply TrainingFacts.set_of_list_In. now apply Hcat.
  - cbn [_initialize_fallback intent_labels]. clear. intros l Hin.
    vm_compute in Hin. repeat (destruct Hin as [<-|Hin]; [in_list|]). destruct Hin.
Qed.

End Default.

Lemma default_training_names_the_catalogue_witness :
  interpreter_ok reverse_order /\
  incl catalogue_intents
       (intent_labels (_train_default_model reverse_order StandIn.sk (init StandIn.sk))).
Proof.
  split; [exact reverse_order_ok|].
  exact (default_training_names_the_catalogue reverse_order StandIn.sk reverse_order_ok
           (init StandIn.sk)).
Defined.

Lemma ml_alternatives_exclude_top_witness :
  NoDup (intent_labels greeter) /\
  ml_predict_body StandIn.sk greeter (Some [0; 0; 0; 1; 1])
    (Some ["hi"; "hello"; "ayubowan"; "bye"; "goodbye"]) "hello" None
  = Ok greeting_first /\
  ~ In (intent greeting_first) (map alt_intent (alternatives greeting_first)).
Proof.
  split; [exact greeter_labels_distinct|]. split; [exact greeter_answers|].
  exact (IntentFacts.ml_alternatives_exclude_top StandIn.sk greeter _ _ "hello" None
           greeting_first greeter_labels_distinct greeter_answers).
Defined.

End EngineFacts.

Module ComposerFacts.
Import ResponseGenerator.

(** **** Learning templates *)

Lemma dict_get_set_same {V : Type} (d : Py.dict V) k v :
  Py.dict_get (Py.dict_set d k v) k = Some v.
Proof.
  induction d as [|[k' v'] d IH]; cbn.
  - now rewrite String.eqb_refl.
  - destruct (String.eqb k k') eqn:E; cbn; [now rewrite String.eqb_refl|].
    now rewrite E.
Qed.

Lemma dict_get_set_other {V : Type} (d : Py.dict V) k v k' :
  k' <> k -> Py.dict_get (Py.dict_set d k v) k' = Py.dict_get d k'.
Proof.
  intros Hne. induction d as [|[k0 v0] d IH]; cbn.
  - apply String.eqb_neq in Hne. now rewrite Hne.
  - destruct (String.eqb k k0) eqn:E; cbn.
    + apply String.eqb_eq in E as <-. apply String.eqb_neq in Hne. now rewrite Hne.
    + destruct (String.eqb k' k0); [reflexivity|exact IH].
Qed.

Lemma dict_set_Forall {V : Type} (P : string * V -> Prop) (d : Py.dict V) k v :
  Forall P d -> P (k, v) -> Forall P (Py.dict_set d k v).
Proof.
  intros Hd Hkv. induction Hd as [|[k' v'] d Hk' Hd IH]; cbn.
  - now repeat constructor.
  - destruct (String.eqb k k'); constructor; assumption.
Qed.

Lemma dict_get_Forall {V : Type} (P : string * V -> Prop) (d : Py.dict V) k v :
  Forall P d -> Py.dict_get d k = Some v -> exists k', P (k', v).
Proof.
  intros Hd Hget. apply dict_get_In in Hget.
  apply in_map_iff in Hget as [[k' v'] [E Hin]]. cbn in E. subst v'.
  rewrite Forall_forall in Hd. exists k'. exact (Hd _ Hin).
Qed.

Lemma with_list_get d intent :
  exists known, Py.dict_get (with_list d intent) intent = Some known.
Proof.
  unfold with_list, Py.dict_mem.
  destruct (Py.dict_get d intent) as [known|] eqn:E.
  - exists known. exact E.
  - exists []. apply dict_get_set_same.
Qed.

Lemma with_list_keeps d intent k known :
  Py.dict_get d k = Some known -> Py.dict_get (with_list d intent) k = Some known.
Proof.
  intros H. unfold with_list, Py.dict_mem.
  destruct (Py.dict_get d intent) eqn:E; [exact H|].
  rewrite dict_get_set_other; [exact H|]. intros ->. congruence.
Qed.

Lemma with_list_present d intent known :
  Py.dict_get d intent = Some known -> with_list d intent = d.
Proof. intros H. unfold with_list, Py.dict_mem. now rewrite H. Qed.

Lemma with_list_without_repeats d intent :
  without_repeats d -> without_repeats (with_list d intent).
Proof.
  intros H. unfold with_list. destruct (Py.dict_mem d intent); [exact H|].
  apply dict_set_Forall; [exact H|constructor].
Qed.

(** What one sample does: nothing, when it lacks an intent or a
    response, and else an append to the list of its intent unless the
    response is there. *)
Lemma learn_cases d sample :
  ((forall intent response, ~ teaches sample intent response) /\
   learn d sample = (d, Ok tt))
  \/ exists intent response known,
       teaches sample intent response /\
       Py.dict_get (with_list d intent) intent = Some known /\
       learn d sample
       = if Py.mem response known then (with_list d intent, Ok tt)
         else (Py.dict_set (with_list d intent) intent (known ++ [response])%list, Ok tt).
Proof.
  unfold learn.
  destruct (item_intent sample) as [[|a i]|] eqn:Ei;
    try (left; split; [intros intent response (H1 & _ & H3 & _); congruence|reflexivity]).
  destruct (item_response sample) as [[|b r]|] eqn:Er;
    try (left; split; [intros intent response (_ & H2 & _ & H4); congruence|reflexivity]).
  right. fold (with_list d (String a i)).
  destruct (with_list_get d (String a i)) as (known & Hk).
  exists (String a i), (String b r), known.
  split; [repeat split; try assumption; discriminate|]. split; [exact Hk|].
  unfold getitem. rewrite Hk. reflexivity.
Qed.

Lemma learn_never_raises d sample : snd (learn d sample) = Ok tt.
Proof.
  destruct (learn_cases d sample) as [[_ ->]|(i & r & known & _ & _ & ->)];
    [reflexivity|].
  now destruct (Py.mem r known).
Qed.

Lemma learn_keeps d sample k known :
  Py.dict_get d k = Some known ->
  exists added, Py.dict_get (fst (learn d sample)) k = Some (known ++ added)%list.
Proof.
  intros H.
  destruct (learn_cases d sample) as [[_ ->]|(i & r & kn & _ & Hk & ->)].
  - exists []. now rewrite app_nil_r.
  - apply (with_list_keeps d i) in H.
    destruct (Py.mem r kn); cbn [fst].
    + exists []. now rewrite app_nil_r.
    + destruct (String.eqb_spec k i) as [->|Hne].
      * rewrite dict_get_set_same. exists [r]. congruence.
      * rewrite dict_get_set_other by exact Hne. exists []. now rewrite app_nil_r.
Qed.

Lemma teaches_unique sample i r i' r' :
  teaches sample i r -> teaches sample i' r' -> i = i' /\ r = r'.
Proof. intros (H1 & H2 & _) (H1' & H2' & _). split; congruence. Qed.

Lemma learn_lists d sample intent response :
  teaches sample intent response -> listed (fst (learn d sample)) intent response.
Proof.
  intros Ht.
  destruct (learn_cases d sample) as [[Hno _]|(i & r & kn & Ht' & Hk & ->)];
    [now exfalso; apply (Hno intent response)|].
  destruct (teaches_unique _ _ _ _ _ Ht Ht') as [-> ->].
  destruct (Py.mem r kn) eqn:E; cbn [fst].
  - exists kn. split; [exact Hk|]. now apply TrainingFacts.mem_In.
  - exists (kn ++ [r])%list. rewrite dict_get_set_same. split; [reflexivity|].
    apply in_or_app. right. now left.
Qed.

Lemma learn_known d sample :
  (forall intent response, teaches sample intent response -> listed d intent response) ->
  learn d sample = (d, Ok tt).
Proof.
  intros H.
  destruct (learn_cases d sample) as [[_ ->]|(i & r & kn & Ht & Hk & ->)];
    [reflexivity|].
  destruct (H i r Ht) as (known & Hget & Hin).
  rewrite (with_list_present d i known Hget) in *.
  assert (kn = known) as -> by congruence.
  apply TrainingFacts.mem_In in Hin. now rewrite Hin.
Qed.

Lemma learn_without_repeats d sample :
  without_repeats d -> without_repeats (fst (learn d sample)).
Proof.
  intros H.
  destruct (learn_cases d sample) as [[_ ->]|(i & r & kn & _ & Hk & ->)];
    [exact H|].
  apply (with_list_without_repeats d i) in H.
  destruct (Py.mem r kn) eqn:E; cbn [fst]; [exact H|].
  apply dict_set_Forall; [exact H|]. cbn [snd].
  destruct (dict_get_Forall _ _ _ _ H Hk) as [k' Hkn]. cbn [snd] in Hkn.
  apply NoDup_app; [exact Hkn|repeat constructor; easy|].
  intros x Hx [<-|[]]. apply TrainingFacts.mem_In in Hx. congruence.
Qed.

(** The loop over the samples. *)
Lemma learn_all_never_raises data : forall d, snd (learn_all d data) = Ok tt.
Proof.
  induction data as [|sample data IH]; intros d; cbn [learn_all]; [reflexivity|].
  pose proof (learn_never_raises d sample) as H.
  destruct (learn d sample) as [d' [[]|e]]; [apply IH|discriminate H].
Qed.

Lemma learn_all_step d sample data :
  learn_all d (sample :: data) = learn_all (fst (learn d sample)) data.
Proof.
  cbn [learn_all]. pose proof (learn_never_raises d sample) as H.
  destruct (learn d sample) as [d' [[]|e]]; [reflexivity|discriminate H].
Qed.

Lemma learn_all_keeps data : forall d k known,
  Py.dict_get d k = Some known ->
  exists added, Py.dict_get (fst (learn_all d data)) k = Some (known ++ added)%list.
Proof.
  induction data as [|sample data IH]; intros d k known H.
  - exists []. now rewrite app_nil_r.
  - rewrite learn_all_step.
    destruct (learn_keeps d sample k known H) as (added & H1).
    destruct (IH _ _ _ H1) as (added' & H2).
    exists (added ++ added')%list. now rewrite app_assoc.
Qed.

Lemma listed_kept data d intent response :
  listed d intent response -> listed (fst (learn_all d data)) intent response.
Proof.
  intros (known & Hget & Hin).
  destruct (learn_all_keeps data d intent known Hget) as (added & H).
  exists (known ++ added)%list. split; [exact H|]. apply in_or_app. now left.
Qed.

Lemma learn_all_lists data : forall d sample intent response,
  In sample data -> teaches sample intent response ->
  listed (fst (learn_all d data)) intent response.
Proof.
  induction data as [|s data IH]; intros d sample intent response Hin Ht; [destruct Hin|].
  rewrite learn_all_step. destruct Hin as [->|Hin].
  - apply listed_kept. now apply learn_lists.
  - now apply (IH _ sample).
Qed.

Lemma learn_all_known data : forall d,
  (forall sample intent response, In sample data -> teaches sample intent response ->
     listed d intent response) ->
  learn_all d data = (d, Ok tt).
Proof.
  induction data as [|s data IH]; intros d H; [reflexivity|].
  rewrite learn_all_step.
  rewrite (learn_known d s) by (intros i r Ht; apply (H s); [now left|exact Ht]).
  apply IH. intros sample i r Hin Ht. apply (H sample); [now right|exact Ht].
Qed.

Lemma learn_all_without_repeats data : forall d,
  without_repeats d -> without_repeats (fst (learn_all d data)).
Proof.
  induction data as [|s data IH]; intros d H; [exact H|].
  rewrite learn_all_step. now apply IH, learn_without_repeats.
Qed.

Lemma train_templates self data :
  trained_templates self data = fst (learn_all (templates self) data).
Proof.
  unfold trained_templates, train.
  pose proof (learn_all_never_raises data (templates self)) as H.
  destruct (learn_all (templates self) data) as [d [[]|e]]; [reflexivity|discriminate H].
Qed.

(** X20: training the response generator never raises; it keeps
    every template there was, in its place, and afterwards every sample
    that has an intent and a response finds its response listed under
    its intent. *)
Theorem training_keeps_and_lists_templates (self : generator) (training_data : list item) :
  (exists r, snd (train self training_data) = Ok r) /\
  (forall intent known, Py.dict_get (templates self) intent = Some known ->
     exists added,
       Py.dict_get (trained_templates self training_data) intent
       = Some (known ++ added)%list) /\
  (forall sample intent response,
     In sample training_data -> teaches sample intent response ->
     listed (trained_templates self training_data) intent response).
Proof.
  rewrite train_templates. split; [|split].
  - unfold train.
    pose proof (learn_all_never_raises training_data (templates self)) as H.
    destruct (learn_all (templates self) training_data) as [d [[]|e]];
      [cbn [snd]; eauto|discriminate H].
  - intros intent known. apply learn_all_keeps.
  - intros sample intent response. apply learn_all_lists.
Qed.

(** X21: training is idempotent: a second training on the same
    samples changes nothing. *)
Theorem training_twice_changes_nothing (self : generator) (training_data : list item) :
  fst (train (fst (train self training_data)) training_data)
  = fst (train self training_data).
Proof.
  assert (E : learn_all (trained_templates self training_data) training_data
              = (trained_templates self training_data, Ok tt)).
  { apply learn_all_known. intros sample intent response Hin Ht.
    rewrite train_templates. now apply (learn_all_lists _ _ sample). }
  unfold trained_templates in E. unfold train at 1. rewrite E. cbn [fst].
  unfold train.
  pose proof (learn_all_never_raises training_data (templates self)) as H.
  destruct (learn_all (templates self) training_data) as [d [[]|e]];
    [reflexivity|discriminate H].
Qed.

(** X22: training adds no response twice: when no template list holds
    a response twice before the training, none does after it. *)
Theorem training_adds_no_repeat (self : generator) (training_data : list item) :
  without_repeats (templates self) ->
  without_repeats (trained_templates self training_data).
Proof. intros H. rewrite train_templates. now apply learn_all_without_repeats. Qed.

Lemma training_adds_no_repeat_witness :
  without_repeats (templates novice) /\
  without_repeats (trained_templates novice lessons) /\
  trained_templates novice lessons = [("greeting", ["Hello machan!"; "Kohomada!"])].
Proof.
  assert (H : without_repeats (templates novice)).
  { repeat constructor. cbn. tauto. }
  split; [exact H|].
  split; [exact (training_adds_no_repeat novice lessons H)|].
  vm_compute. reflexivity.
Defined.

(** **** What a reply is built on *)

Lemma lower_app a b : Py.lower (a ++ b) = (Py.lower a ++ Py.lower b)%string.
Proof. induction a as [|c a IH]; cbn; [reflexivity|now rewrite IH]. Qed.

Lemma lower_lower s : Py.lower (Py.lower s) = Py.lower s.
Proof. apply lower_fixed, lower_not_upper. Qed.

Lemma echoes_app_l t a b : echoes t a -> echoes t (a ++ b).
Proof.
  unfold echoes. intros H. rewrite lower_app. now apply ResponseFacts.contains_app_l.
Qed.

Lemma echoes_app_r t a b : echoes t b -> echoes t (a ++ b).
Proof.
  unfold echoes. intros H. rewrite lower_app. now apply ResponseFacts.contains_app_r.
Qed.

Lemma echoes_lower t s : echoes t s -> echoes t (Py.lower s).
Proof. unfold echoes. now rewrite lower_lower. Qed.

Lemma startswith_refl s : Py.startswith s s = true.
Proof. induction s as [|c s IH]; cbn; [reflexivity|]. now rewrite Ascii.eqb_refl. Qed.

Lemma contains_refl s : Py.contains s s = true.
Proof. destruct s; cbn; [reflexivity|]. now rewrite Ascii.eqb_refl, startswith_refl. Qed.

Lemma echoes_refl t : echoes t t.
Proof. apply contains_refl. Qed.

(** Running one more bind, or deciding one more test, of a composer
    stage whose every outcome keeps what the reply echoes. *)
Ltac run_echo :=
  repeat first
    [ rewrite ResponseFacts.run_ret; cbn [fst snd]
    | rewrite ResponseFacts.run_bind
    | match goal with
      | |- echoes _ (fst (runState (match ?x with _ => _ end) _)) => destruct x
      | |- echoes _ (fst (runState (if ?x then _ else _) _)) => destruct x
      end ];
  auto using echoes_app_l, echoes_app_r, echoes_lower.

Lemma apply_personalization_echoes t (response : string) (g : rng) :
  echoes t response -> echoes t (fst (runState (_apply_personalization response) g)).
Proof. intros H. unfold _apply_personalization. run_echo. Qed.

Lemma apply_context_modifiers_echoes t (current_hour : nat) (response : string) (g : rng) :
  echoes t response ->
  echoes t (fst (runState (_apply_context_modifiers current_hour response) g)).
Proof. intros H. unfold _apply_context_modifiers. cbv zeta. run_echo. Qed.

Lemma add_personality_echoes t (response : string) (confidence : Q) (g : rng) :
  echoes t response ->
  echoes t (fst (runState (_add_personality response confidence) g)).
Proof. intros H. unfold _add_personality. run_echo. Qed.

(** The stages after the base response keep what it echoes. *)
Lemma generated_by_echoes t (self : generator)
  (current_hour : nat) (message intent : string) (confidence : Q)
  (user_id session_id : option string) (g : rng) :
  echoes t (fst (runState (Self._get_base_response self intent message) g)) ->
  echoes t (generated_by self current_hour message intent confidence user_id session_id g).
Proof.
  intros H0. unfold generated_by, Self.generate.
  rewrite ResponseFacts.run_bind.
  set (r0 := runState (Self._get_base_response self intent message) g) in *.
  rewrite ResponseFacts.run_bind.
  assert (H1 : echoes t (fst (runState
                 (if given user_id then _apply_personalization (fst r0) else ret (fst r0))
                 (snd r0)))).
  { destruct (given user_id); [now apply apply_personalization_echoes|exact H0]. }
  set (r1 := runState (if given user_id then _ else _) (snd r0)) in *.
  rewrite ResponseFacts.run_bind.
  pose proof (apply_context_modifiers_echoes t current_hour (fst r1) (snd r1) H1) as H2.
  set (r2 := runState (_apply_context_modifiers current_hour (fst r1)) (snd r1)) in *.
  rewrite ResponseFacts.run_bind.
  pose proof (add_personality_echoes t (fst r2) confidence (snd r2) H2) as H3.
  rewrite ResponseFacts.run_ret. exact H3.
Qed.

(** For a generator as constructed the two methods are those that read
    the table of the class. *)
Lemma generate_as_constructed
  (current_hour : nat) (message intent : string) (confidence : Q)
  (user_id session_id : option string) :
  Self.generate init current_hour message intent confidence user_id session_id
  = generate current_hour message intent confidence user_id session_id.
Proof. reflexivity. Qed.

(** Training keeps the templates stocked. *)
Lemma dict_set_set {V : Type} (d : Py.dict V) k v v' :
  Py.dict_set (Py.dict_set d k v) k v' = Py.dict_set d k v'.
Proof.
  induction d as [|[k0 v0] d IH]; cbn.
  - now rewrite String.eqb_refl.
  - destruct (String.eqb k k0) eqn:E; cbn.
    + now rewrite String.eqb_refl.
    + now rewrite E, IH.
Qed.

Lemma with_list_set_Forall (P : string * list string -> Prop) d k v :
  Forall P d -> P (k, v) -> Forall P (Py.dict_set (with_list d k) k v).
Proof.
  intros Hd Hkv. unfold with_list.
  destruct (Py.dict_mem d k); [|rewrite dict_set_set]; now apply dict_set_Forall.
Qed.

Lemma learn_stocked d sample : stocked d -> stocked (fst (learn d sample)).
Proof.
  intros [[unknown Hu] Hd]. split.
  - destruct (learn_keeps d sample "unknown" unknown Hu) as (added & H). eauto.
  - destruct (learn_cases d sample) as [[_ ->]|(i & r & kn & _ & Hk & ->)];
      [exact Hd|].
    destruct (Py.mem r kn) eqn:E; cbn [fst].
    + unfold with_list in *. destruct (Py.dict_mem d i); [exact Hd|].
      rewrite dict_get_set_same in Hk. injection Hk as <-. discriminate E.
    + apply with_list_set_Forall; [exact Hd|]. cbn [snd]. now destruct kn.
Qed.

Lemma learn_all_stocked data : forall d, stocked d -> stocked (fst (learn_all d data)).
Proof.
  induction data as [|s data IH]; intros d H; [exact H|].
  rewrite learn_all_step. now apply IH, learn_stocked.
Qed.

Lemma init_stocked : stocked (templates init).
Proof.
  split; [eexists; vm_compute; reflexivity|].
  apply Forall_forall. intros kv Hkv.
  assert (Hall : forallb (fun kv : string * list string =>
                            negb (List.length (snd kv) =? 0)) (templates init) = true)
    by (vm_compute; reflexivity).
  rewrite forallb_forall in Hall. specialize (Hall kv Hkv).
  intros E. rewrite E in Hall. discriminate Hall.
Qed.

Lemma trained_stocked self : trained self -> stocked (templates self).
Proof.
  induction 1 as [|self data _ IH _]; [exact init_stocked|].
  fold (trained_templates self data). rewrite train_templates.
  now apply learn_all_stocked.
Qed.

Lemma stocked_listed d intent responses :
  stocked d -> Py.dict_get d intent = Some responses -> responses <> [].
Proof.
  intros [_ Hd] H. destruct (dict_get_Forall _ _ _ _ Hd H) as [k Hk]. exact Hk.
Qed.

(** The base response to an intent other than [self_intro] is one of
    the templates the generator has for it. *)
Lemma base_response_listed (self : generator) (intent message : string) (g : rng) :
  stocked (templates self) -> intent <> "self_intro" ->
  In (fst (runState (Self._get_base_response self intent message) g))
     (templates_of self intent).
Proof.
  intros Hs Hne. apply String.eqb_neq in Hne.
  unfold Self._get_base_response, templates_of. rewrite Hne.
  revert Hs. generalize (templates self). intros d Hs.
  destruct (Py.dict_get d intent) as [responses|] eqn:E.
  - rewrite ResponseFacts.run_bind.
    destruct (ResponseFacts.choice_In responses g (stocked_listed _ _ _ Hs E))
      as (x & -> & Hx).
    rewrite ResponseFacts.run_ret. exact Hx.
  - unfold getitem. destruct Hs as [[unknown Hu] Hd]. rewrite Hu.
    rewrite ResponseFacts.run_bind.
    destruct (ResponseFacts.choice_In unknown g
                (stocked_listed d "unknown" unknown (conj (ex_intro _ unknown Hu) Hd) Hu))
      as (x & -> & Hx).
    rewrite ResponseFacts.run_ret. exact Hx.
Qed.

(** X23: for a generator as constructed or trained, the reply to an
    intent other than [self_intro] holds, letter case apart, one of the
    templates the generator has for the intent at that moment (those of
    [unknown] for an intent it has none for), whatever the random
    draws, the hour, the confidence and the user. *)
Theorem reply_is_built_on_a_template
  (self : generator) (current_hour : nat) (message intent : string) (confidence : Q)
  (user_id session_id : option string) (g : rng) :
  trained self -> intent <> "self_intro" ->
  exists template,
    In template (templates_of self intent) /\
    echoes template
      (generated_by self current_hour message intent confidence user_id session_id g).
Proof.
  intros Ht Hne.
  exists (fst (runState (Self._get_base_response self intent message) g)).
  split; [apply base_response_listed; [now apply trained_stocked|exact Hne]|].
  apply generated_by_echoes, echoes_refl.
Qed.

(** X23 at work: once a joke has been taught, the reply to [joke] is
    built on it. *)
Lemma reply_is_built_on_a_template_witness :
  let self := fst (train init jokes) in
  trained self /\ "joke" <> "self_intro" /\
  templates_of init "joke" = templates_of init "unknown" /\
  templates_of self "joke" = ["Why so serious machan?"] /\
  exists template,
    In template (templates_of self "joke") /\
    echoes template
      (generated_by self 9 "tell me a joke" "joke" (95 # 100) (Some "u1") None
         (fun _ => 0%Z)).
Proof.
  cbv zeta.
  assert (Ht : trained (fst (train init jokes))).
  { apply after_training; [exact as_constructed|].
    repeat constructor. }
  split; [exact Ht|]. split; [discriminate|].
  split; [vm_compute; reflexivity|]. split; [vm_compute; reflexivity|].
  apply (reply_is_built_on_a_template (fst (train init jokes)) 9 "tell me a joke" "joke"
           (95 # 100) (Some "u1") None (fun _ => 0%Z) Ht).
  discriminate.
Defined.

(** **** The name in the reply *)

(** Each template of [self_intro] the generator is constructed with
    has the name put in place of its placeholder. *)
Lemma format_name_puts_the_name (template name : string) :
  In template (templates_of init "self_intro") ->
  exists before after, format_name template name = (before ++ name ++ after)%string.
Proof.
  intros H. vm_compute in H.
  destruct H as [<-|[<-|[<-|[]]]].
  - exists "Oya ", " neda? Hari honda! Mama CoverageBot, oyata help karanna puluwan! 🤖".
    reflexivity.
  - exists "Nice to meet you ", "! Mama ai-powered Singlish chatbot kenek. 😊".
    reflexivity.
  - exists "Wah ", ", nice name machan! Mata oyata Singlish walata reply karanna puluwan! 💬".
    reflexivity.
Qed.

Lemma base_response_names (message name : string) (g : rng) :
  _extract_name message = Some name -> name <> "" ->
  echoes name (fst (runState (Self._get_base_response init "self_intro" message) g)).
Proof.
  intros Hname Hne. unfold Self._get_base_response.
  pose proof (fun x => format_name_puts_the_name x name) as Hfmt.
  unfold templates_of in Hfmt.
  destruct (Py.dict_get (templates init) "self_intro") as [responses|] eqn:E;
    [|vm_compute in E; discriminate E].
  rewrite Hname. cbn [String.eqb Ascii.eqb Bool.eqb].
  destruct name as [|c name]; [easy|].
  rewrite ResponseFacts.run_bind.
  destruct (ResponseFacts.choice_In responses g
              (stocked_listed _ _ _ init_stocked E)) as (x & -> & Hx).
  rewrite ResponseFacts.run_ret. cbn [fst].
  destruct (Hfmt x Hx) as (before & after & ->).
  apply echoes_app_r, echoes_app_l, echoes_refl.
Qed.

(** X24: when a name is extracted from an ASCII message, the reply of
    a generator as constructed to [self_intro] holds that name, letter
    case apart, whatever the random draws, the hour, the confidence and
    the user. *)
Theorem introduction_is_answered_by_name
  (current_hour : nat) (message name : string) (confidence : Q)
  (user_id session_id : option string) (g : rng) :
  ascii_only message = true ->
  _extract_name message = Some name -> name <> "" ->
  echoes name
    (generated_by init current_hour message "self_intro" confidence user_id session_id g).
Proof.
  intros _ Hname Hne. now apply generated_by_echoes, base_response_names.
Qed.

Lemma introduction_is_answered_by_name_witness :
  ascii_only "hi, i am kasun!" = true /\
  _extract_name "hi, i am kasun!" = Some "Kasun" /\ "Kasun" <> "" /\
  echoes "Kasun"
    (generated_by init 21 "hi, i am kasun!" "self_intro" (6 # 10) None None (fun _ => 0%Z)).
Proof.
  assert (E : _extract_name "hi, i am kasun!" = Some "Kasun") by (vm_compute; reflexivity).
  split; [vm_compute; reflexivity|].
  split; [exact E|]. split; [discriminate|].
  apply (introduction_is_answered_by_name 21 "hi, i am kasun!" "Kasun" (6 # 10)
           None None (fun _ => 0%Z)); [vm_compute; reflexivity|exact E|discriminate].
Defined.

(** **** The shape of an extracted name *)

Lemma upper_char_idem c : Py.upper_char (Py.upper_char c) = Py.upper_char c.
Proof.
  destruct c as [b0 b1 b2 b3 b4 b5 b6 b7].
  destruct b0, b1, b2, b3, b4, b5, b6, b7; reflexivity.
Qed.

Lemma no_space_upper_char c : no_space (Py.upper_char c) = no_space c.
Proof.
  destruct c as [b0 b1 b2 b3 b4 b5 b6 b7].
  destruct b0, b1, b2, b3, b4, b5, b6, b7; reflexivity.
Qed.

Lemma no_space_lower_char c : no_space (Py.lower_char c) = no_space c.
Proof.
  destruct c as [b0 b1 b2 b3 b4 b5 b6 b7].
  destruct b0, b1, b2, b3, b4, b5, b6, b7; reflexivity.
Qed.

Lemma no_space_lower s : all_chars no_space (Py.lower s) = all_chars no_space s.
Proof.
  induction s as [|c s IH]; cbn; [reflexivity|]. now rewrite no_space_lower_char, IH.
Qed.

Lemma capitalize_idem s : Py.capitalize (Py.capitalize s) = Py.capitalize s.
Proof. destruct s as [|c s]; cbn; [reflexivity|]. now rewrite upper_char_idem, lower_lower. Qed.

Lemma no_space_capitalize s :
  all_chars no_space (Py.capitalize s) = all_chars no_space s.
Proof.
  destruct s as [|c s]; cbn; [reflexivity|]. now rewrite no_space_upper_char, no_space_lower.
Qed.

Lemma extract_name_from_shape patterns message message_lower name :
  extract_name_from patterns message message_lower = Some name ->
  exists word,
    name = Py.capitalize (Py.strip_chars ".,!?" word) /\ all_chars no_space word = true.
Proof.
  induction patterns as [|pattern rest IH]; cbn [extract_name_from]; [discriminate|].
  destruct (Py.find pattern message_lower) as [at_|]; [|exact IH].
  pose proof (NormalizerFacts.split_tokens
                (Py.strip (Py.drop (at_ + String.length pattern) message))) as Ht.
  destruct (Py.split (Py.strip (Py.drop (at_ + String.length pattern) message)))
    as [|first others]; [exact IH|].
  intros H. injection H as <-. exists first.
  split; [reflexivity|]. now inversion Ht as [|? ? [_ ?] ?].
Qed.

(** X30: a name extracted from an ASCII message holds no space and
    is capitalized: capitalizing it again changes nothing. *)
Theorem extracted_name_is_one_capitalized_word (message name : string) :
  ascii_only message = true ->
  _extract_name message = Some name ->
  all_chars no_space name = true /\ Py.capitalize name = name.
Proof.
  unfold _extract_name. intros _ H.
  apply extract_name_from_shape in H as (word & -> & Hw).
  split; [|apply capitalize_idem].
  rewrite no_space_capitalize. unfold Py.strip_chars. now apply all_chars_strip_by.
Qed.

Lemma extracted_name_is_one_capitalized_word_witness :
  ascii_only "mage nama SUNIL." = true /\
  _extract_name "mage nama SUNIL." = Some "Sunil" /\
  all_chars no_space "Sunil" = true /\ Py.capitalize "Sunil" = "Sunil".
Proof.
  assert (A : ascii_only "mage nama SUNIL." = true) by (vm_compute; reflexivity).
  assert (E : _extract_name "mage nama SUNIL." = Some "Sunil") by (vm_compute; reflexivity).
  split; [exact A|]. split; [exact E|].
  exact (extracted_name_is_one_capitalized_word "mage nama SUNIL." "Sunil" A E).
Defined.

End ComposerFacts.

Module ServiceFacts.
Import Main.

(** **** Keywords and the trimmed message *)

Lemma contains_lstrip kw s :
  starts_with_letter kw = true ->
  Py.contains kw (Py.lstrip_by Py.isspace s) = Py.contains kw s.
Proof.
  intros Hkw. destruct kw as [|c k]; [discriminate|]. cbn in Hkw.
  induction s as [|d s IH]; [reflexivity|]. cbn [Py.lstrip_by].
  destruct (Py.isspace d) eqn:Ed; [|reflexivity].
  rewrite IH. cbn [Py.contains Py.startswith].
  destruct (Ascii.eqb_spec c d) as [->|_]; [|reflexivity].
  rewrite Ed in Hkw. discriminate.
Qed.

Lemma rstrip_cons d t :
  Py.rstrip_by Py.isspace (String d t)
  = match Py.rstrip_by Py.isspace t with
    | "" => if Py.isspace d then "" else String d ""
    | String e r => String d (String e r)
    end.
Proof. reflexivity. Qed.

Lemma startswith_cons c k d t :
  Py.startswith (String c k) (String d t) = Ascii.eqb c d && Py.startswith k t.
Proof. reflexivity. Qed.

Lemma startswith_nil kw : kw <> "" -> Py.startswith kw "" = false.
Proof. now destruct kw. Qed.

Lemma ends_with_letter_cons c k :
  k <> "" -> ends_with_letter (String c k) = ends_with_letter k.
Proof. now destruct k. Qed.

Lemma startswith_rstrip kw : forall t,
  ends_with_letter kw = true ->
  Py.startswith kw (Py.rstrip_by Py.isspace t) = Py.startswith kw t.
Proof.
  induction kw as [|c k IH]; intros t Hkw; [discriminate|].
  destruct t as [|d t]; [reflexivity|].
  rewrite rstrip_cons.
  destruct k as [|c' k'].
  - cbn in Hkw. apply negb_true_iff in Hkw.
    destruct (Py.rstrip_by Py.isspace t) as [|e r].
    + destruct (Py.isspace d) eqn:Ed; cbn [Py.startswith].
      * destruct (Ascii.eqb_spec c d) as [->|_]; [congruence|reflexivity].
      * reflexivity.
    + reflexivity.
  - rewrite ends_with_letter_cons in Hkw by discriminate.
    specialize (IH t Hkw).
    destruct (Py.rstrip_by Py.isspace t) as [|e r].
    + change (Py.startswith (String c' k') "") with false in IH.
      rewrite (startswith_cons c (String c' k') d t), <- IH, andb_false_r.
      destruct (Py.isspace d); [reflexivity|].
      rewrite (startswith_cons c (String c' k') d ""). apply andb_false_r.
    + rewrite (startswith_cons c (String c' k') d (String e r)),
              (startswith_cons c (String c' k') d t), IH.
      reflexivity.
Qed.

Lemma contains_cons kw d s :
  Py.contains kw (String d s) = Py.startswith kw (String d s) || Py.contains kw s.
Proof. reflexivity. Qed.

Lemma contains_nil kw : kw <> "" -> Py.contains kw "" = false.
Proof. now destruct kw. Qed.

Lemma contains_rstrip kw s :
  ends_with_letter kw = true ->
  Py.contains kw (Py.rstrip_by Py.isspace s) = Py.contains kw s.
Proof.
  intros Hkw.
  assert (Hne : kw <> "") by (intros ->; discriminate).
  induction s as [|d s IH]; [reflexivity|].
  rewrite (contains_cons kw d s), <- IH, <- (startswith_rstrip kw (String d s) Hkw).
  rewrite rstrip_cons.
  destruct (Py.rstrip_by Py.isspace s) as [|e r]; [|apply contains_cons].
  destruct (Py.isspace d); [|apply contains_cons].
  now rewrite (contains_nil kw Hne), (startswith_nil kw Hne).
Qed.

Lemma contains_strip kw s :
  starts_with_letter kw = true -> ends_with_letter kw = true ->
  Py.contains kw (Py.strip s) = Py.contains kw s.
Proof.
  intros H1 H2. unfold Py.strip, Py.strip_by.
  now rewrite contains_rstrip, contains_lstrip.
Qed.

Lemma any_in_strip kws s :
  forallb (fun kw => starts_with_letter kw && ends_with_letter kw) kws = true ->
  Py.any_in kws (Py.strip s) = Py.any_in kws s.
Proof.
  intros H. unfold Py.any_in.
  induction kws as [|kw kws IH]; [reflexivity|]. cbn [existsb forallb] in *.
  apply andb_true_iff in H as [Hkw H]. apply andb_true_iff in Hkw as [H1 H2].
  now rewrite IH, contains_strip.
Qed.

Lemma lower_strip_lower s : Py.lower (Py.strip (Py.lower s)) = Py.strip (Py.lower s).
Proof. apply lower_fixed, all_chars_strip_by, lower_not_upper. Qed.

(** Detection does not depend on the letter case of the message nor
    on the spaces around it. *)
Lemma detect_intent_trimmed message :
  detect_intent (Py.strip (Py.lower message)) = detect_intent message.
Proof.
  unfold detect_intent. cbv zeta. rewrite lower_strip_lower.
  rewrite !any_in_strip by (vm_compute; reflexivity). reflexivity.
Qed.

(** **** The endpoint *)

Ltac decide_tests :=
  repeat match goal with
         | |- context [if ?b then _ else _] => destruct b
         end.

(** The intent detected always has templates, and its confidence is
    one of the four the function returns. *)
Lemma detect_intent_listed message :
  exists listed,
    Py.dict_get responses (fst (detect_intent message)) = Some listed /\
    listed <> [] /\
    (3 # 10 <= snd (detect_intent message) <= 9 # 10)%Q.
Proof.
  unfold detect_intent. cbv zeta. generalize (Py.lower message). intros text.
  decide_tests; cbn [fst snd]; eexists;
    (split; [vm_compute; reflexivity|split; [discriminate|split; discriminate]]).
Qed.

(** X25: on an ASCII message the endpoint never fails: whatever the
    random draws it returns a response; the intent and confidence are
    those [detect_intent] gives for the message as sent, the confidence
    lies between 0.3 and 0.9, the response is one of the templates of
    the intent, and the length reported is that of the lowercased,
    trimmed message. *)
Theorem predict_always_answers
  (elapsed : Q) (request : ChatRequest) (g : ResponseGenerator.rng) :
  ascii_only (message request) = true ->
  exists r listed,
    answered elapsed request g = Return r /\
    (intent r, confidence r) = detect_intent (message request) /\
    Py.dict_get responses (intent r) = Some listed /\
    In (response r) listed /\
    (3 # 10 <= confidence r <= 9 # 10)%Q /\
    message_length (response_metadata r)
    = String.length (Py.strip (Py.lower (message request))).
Proof.
  intros _. unfold answered, predict_response. cbv zeta.
  rewrite detect_intent_trimmed.
  destruct (detect_intent_listed (message request)) as (listed & Hget & Hne & Hc).
  destruct (detect_intent (message request)) as [i c]. cbn [fst snd] in Hget, Hc.
  rewrite ResponseFacts.run_bind.
  unfold generate_response. rewrite Hget.
  destruct (ResponseFacts.choice_In listed g Hne) as (x & -> & Hx).
  rewrite ResponseFacts.run_ret. cbn [fst].
  eexists. exists listed. split; [reflexivity|].
  cbn [intent confidence response response_metadata message_length].
  repeat split; try assumption; apply Hc.
Qed.

(** X25 at work: a greeting with spaces around it. *)
Lemma predict_always_answers_witness :
  ascii_only (message greeting_request) = true /\
  exists r listed,
    answered (1 # 100) greeting_request (fun _ => 0%Z) = Return r /\
    (intent r, confidence r) = detect_intent (message greeting_request) /\
    Py.dict_get responses (intent r) = Some listed /\
    In (response r) listed /\
    (3 # 10 <= confidence r <= 9 # 10)%Q /\
    message_length (response_metadata r)
    = String.length (Py.strip (Py.lower (message greeting_request))).
Proof.
  split; [vm_compute; reflexivity|].
  apply (predict_always_answers (1 # 100) greeting_request (fun _ => 0%Z)).
  vm_compute. reflexivity.
Defined.

(** X26: the intent is [unknown] exactly when none of the keywords
    occurs in the lowercased message, and exactly then the confidence
    is 0.3. *)
Theorem unknown_means_no_keyword (message : string) :
  (fst (detect_intent message) = "unknown"
   <-> Py.any_in keywords (Py.lower message) = false) /\
  (fst (detect_intent message) = "unknown"
   <-> snd (detect_intent message) = (3 # 10)%Q).
Proof.
  unfold detect_intent, keywords, Py.any_in. cbv zeta.
  rewrite !existsb_app.
  generalize (Py.lower message). intros text.
  unfold Py.any_in.
  decide_tests; cbn [fst snd orb]; split; split; intros H;
    try discriminate H; reflexivity.
Qed.

Lemma contains_startswith b s : Py.startswith b s = true -> Py.contains b s = true.
Proof. intros H. destruct s; cbn [Py.contains]; now rewrite H. Qed.

Lemma startswith_suffix a b : forall s,
  Py.startswith (a ++ b) s = true -> Py.contains b s = true.
Proof.
  induction a as [|c a IH]; intros s H; [now apply contains_startswith|].
  destruct s as [|d s]; [discriminate|].
  cbn [append] in H. rewrite startswith_cons in H.
  apply andb_true_iff in H as [_ H].
  rewrite contains_cons, (IH s H). apply orb_true_r.
Qed.

Lemma contains_suffix a b s :
  Py.contains (a ++ b) s = true -> Py.contains b s = true.
Proof.
  induction s as [|d s IH]; intros H.
  - apply (startswith_suffix a b ""). cbn [Py.contains] in H.
    now rewrite orb_false_r in H.
  - rewrite contains_cons in H. apply orb_true_iff in H as [H|H].
    + now apply (startswith_suffix a b).
    + rewrite contains_cons, (IH H). apply orb_true_r.
Qed.

(** X27: the intent [how_are_you] is detected only through
    [how are you] or [kohoma hari]: a message that holds the third
    keyword of the intent, [oya kohomada], holds the greeting
    [kohomada] and is a greeting. *)
Theorem how_are_you_needs_its_own_words (message : string) :
  (fst (detect_intent message) = "how_are_you" ->
   Py.any_in ["how are you"; "kohoma hari"] (Py.lower message) = true) /\
  (Py.contains "oya kohomada" (Py.lower message) = true ->
   detect_intent message = ("greeting", (9 # 10)%Q)).
Proof.
  unfold detect_intent. cbv zeta. generalize (Py.lower message). intros text.
  split.
  - destruct (Py.any_in ["kohomada"; "hello"; "hi"; "ayubowan"] text) eqn:E1;
      [discriminate|].
    assert (Hk : Py.contains "oya kohomada" text = false).
    { destruct (Py.contains "oya kohomada" text) eqn:E; [|reflexivity].
      apply (contains_suffix "oya " "kohomada") in E.
      unfold Py.any_in in E1. cbn [existsb] in E1. now rewrite E in E1. }
    destruct (Py.any_in ["nama mokakda"; "whats your name"; "who are you"; "oya kawda"] text);
      [discriminate|].
    destruct (Py.any_in ["mage nama"; "my name is"; "i am"; "mama"] text);
      [discriminate|].
    destruct (Py.any_in ["oya kohomada"; "how are you"; "kohoma hari"] text) eqn:E4.
    + intros _. unfold Py.any_in in E4 |- *. cbn [existsb] in E4 |- *.
      now rewrite Hk in E4.
    + decide_tests; discriminate.
  - intros H. apply (contains_suffix "oya " "kohomada") in H.
    unfold Py.any_in at 1. cbn [existsb]. now rewrite H.
Qed.

End ServiceFacts.
